(** * Record of the Day: thermodynamic selection

    A shallow embedding of [discogs/utils/thermodynamic_recommendation.py]
    (class [ThermodynamicRecordSelector]), of the [RecordOfTheDay] model of
    [discogs/models.py] and of the two views of [discogs/views.py] that
    persist the daily selection ([DashboardAPIView.get] and
    [refresh_record_of_the_day_view]); then of the vote view, of the score
    of a listing ([discogs/utils/scoring.py]), of the currency conversion of
    [BaseScraperDataView], of the rate limiter
    ([discogs/utils/rate_limits.py]) and of the inventory file
    ([discogs/scraper/get_inventory.py]).

    Conventions of the embedding.
    - Python floats and [Decimal]s are exact rationals ([Q]); rounding is not
      modelled.  Where numpy produces [inf] or [nan] instead of raising (the
      Boltzmann sampler) the values live in [npfloat].
    - Python code runs in the monad [M]: a state monad over [World] (database,
      selector object, random generator, log, clock) with exceptions.  State
      changes made before an exception are kept, as in Python.
    - scikit-learn estimators and the two numpy functions that are not
      rational ([sqrt], [exp]) are the fields of the class [Externals]. *)

From Stdlib Require Import QArith Qminmax Qround Qabs Lqa Sorted.
From stdpp Require Import gmap strings list fin_maps.

Set Default Proof Using "Type".

(** ** Numbers *)

Module Num.

(** [a < b] on Python numbers, as a boolean. *)
Definition Qltb (a b : Q) : bool := negb (Qle_bool b a).

(** [np.clip(x, lo, hi)] is [minimum(maximum(x, lo), hi)]. *)
Definition np_clip (x lo hi : Q) : Q := Qmin (Qmax x lo) hi.

(** Python's [sum] over floats, and [np.mean]. *)
Definition Qsum (l : list Q) : Q := foldl Qplus 0%Q l.

Definition of_nat (n : nat) : Q := inject_Z (Z.of_nat n).

Definition np_mean (l : list Q) : Q := (Qsum l / of_nat (length l))%Q.

(** The fractional part of a rational, in [[0, 1)]. *)
Definition frac (q : Q) : Q := (q - inject_Z (Qfloor q))%Q.

(** numpy's floats where the code relies on [inf] and [nan]: a finite value
    or one of the three special values.  Zero is taken as positive zero. *)
Inductive npfloat := Fin (q : Q) | PInf | NInf | NaN.

Definition fneg (x : npfloat) : npfloat :=
  match x with
  | Fin q => Fin (- q)
  | PInf => NInf
  | NInf => PInf
  | NaN => NaN
  end.

Definition fadd (x y : npfloat) : npfloat :=
  match x, y with
  | NaN, _ | _, NaN => NaN
  | Fin a, Fin b => Fin (a + b)
  | PInf, NInf | NInf, PInf => NaN
  | PInf, _ | _, PInf => PInf
  | NInf, _ | _, NInf => NInf
  end.

(** numpy division: a zero divisor gives [inf] or [nan], never an exception. *)
Definition fdiv (x y : npfloat) : npfloat :=
  match x, y with
  | NaN, _ | _, NaN => NaN
  | Fin a, Fin b =>
      if Qeq_bool b 0 then
        if Qeq_bool a 0 then NaN else if Qltb 0 a then PInf else NInf
      else Fin (a / b)
  | Fin _, _ => Fin 0
  | PInf, Fin b => if Qltb b 0 then NInf else PInf
  | NInf, Fin b => if Qltb b 0 then PInf else NInf
  | _, _ => NaN
  end.

(** [np.sum] of an array. *)
Definition np_sum (l : list npfloat) : npfloat := foldl fadd (Fin 0) l.

Definition is_nan (x : npfloat) : bool :=
  match x with NaN => true | _ => false end.

(** [x < 0] on numpy floats ([nan] compares false). *)
Definition fnegative (x : npfloat) : bool :=
  match x with
  | Fin q => Qltb q 0
  | NInf => true
  | _ => false
  end.

Definition finite (x : npfloat) : option Q :=
  match x with Fin q => Some q | _ => None end.

End Num.
Export Num.

(** ** Data model ([discogs/models.py]) *)

(** The Python values that can sit under a breakdown key. *)
Inductive Val := VFloat (x : npfloat) | VInt (z : Z) | VStr (s : string).

(** The breakdown [dict]. *)
Abbreviation Breakdown := (gmap string Val).

Record Record_ := {
  artist : string;
  title : string;
  label : string;
  genres : list string;
  styles : list string;
  wants : Z;
  haves : Z;
  year : option Z;
  added : Z  (* seconds since the epoch *)
}.

(** A [Listing] row joined with its [record]. *)
Record Listing := {
  id : Z;
  record : Record_;
  record_price : Q;
  score : Q;
  kept : bool;
  evaluated : bool
}.

(** Django compares model instances by primary key. *)
Definition listing_eqb (a b : Listing) : bool := (id a =? id b)%Z.

Fixpoint listings_eqb (a b : list Listing) : bool :=
  match a, b with
  | [], [] => true
  | x :: a', y :: b' => listing_eqb x y && listings_eqb a' b'
  | _, _ => false
  end.

Record RecordOfTheDay := {
  rotd_id : Z;
  date : Z;          (* days since the epoch; [unique=True] *)
  listing_id : Z;    (* foreign key to [Listing] *)
  model_score : npfloat;
  entropy_measure : npfloat;
  system_temperature : npfloat;
  utility_term : npfloat;
  entropy_term : npfloat;
  free_energy : npfloat;
  selection_probability : npfloat;
  total_candidates : Z;
  cluster_count : Z;
  selection_method : string;
  desirability_votes : list Q;
  novelty_votes : list Q;
  average_desirability : Q;
  average_novelty : Q
}.

Record DB := {
  listings : list Listing;
  record_of_the_days : list RecordOfTheDay;
  next_rotd_id : Z
}.

(** ** Exceptions and the monad *)

Inductive exn :=
| ValueError (msg : string)
| ZeroDivisionError (msg : string)
| IndexError (msg : string)
| DoesNotExist (model : string) (msg : string)
| MultipleObjectsReturned (msg : string)
| IntegrityError (msg : string)
| EstimatorError (msg : string).

(** [str(e)] *)
Definition str (e : exn) : string :=
  match e with
  | ValueError m | ZeroDivisionError m | IndexError m | DoesNotExist _ m
  | MultipleObjectsReturned m | IntegrityError m | EstimatorError m => m
  end.

Inductive Res (A : Type) := Ok (a : A) | Raise (e : exn).
Arguments Ok {A} a.
Arguments Raise {A} e.

Definition Matrix := list (list Q).

Inductive Level := INFO | WARNING | ERROR.

(** ** What the code takes from scikit-learn and numpy

    Every estimator is an object with hidden state; a fitting method returns
    the new state together with its result, and any method may raise. *)
Class Externals := {
  Vectorizer : Type;
  Scaler : Type;
  Pca : Type;
  KMeans : Type;
  (** [TfidfVectorizer(max_features=100, stop_words='english')] *)
  new_vectorizer : Vectorizer;
  (** [StandardScaler()] *)
  new_scaler : Scaler;
  (** [PCA(n_components=10)] *)
  new_pca : Pca;
  (** [KMeans(n_clusters=5, random_state=42)] *)
  new_kmeans : KMeans;
  tfidf_fit_transform : Vectorizer -> list string -> Vectorizer * Res Matrix;
  tfidf_transform : Vectorizer -> list string -> Res Matrix;
  std_fit_transform : Scaler -> Matrix -> Scaler * Res Matrix;
  std_transform : Scaler -> Matrix -> Res Matrix;
  pca_fit_transform : Pca -> Matrix -> Pca * Res Matrix;
  pca_transform : Pca -> Matrix -> Res Matrix;
  kmeans_fit : KMeans -> Matrix -> KMeans * Res unit;
  cluster_centers_ : KMeans -> Matrix;
  (** [np.sqrt] on a finite float *)
  np_sqrt : Q -> Q;
  (** [np.exp] on a finite float; it may overflow to [inf] *)
  np_exp : Q -> npfloat
}.

Section Model.
Context `{Ext : Externals}.

(** *** The selector object and the world *)

Record Selector := {
  vectorizer : Vectorizer;
  scaler : Scaler;
  pca : Pca;
  cluster_model : KMeans;
  recent_listings_cache : option (list Listing);
  cluster_centroids : option Matrix;
  feature_cache : option Matrix;
  is_fitted : bool
}.

(** [ThermodynamicRecordSelector.__init__] *)
Definition new_selector : Selector := {|
  vectorizer := new_vectorizer;
  scaler := new_scaler;
  pca := new_pca;
  cluster_model := new_kmeans;
  recent_listings_cache := None;
  cluster_centroids := None;
  feature_cache := None;
  is_fitted := false
|}.

Record World := {
  db : DB;
  self : Selector;
  rng : nat -> Q;       (* the stream behind [np.random] *)
  rng_pos : nat;        (* how many draws were made *)
  log : list (Level * string);
  now : Z               (* [timezone.now()], in seconds *)
}.

Definition M (A : Type) : Type := World -> Res A * World.

Definition ret {A} (a : A) : M A := fun w => (Ok a, w).

Definition bind {A B} (m : M A) (k : A -> M B) : M B :=
  fun w =>
    match m w with
    | (Ok a, w') => k a w'
    | (Raise e, w') => (Raise e, w')
    end.

Definition raise {A} (e : exn) : M A := fun w => (Raise e, w).

Definition lift {A} (r : Res A) : M A := fun w => (r, w).

(** [try: body except Exception as e: handler(e)] *)
Definition try_except {A} (body : M A) (handler : exn -> M A) : M A :=
  fun w =>
    match body w with
    | (Ok a, w') => (Ok a, w')
    | (Raise e, w') => handler e w'
    end.

(** [try: body except C as e: handler(e)] for one exception class [C] *)
Definition try_except_class {A} (C : exn -> bool) (body : M A)
    (handler : exn -> M A) : M A :=
  fun w =>
    match body w with
    | (Ok a, w') => (Ok a, w')
    | (Raise e, w') => if C e then handler e w' else (Raise e, w')
    end.

(** The monad's operations under stdpp's notations [x ← m; k] and [m;; k]. *)
#[export] Instance M_ret : MRet M := @ret.
#[export] Instance M_bind : MBind M := fun A B k m => bind m k.

End Model.

Section Primitives.
Context `{Ext : Externals}.

Definition get_self : M Selector := fun w => (Ok (self w), w).

Definition put_self (s : Selector) : M unit :=
  fun w => (Ok tt, {| db := db w; self := s; rng := rng w; rng_pos := rng_pos w;
                      log := log w; now := now w |}).

(** A method call on [self]: it may change the object and may raise. *)
Definition call_self {A} (f : Selector -> Selector * Res A) : M A :=
  fun w => (snd (f (self w)),
            {| db := db w; self := fst (f (self w)); rng := rng w; rng_pos := rng_pos w;
               log := log w; now := now w |}).

(** An attribute assignment [self.x = v]. *)
Definition modify_self (f : Selector -> Selector) : M unit :=
  call_self (fun s => (f s, Ok tt)).

Definition put_db (d : DB) : M unit :=
  fun w => (Ok tt, {| db := d; self := self w; rng := rng w; rng_pos := rng_pos w;
                      log := log w; now := now w |}).

(** A read-only ORM query. *)
Definition query {A} (q : DB -> A) : M A := fun w => (Ok (q (db w)), w).

(** [timezone.now()] *)
Definition timezone_now : M Z := fun w => (Ok (now w), w).

(** [logger.info], [logger.warning], [logger.error]; interpolated values are
    left out of the recorded message. *)
Definition logger (lvl : Level) (msg : string) : M unit :=
  fun w => (Ok tt, {| db := db w; self := self w; rng := rng w; rng_pos := rng_pos w;
                      log := log w ++ [(lvl, msg)]; now := now w |}).

(** The generator's next float in [[0, 1)]: the next stream entry reduced to
    its fractional part, so that every stream is a generator. *)
Definition random_sample : M Q :=
  fun w => (Ok (frac (rng w (rng_pos w))),
            {| db := db w; self := self w; rng := rng w; rng_pos := S (rng_pos w);
               log := log w; now := now w |}).

(** [np.random.uniform(low, high)] *)
Definition np_random_uniform (low high : Q) : M Q :=
  u ← random_sample; ret (low + (high - low) * u)%Q.

(** [l[i]] *)
Definition py_index {A} (l : list A) (i : nat) : Res A :=
  match l !! i with
  | Some x => Ok x
  | None => Raise (IndexError "list index out of range")
  end.

(** [l.index(x)] on a list of identifiers *)
Fixpoint list_index (l : list Z) (x : Z) : Res nat :=
  match l with
  | [] => Raise (ValueError "x is not in list")
  | y :: l' =>
      if (y =? x)%Z then Ok 0%nat
      else match list_index l' x with
           | Ok i => Ok (S i)
           | Raise e => Raise e
           end
  end.

(** [for x in l: body(x)], collecting one result per iteration *)
Fixpoint for_each {A B} (body : A -> M B) (l : list A) : M (list B) :=
  match l with
  | [] => ret []
  | x :: l' => b ← body x; bs ← for_each body l'; ret (b :: bs)
  end.

(** *** The ORM *)

(** [qs[:k]]: Django refuses a negative bound. *)
Definition slice_to {A} (k : Z) (l : list A) : Res (list A) :=
  if (k <? 0)%Z then Raise (ValueError "Negative indexing is not supported.")
  else Ok (take (Z.to_nat k) l).

Fixpoint insert_by {A} (before : A -> A -> bool) (x : A) (l : list A) : list A :=
  match l with
  | [] => [x]
  | y :: l' => if before y x then y :: insert_by before x l' else x :: y :: l'
  end.

(** [order_by]: [before y x] says that [y] sorts strictly before [x]; rows
    with equal keys keep their table order. *)
Definition order_by {A} (before : A -> A -> bool) (l : list A) : list A :=
  foldr (insert_by before) [] l.

Definition by_score_desc (a b : Listing) : bool := Qltb (score b) (score a).
Definition by_added_desc (a b : Listing) : bool := (added (record b) <? added (record a))%Z.
Definition by_date_desc (a b : RecordOfTheDay) : bool := (date b <? date a)%Z.

(** [Listing.objects.filter(score__gt=t).order_by('-score')] *)
Definition listings_score_gt (t : Q) (d : DB) : list Listing :=
  order_by by_score_desc (List.filter (fun l => Qltb t (score l)) (listings d)).

(** [Listing.objects.filter(record__added__gte=c).order_by('-record__added')] *)
Definition listings_added_gte (c : Z) (d : DB) : list Listing :=
  order_by by_added_desc (List.filter (fun l => (c <=? added (record l))%Z) (listings d)).

(** [RecordOfTheDay.objects.all()], in the model's [ordering = ['-date']] *)
Definition rotd_all (d : DB) : list RecordOfTheDay :=
  order_by by_date_desc (record_of_the_days d).

(** [r.listing] *)
Definition rotd_listing (d : DB) (r : RecordOfTheDay) : option Listing :=
  List.find (fun l => (id l =? listing_id r)%Z) (listings d).

(** [genres] is a [JSONField] that holds a JSON array of strings.  A
    [JSONField] has no [overlap] lookup (that is a lookup of PostgreSQL's
    [ArrayField]), so Django reads [genres__overlap=g] as the key transform
    [genres -> 'overlap'] compared with [g] for equality.  An array has no
    member of that name: the transform gives SQL [NULL] and the comparison
    selects no row. *)
Inductive Json := JArr (l : list string) | JObj (m : gmap string (list string)).

Definition key_transform (key : string) (v : Json) : option (list string) :=
  match v with
  | JObj m => m !! key
  | JArr _ => None
  end.

Definition genres_overlap (a b : list string) : bool :=
  match key_transform "overlap" (JArr a) with
  | Some v => bool_decide (v = b)
  | None => false
  end.

(** [RecordOfTheDay.objects.filter(listing__record__genres__overlap=g)] *)
Definition rotd_genres_overlap (g : list string) (d : DB) : list RecordOfTheDay :=
  List.filter (fun r => match rotd_listing d r with
                        | Some l => genres_overlap (genres (record l)) g
                        | None => false
                        end) (rotd_all d).

End Primitives.

(** ** [ThermodynamicRecordSelector] *)

Section Selector.
Context `{Ext : Externals}.

(** *** Estimator calls on the selector's attributes *)

Definition with_vectorizer (s : Selector) (v : Vectorizer) : Selector :=
  {| vectorizer := v; scaler := scaler s; pca := pca s; cluster_model := cluster_model s;
     recent_listings_cache := recent_listings_cache s;
     cluster_centroids := cluster_centroids s; feature_cache := feature_cache s;
     is_fitted := is_fitted s |}.

Definition with_scaler (s : Selector) (v : Scaler) : Selector :=
  {| vectorizer := vectorizer s; scaler := v; pca := pca s; cluster_model := cluster_model s;
     recent_listings_cache := recent_listings_cache s;
     cluster_centroids := cluster_centroids s; feature_cache := feature_cache s;
     is_fitted := is_fitted s |}.

Definition with_pca (s : Selector) (v : Pca) : Selector :=
  {| vectorizer := vectorizer s; scaler := scaler s; pca := v; cluster_model := cluster_model s;
     recent_listings_cache := recent_listings_cache s;
     cluster_centroids := cluster_centroids s; feature_cache := feature_cache s;
     is_fitted := is_fitted s |}.

Definition with_cluster_model (s : Selector) (v : KMeans) : Selector :=
  {| vectorizer := vectorizer s; scaler := scaler s; pca := pca s; cluster_model := v;
     recent_listings_cache := recent_listings_cache s;
     cluster_centroids := cluster_centroids s; feature_cache := feature_cache s;
     is_fitted := is_fitted s |}.

Definition with_recent_listings_cache (s : Selector) (v : option (list Listing)) : Selector :=
  {| vectorizer := vectorizer s; scaler := scaler s; pca := pca s;
     cluster_model := cluster_model s; recent_listings_cache := v;
     cluster_centroids := cluster_centroids s; feature_cache := feature_cache s;
     is_fitted := is_fitted s |}.

Definition with_cluster_centroids (s : Selector) (v : option Matrix) : Selector :=
  {| vectorizer := vectorizer s; scaler := scaler s; pca := pca s;
     cluster_model := cluster_model s; recent_listings_cache := recent_listings_cache s;
     cluster_centroids := v; feature_cache := feature_cache s;
     is_fitted := is_fitted s |}.

Definition with_feature_cache (s : Selector) (v : option Matrix) : Selector :=
  {| vectorizer := vectorizer s; scaler := scaler s; pca := pca s;
     cluster_model := cluster_model s; recent_listings_cache := recent_listings_cache s;
     cluster_centroids := cluster_centroids s; feature_cache := v;
     is_fitted := is_fitted s |}.

Definition with_is_fitted (s : Selector) (v : bool) : Selector :=
  {| vectorizer := vectorizer s; scaler := scaler s; pca := pca s;
     cluster_model := cluster_model s; recent_listings_cache := recent_listings_cache s;
     cluster_centroids := cluster_centroids s; feature_cache := feature_cache s;
     is_fitted := v |}.

(** [self.vectorizer.fit_transform(text_data)] *)
Definition self_vectorizer_fit_transform (text_data : list string) : M Matrix :=
  call_self (fun s =>
    let '(v, r) := tfidf_fit_transform (vectorizer s) text_data in
    (with_vectorizer s v, r)).

(** [self.vectorizer.transform(text_data)] *)
Definition self_vectorizer_transform (text_data : list string) : M Matrix :=
  s ← get_self; lift (tfidf_transform (vectorizer s) text_data).

(** [self.scaler.fit_transform(x)] *)
Definition self_scaler_fit_transform (x : Matrix) : M Matrix :=
  call_self (fun s =>
    let '(v, r) := std_fit_transform (scaler s) x in
    (with_scaler s v, r)).

(** [self.scaler.transform(x)] *)
Definition self_scaler_transform (x : Matrix) : M Matrix :=
  s ← get_self; lift (std_transform (scaler s) x).

(** [self.pca.fit_transform(x)] *)
Definition self_pca_fit_transform (x : Matrix) : M Matrix :=
  call_self (fun s =>
    let '(v, r) := pca_fit_transform (pca s) x in
    (with_pca s v, r)).

(** [self.pca.transform(x)] *)
Definition self_pca_transform (x : Matrix) : M Matrix :=
  s ← get_self; lift (pca_transform (pca s) x).

(** [self.cluster_model.fit(x)] *)
Definition self_cluster_model_fit (x : Matrix) : M unit :=
  call_self (fun s =>
    let '(v, r) := kmeans_fit (cluster_model s) x in
    (with_cluster_model s v, r)).

(** *** numpy on matrices *)

(** [a.shape[0]] and [a.shape[1]] *)
Definition shape0 (a : Matrix) : nat := length a.
Definition shape1 (a : Matrix) : nat :=
  match a with
  | [] => 0
  | r :: _ => length r
  end.

(** [np.hstack([a, b])] of two-dimensional arrays *)
Definition np_hstack (a b : Matrix) : Res Matrix :=
  if (shape0 a =? shape0 b)%nat then Ok (zip_with app a b)
  else Raise (ValueError "all the input array dimensions except for the concatenation axis must match exactly").

Definition sq_dist (x y : list Q) : Q :=
  Qsum (zip_with (fun a b => (a - b) * (a - b))%Q x y).

(** [sklearn.metrics.pairwise.euclidean_distances(X, Y)] *)
Definition euclidean_distances (X Y : Matrix) : Res Matrix :=
  if (shape1 X =? shape1 Y)%nat then
    Ok (map (fun x => map (fun y => np_sqrt (sq_dist x y)) Y) X)
  else Raise (ValueError "Incompatible dimension for X and Y matrices").

(** [np.min(a)] and [np.max(a)] over all entries *)
Definition np_min (a : Matrix) : Res Q :=
  match concat a with
  | [] => Raise (ValueError "zero-size array to reduction operation minimum which has no identity")
  | x :: l => Ok (foldl Qmin x l)
  end.

Definition np_max (a : Matrix) : Res Q :=
  match concat a with
  | [] => Raise (ValueError "zero-size array to reduction operation maximum which has no identity")
  | x :: l => Ok (foldl Qmax x l)
  end.

Definition np_var (l : list Q) : Q :=
  let m := np_mean l in np_mean (map (fun x => (x - m) * (x - m))%Q l).

Definition np_std (l : list Q) : Q := np_sqrt (np_var l).

(** *** [_extract_listing_features] *)

Record feature_dict := {
  price_normalized : Q;
  f_wants : Q;
  f_haves : Q;
  wants_haves_ratio : Q;
  f_year : Q;
  f_score : Q;
  f_listing_id : Z
}.

Definition text_content (r : Record_) : string :=
  artist r +:+ " " +:+ title r +:+ " " +:+ label r +:+ " " +:+
  String.concat " " (genres r) +:+ " " +:+ String.concat " " (styles r).

Definition listing_features (l : Listing) : feature_dict :=
  let r := record l in {|
    price_normalized := (record_price l / 100)%Q;
    f_wants := inject_Z (wants r);
    f_haves := inject_Z (haves r);
    wants_haves_ratio := (inject_Z (wants r) / inject_Z (Z.max (haves r) 1))%Q;
    f_year := inject_Z (match year r with
                        | Some y => if (y =? 0)%Z then 1970 else y
                        | None => 1970
                        end);
    f_score := score l;
    f_listing_id := id l
  |}.

Definition _extract_listing_features (ls : list Listing)
    : list feature_dict * list string :=
  (map listing_features ls, map (fun l => text_content (record l)) ls).

(** The row of [df.values] once the [listing_id] column is dropped. *)
Definition numerical_row (f : feature_dict) : list Q :=
  [price_normalized f; f_wants f; f_haves f; wants_haves_ratio f; f_year f; f_score f].

(** *** [_build_feature_vectors] *)

Definition _build_feature_vectors (ls : list Listing) (fit_transformers : bool)
    : M (Matrix * list Z) :=
  match ls with
  | [] => ret ([], [])
  | _ =>
      let '(features, text_data) := _extract_listing_features ls in
      let listing_ids := map f_listing_id features in
      s ← get_self;
      text_features ←
        (if negb (is_fitted s) || fit_transformers then
           m ← self_vectorizer_fit_transform text_data;
           modify_self (fun s => with_is_fitted s true);;
           ret m
         else
           try_except (self_vectorizer_transform text_data)
                      (fun _ => self_vectorizer_fit_transform text_data));
      let numerical_features := map numerical_row features in
      combined_features ← lift (np_hstack numerical_features text_features);
      combined_features ←
        (if fit_transformers then self_scaler_fit_transform combined_features
         else
           try_except (self_scaler_transform combined_features)
                      (fun _ => self_scaler_fit_transform combined_features));
      ret (combined_features, listing_ids)
  end.

(** *** [_update_cluster_model] *)

Definition cache_hit (c : option (list Listing)) (recent_listings : list Listing) : bool :=
  match c with
  | Some l => listings_eqb l recent_listings
  | None => false
  end.

(** The statements of [_update_cluster_model] that follow the assignment of
    the cache, from "Build feature vectors" to the final [return True]. *)
Definition refit_cluster_model (recent_listings : list Listing) : M bool :=
  '(feature_vectors, _) ← _build_feature_vectors recent_listings true;
  if (shape0 feature_vectors =? 0)%nat then ret false
  else
    feature_vectors ←
      (if (10 <? shape1 feature_vectors)%nat
       then self_pca_fit_transform feature_vectors
       else ret feature_vectors);
    self_cluster_model_fit feature_vectors;;
    modify_self (fun s =>
      with_cluster_centroids s (Some (cluster_centers_ (cluster_model s))));;
    modify_self (fun s => with_feature_cache s (Some feature_vectors));;
    logger INFO "Updated cluster model with recent listings";;
    ret true.

Definition _update_cluster_model (recent_listings : list Listing) : M bool :=
  try_except
    (if (length recent_listings <? 5)%nat then
       logger WARNING "Insufficient recent listings for clustering";;
       ret false
     else
       s ← get_self;
       if cache_hit (recent_listings_cache s) recent_listings then
         logger INFO "Using cached cluster model";;
         ret true
       else
         modify_self (fun s => with_recent_listings_cache s (Some recent_listings));;
         refit_cluster_model recent_listings)
    (fun e =>
       logger ERROR "Error updating cluster model";;
       ret false).

End Selector.

Section Thermodynamics.
Context `{Ext : Externals}.

(** *** [_calculate_entropy_measure] *)

(** [RecordOfTheDay.objects.filter(listing__record__genres__overlap=g)[:5]] *)
Definition similar_records (g : list string) (d : DB) : list RecordOfTheDay :=
  take 5 (rotd_genres_overlap g d).

(** [sum(r.average_novelty for r in similar_records) / max(1, len(similar_records))] *)
Definition avg_novelty (rs : list RecordOfTheDay) : Q :=
  (Qsum (map average_novelty rs) / of_nat (Nat.max 1 (length rs)))%Q.

Definition _calculate_entropy_measure (listing : Listing)
    (recent_listings : list Listing) : M Q :=
  try_except
    (s ← get_self;
     match cluster_centroids s with
     | None => np_random_uniform 0.3 0.7
     | Some centroids =>
         '(feature_vector, _) ← _build_feature_vectors [listing] false;
         if (shape0 feature_vector =? 0)%nat then ret 0.5%Q
         else
           reduced ←
             (if (10 <? shape1 feature_vector)%nat then
                try_except (v ← self_pca_transform feature_vector; ret (Some v))
                           (fun _ => ret None)
              else ret (Some feature_vector));
           match reduced with
           | None => ret 0.5%Q
           | Some feature_vector =>
               distances ← lift (euclidean_distances feature_vector centroids);
               min_distance ← lift (np_min distances);
               pairwise ← lift (euclidean_distances centroids centroids);
               max_possible_distance ← lift (np_max pairwise);
               let entropy_measure :=
                 if Qltb 0 max_possible_distance
                 then (min_distance / (max_possible_distance + 1e-6))%Q
                 else 0.5%Q in
               let entropy_measure := np_clip entropy_measure 0.1 0.9 in
               similar ← query (similar_records (genres (record listing)));
               ret (entropy_measure * (1 + 0.3 * avg_novelty similar))%Q
           end
     end)
    (fun e =>
       logger ERROR "Error calculating entropy measure";;
       ret 0.5%Q).

(** *** [_calculate_system_temperature] *)

(** [unevaluated_count / max(total_listings, 1)] *)
Definition unevaluated_ratio (eligible_listings : list Listing) : Q :=
  (of_nat (length (List.filter (fun l => negb (evaluated l)) eligible_listings))
   / of_nat (Nat.max (length eligible_listings) 1))%Q.

(** [[float(l.score) for l in eligible_listings if l.score > 0]] *)
Definition positive_scores (eligible_listings : list Listing) : list Q :=
  map score (List.filter (fun l => Qltb 0 (score l)) eligible_listings).

Definition uncertainty_factor (eligible_listings : list Listing) : Q :=
  match positive_scores eligible_listings with
  | [] => 0.5%Q
  | scores => Qmin (np_std scores / (np_mean scores + 1e-6))%Q 1
  end.

(** [past_records = RecordOfTheDay.objects.all()[:10]] and the [sum] over
    their [average_desirability] *)
Definition past_records (d : DB) : list RecordOfTheDay := take 10 (rotd_all d).

Definition avg_desirability (d : DB) : Q :=
  Qsum (map average_desirability (past_records d)).

Definition _calculate_system_temperature (eligible_listings : list Listing) : M Q :=
  try_except
    (let base_temperature := 0.5%Q in
     let exploration_boost :=
       (0.3 * unevaluated_ratio eligible_listings
        + 0.2 * uncertainty_factor eligible_listings)%Q in
     avg ← query avg_desirability;
     let temperature := ((base_temperature + exploration_boost) * (1 + 0.2 * avg))%Q in
     let temperature := np_clip temperature 0.1 1.0 in
     logger INFO "System temperature";;
     ret temperature)
    (fun e =>
       logger ERROR "Error calculating system temperature";;
       ret 0.5%Q).

(** *** [_calculate_free_energy] *)

Definition utility_of (listing : Listing) : Q :=
  if Qltb 0 (score listing) then (- score listing)%Q else (- 1.0)%Q.

Definition _calculate_free_energy (listing : Listing) (entropy_measure temperature : Q)
    : M (Q * Q * Q) :=
  try_except
    (let utility := utility_of listing in
     let entropy_term := (temperature * entropy_measure)%Q in
     let free_energy := (utility - entropy_term)%Q in
     ret (free_energy, utility, entropy_term))
    (fun e =>
       logger ERROR "Error calculating free energy";;
       ret (0.0, 0.0, 0.0)%Q).

(** *** [_boltzmann_sampling] *)

(** [np.exp] on an array entry *)
Definition fexp (x : npfloat) : npfloat :=
  match x with
  | Fin q => np_exp q
  | PInf => PInf
  | NInf => Fin 0
  | NaN => NaN
  end.

(** [np.exp(-free_energies / temperature)] *)
Definition boltzmann_weights (free_energies : list Q) (temperature : Q) : list npfloat :=
  map (fun f => fexp (fdiv (fneg (Fin f)) (Fin temperature))) free_energies.

(** [boltzmann_weights / np.sum(boltzmann_weights)] *)
Definition normalize (weights : list npfloat) : list npfloat :=
  map (fun w => fdiv w (np_sum weights)) weights.

(** The running sums [p.cumsum()]. *)
Fixpoint cumsum_from (acc : Q) (p : list Q) : list Q :=
  match p with
  | [] => []
  | x :: p' => (acc + x)%Q :: cumsum_from (acc + x)%Q p'
  end.

Definition cumsum (p : list Q) : list Q := cumsum_from 0 p.

(** [cdf.searchsorted(u, side='right')] on a non-decreasing [cdf]: the number
    of leading entries that are at most [u]. *)
Fixpoint searchsorted_right (cdf : list Q) (u : Q) : nat :=
  match cdf with
  | [] => 0
  | c :: cdf' => if Qle_bool c u then S (searchsorted_right cdf' u) else 0
  end.

(** The tolerance of [np.random.choice] on the sum of [p]: the square root
    of the float epsilon, [2^-26]. *)
Definition atol : Q := 1 # 67108864.

(** The entries of [p] when all of them are finite. *)
Definition finite_values (p : list npfloat) : option (list Q) :=
  mapM finite p.

(** [np.random.choice(a, p=p)] for an integer [a] *)
Definition np_random_choice_p (a : nat) (p : list npfloat) : M nat :=
  if (a =? 0)%nat then raise (ValueError "a must be greater than 0 unless no samples are taken")
  else if negb (length p =? a)%nat then raise (ValueError "'a' and 'p' must have same size")
  else if existsb is_nan p then raise (ValueError "probabilities contain NaN")
  else if existsb fnegative p then raise (ValueError "probabilities are not non-negative")
  else
    match finite_values p with
    | None => raise (ValueError "probabilities do not sum to 1")
    | Some ps =>
        if Qltb atol (Qabs (Qsum ps - 1)) then
          raise (ValueError "probabilities do not sum to 1")
        else
          u ← random_sample;
          let cdf := map (fun c => c / Qsum ps)%Q (cumsum ps) in
          ret (searchsorted_right cdf u)
    end.

(** [np.random.choice(a)] for a list [a]: a uniform index *)
Definition np_random_choice (a : list Z) : M Z :=
  match a with
  | [] => raise (ValueError "'a' cannot be empty unless no samples are taken")
  | _ =>
      u ← random_sample;
      lift (py_index a (Z.to_nat (Qfloor (u * of_nat (length a)))))
  end.

(** [1.0 / n] in Python *)
Definition py_inv (n : nat) : Res Q :=
  if (n =? 0)%nat then Raise (ZeroDivisionError "float division by zero")
  else Ok (1.0 / of_nat n)%Q.

Definition _boltzmann_sampling (free_energies : list Q) (listing_ids : list Z)
    (temperature : Q) : M (Z * npfloat) :=
  try_except
    (let weights := boltzmann_weights free_energies temperature in
     let probabilities := normalize weights in
     selected_idx ← np_random_choice_p (length listing_ids) probabilities;
     selected_id ← lift (py_index listing_ids selected_idx);
     p ← lift (py_index probabilities selected_idx);
     ret (selected_id, p))
    (fun e =>
       logger ERROR "Error in Boltzmann sampling";;
       c ← np_random_choice listing_ids;
       p ← lift (py_inv (length listing_ids));
       ret (c, Fin p)).

End Thermodynamics.

Section Orchestrator.
Context `{Ext : Externals}.

(** *** [select_record_of_the_day] *)

(** [Listing.objects.filter(score__gt=0).order_by('-score').first()] *)
Definition highest_scored (d : DB) : option Listing := head (listings_score_gt 0 d).

(** [timezone.now().date()], in days *)
Definition date_of (t : Z) : Z := (t / 86400)%Z.

(** [timedelta(days=7)], in seconds *)
Definition seven_days : Z := (7 * 86400)%Z.

(** What one turn of the [for listing in eligible_listings] loop appends to
    the five lists. *)
Record candidate := {
  c_free_energy : Q;
  c_entropy_measure : Q;
  c_utility : Q;
  c_entropy_term : Q;
  c_listing_id : Z
}.

Definition evaluate_candidate (recent_listings : list Listing) (temperature : Q)
    (listing : Listing) : M candidate :=
  entropy_measure ← _calculate_entropy_measure listing recent_listings;
  '(free_energy, utility, entropy_term) ←
    _calculate_free_energy listing entropy_measure temperature;
  ret {| c_free_energy := free_energy; c_entropy_measure := entropy_measure;
         c_utility := utility; c_entropy_term := entropy_term;
         c_listing_id := id listing |}.

(** [len(self.cluster_centroids) if self.cluster_centroids is not None else 0] *)
Definition cluster_count_of (s : Selector) : Z :=
  match cluster_centroids s with
  | Some c => Z.of_nat (length c)
  | None => 0
  end.

Definition thermodynamic_breakdown (model_score entropy_measure temperature utility
    entropy_term free_energy : Q) (selection_probability : npfloat)
    (total_candidates cluster_count : Z) : Breakdown :=
  <["model_score" := VFloat (Fin model_score)]>
  (<["entropy_measure" := VFloat (Fin entropy_measure)]>
  (<["system_temperature" := VFloat (Fin temperature)]>
  (<["utility_term" := VFloat (Fin utility)]>
  (<["entropy_term" := VFloat (Fin entropy_term)]>
  (<["free_energy" := VFloat (Fin free_energy)]>
  (<["selection_probability" := VFloat selection_probability]>
  (<["total_candidates" := VInt total_candidates]>
  (<["cluster_count" := VInt cluster_count]>
  (<["selection_method" := VStr "thermodynamic_boltzmann"]> ∅))))))))).

(** The body of the outer [try]. *)
Definition select_body (max_candidates : Z) : M (option Listing * Breakdown) :=
  scored ← query (listings_score_gt 0.5);
  eligible_listings ← lift (slice_to max_candidates scored);
  match eligible_listings with
  | [] =>
      logger WARNING "No eligible listings found for Record of the Day";;
      ret (None, ∅)
  | first :: _ =>
      t ← timezone_now;
      let recent_cutoff := (t - seven_days)%Z in
      recent ← query (listings_added_gte recent_cutoff);
      recent_listings ← lift (slice_to 100 recent);
      let recent_listings :=
        match recent_listings with
        | [] => eligible_listings
        | _ => recent_listings
        end in
      _update_cluster_model recent_listings;;
      temperature ← _calculate_system_temperature eligible_listings;
      cands ← for_each (evaluate_candidate recent_listings temperature) eligible_listings;
      let free_energies := map c_free_energy cands in
      let entropy_measures := map c_entropy_measure cands in
      let utility_terms := map c_utility cands in
      let entropy_terms := map c_entropy_term cands in
      let listing_ids := map c_listing_id cands in
      '(selected_id, selection_probability) ←
        _boltzmann_sampling free_energies listing_ids temperature;
      let selected_listing :=
        default first (List.find (fun l => (id l =? selected_id)%Z) eligible_listings) in
      selected_idx ← lift (list_index listing_ids selected_id);
      em ← lift (py_index entropy_measures selected_idx);
      ut ← lift (py_index utility_terms selected_idx);
      et ← lift (py_index entropy_terms selected_idx);
      fe ← lift (py_index free_energies selected_idx);
      s ← get_self;
      let breakdown :=
        thermodynamic_breakdown (score selected_listing) em temperature ut et fe
          selection_probability (Z.of_nat (length eligible_listings))
          (cluster_count_of s) in
      logger INFO "Selected Record of the Day";;
      logger INFO "Selection breakdown";;
      ret (Some selected_listing, breakdown)
  end.

Definition fallback_breakdown (e : exn) : Breakdown :=
  <["error" := VStr (str e)]> (<["selection_method" := VStr "fallback"]> ∅).

Definition error_breakdown (e : exn) : Breakdown :=
  <["error" := VStr (str e)]> ∅.

(** The [except Exception as e] branch of the outer [try]. *)
Definition select_handler (e : exn) : M (option Listing * Breakdown) :=
  logger ERROR "Error selecting Record of the Day";;
  try_except
    (fallback_listing ← query highest_scored;
     ret (fallback_listing, fallback_breakdown e))
    (fun _ => ret (None, error_breakdown e)).

Definition select_record_of_the_day (max_candidates : Z)
    : M (option Listing * Breakdown) :=
  try_except (select_body max_candidates) select_handler.

End Orchestrator.

(** ** The views of [discogs/views.py] that touch [RecordOfTheDay] *)

Section Views.
Context `{Ext : Externals}.

(** *** ORM writes and point reads on [RecordOfTheDay] *)

Definition rows_on (today : Z) (d : DB) : list RecordOfTheDay :=
  List.filter (fun r => (date r =? today)%Z) (record_of_the_days d).

(** [RecordOfTheDay.objects.get(date=today)] *)
Definition rotd_get (today : Z) : M RecordOfTheDay :=
  rows ← query (rows_on today);
  match rows with
  | [] => raise (DoesNotExist "RecordOfTheDay" "RecordOfTheDay matching query does not exist.")
  | [r] => ret r
  | _ => raise (MultipleObjectsReturned "get() returned more than one RecordOfTheDay")
  end.

(** [RecordOfTheDay.objects.filter(date=today).delete()] *)
Definition rotd_delete (today : Z) : M unit :=
  d ← query (fun d => d);
  put_db {| listings := listings d;
            record_of_the_days :=
              List.filter (fun r => negb (date r =? today)%Z) (record_of_the_days d);
            next_rotd_id := next_rotd_id d |}.

(** [RecordOfTheDay.objects.create(...)]: the row gets the next primary key;
    the unique constraint on [date] rejects a second row for one date. *)
Definition rotd_create (row : RecordOfTheDay) : M RecordOfTheDay :=
  d ← query (fun d => d);
  match rows_on (date row) d with
  | _ :: _ => raise (IntegrityError "UNIQUE constraint failed: discogs_recordoftheday.date")
  | [] =>
      let r := {|
        rotd_id := next_rotd_id d; date := date row; listing_id := listing_id row;
        model_score := model_score row; entropy_measure := entropy_measure row;
        system_temperature := system_temperature row; utility_term := utility_term row;
        entropy_term := entropy_term row; free_energy := free_energy row;
        selection_probability := selection_probability row;
        total_candidates := total_candidates row; cluster_count := cluster_count row;
        selection_method := selection_method row;
        desirability_votes := desirability_votes row;
        novelty_votes := novelty_votes row;
        average_desirability := average_desirability row;
        average_novelty := average_novelty row |} in
      put_db {| listings := listings d;
                record_of_the_days := record_of_the_days d ++ [r];
                next_rotd_id := (next_rotd_id d + 1)%Z |};;
      ret r
  end.

(** What a [FloatField], an [IntegerField] and a [CharField] make of the
    value they are given. *)
Definition to_float (v : Val) : Res npfloat :=
  match v with
  | VFloat x => Ok x
  | VInt z => Ok (Fin (inject_Z z))
  | VStr _ => Raise (ValueError "Field expected a number")
  end.

Definition to_int (v : Val) : Res Z :=
  match v with
  | VInt z => Ok z
  | VFloat (Fin q) => Ok (if Qltb q 0 then Qceiling q else Qfloor q)
  | _ => Raise (ValueError "Field expected a number")
  end.

Definition to_str (v : Val) : Res string :=
  match v with
  | VStr s => Ok s
  | _ => Raise (ValueError "Field expected a string")
  end.

(** [breakdown.get(key, dflt)] *)
Definition dict_get (b : Breakdown) (key : string) (dflt : Val) : Val :=
  default dflt (b !! key).

(** The [RecordOfTheDay.objects.create(date=today, listing=..., ...)] call
    shared by the two views. *)
Definition create_selection (today : Z) (listing : Listing) (breakdown : Breakdown)
    : M RecordOfTheDay :=
  ms ← lift (to_float (dict_get breakdown "model_score" (VFloat (Fin 0.0))));
  em ← lift (to_float (dict_get breakdown "entropy_measure" (VFloat (Fin 0.0))));
  st ← lift (to_float (dict_get breakdown "system_temperature" (VFloat (Fin 0.5))));
  ut ← lift (to_float (dict_get breakdown "utility_term" (VFloat (Fin 0.0))));
  et ← lift (to_float (dict_get breakdown "entropy_term" (VFloat (Fin 0.0))));
  fe ← lift (to_float (dict_get breakdown "free_energy" (VFloat (Fin 0.0))));
  sp ← lift (to_float (dict_get breakdown "selection_probability" (VFloat (Fin 0.0))));
  tc ← lift (to_int (dict_get breakdown "total_candidates" (VInt 0)));
  cc ← lift (to_int (dict_get breakdown "cluster_count" (VInt 0)));
  sm ← lift (to_str (dict_get breakdown "selection_method" (VStr "thermodynamic_boltzmann")));
  rotd_create {|
    rotd_id := 0; date := today; listing_id := id listing;
    model_score := ms; entropy_measure := em; system_temperature := st;
    utility_term := ut; entropy_term := et; free_energy := fe;
    selection_probability := sp; total_candidates := tc; cluster_count := cc;
    selection_method := sm;
    desirability_votes := []; novelty_votes := [];
    average_desirability := 0.0; average_novelty := 0.0 |}.

(** The breakdown the dashboard rebuilds from a persisted row. *)
Definition persisted_breakdown (o : RecordOfTheDay) : Breakdown :=
  <["model_score" := VFloat (model_score o)]>
  (<["entropy_measure" := VFloat (entropy_measure o)]>
  (<["system_temperature" := VFloat (system_temperature o)]>
  (<["utility_term" := VFloat (utility_term o)]>
  (<["entropy_term" := VFloat (entropy_term o)]>
  (<["free_energy" := VFloat (free_energy o)]>
  (<["selection_probability" := VFloat (selection_probability o)]>
  (<["total_candidates" := VInt (total_candidates o)]>
  (<["cluster_count" := VInt (cluster_count o)]>
  (<["selection_method" := VStr (selection_method o)]> ∅))))))))).

(** [obj.listing] *)
Definition rotd_listing_get (o : RecordOfTheDay) : M Listing :=
  l ← query (fun d => rotd_listing d o);
  match l with
  | Some l => ret l
  | None => raise (DoesNotExist "Listing" "Listing matching query does not exist.")
  end.

Definition is_rotd_DoesNotExist (e : exn) : bool :=
  match e with
  | DoesNotExist m _ => String.eqb m "RecordOfTheDay"
  | _ => false
  end.

(** [if breakdown:] on a dict *)
Definition dict_truthy (b : Breakdown) : bool := negb (bool_decide (b = ∅)).

(** The part of the dashboard response that concerns the daily selection. *)
Record Response := {
  r_record_of_the_day : option Listing;
  r_record_of_the_day_obj : option RecordOfTheDay;
  r_breakdown : Breakdown
}.

(** *** [DashboardAPIView.get]

    [force_refresh] is [request.GET.get('force_refresh', '0') == '1'].  The
    counters of the response ([num_records], [accuracy], ...) are read-only
    and are left out. *)
Definition DashboardAPIView_get (force_refresh : bool) : M Response :=
  t ← timezone_now;
  let today := date_of t in
  '(record_of_the_day, record_of_the_day_obj, breakdown) ←
    try_except_class is_rotd_DoesNotExist
      (record_of_the_day_obj ←
         (if negb force_refresh then o ← rotd_get today; ret (Some o)
          else rotd_delete today;; ret None);
       match record_of_the_day_obj with
       | Some o =>
           l ← rotd_listing_get o;
           ret (Some l, Some o, persisted_breakdown o)
       | None =>
           put_self new_selector;;
           '(l, b) ← select_record_of_the_day 50;
           ret (l, None, b)
       end)
      (fun _ =>
         try_except
           (put_self new_selector;;
            '(l, b) ← select_record_of_the_day 50;
            match l with
            | Some listing =>
                if dict_truthy b then
                  o ← create_selection today listing b;
                  ret (Some listing, Some o, b)
                else
                  l' ← query highest_scored;
                  ret (l', None, <["selection_method" := VStr "fallback_highest_score"]> ∅)
            | None =>
                l' ← query highest_scored;
                ret (l', None, <["selection_method" := VStr "fallback_highest_score"]> ∅)
            end)
           (fun e =>
              logger ERROR "Error selecting thermodynamic record of the day";;
              l' ← query highest_scored;
              ret (l', None,
                   <["error" := VStr (str e)]>
                   (<["selection_method" := VStr "fallback_error"]> ∅))));
  ret {| r_record_of_the_day := record_of_the_day;
         r_record_of_the_day_obj := record_of_the_day_obj;
         r_breakdown := breakdown |}.

(** *** [refresh_record_of_the_day_view], for a POST request *)

Inductive RefreshResponse := Refreshed | NoEligible | RefreshError (msg : string).

Definition refresh_record_of_the_day_view : M RefreshResponse :=
  try_except
    (t ← timezone_now;
     let today := date_of t in
     rotd_delete today;;
     put_self new_selector;;
     '(l, b) ← select_record_of_the_day 50;
     match l with
     | Some listing =>
         if dict_truthy b then
           create_selection today listing b;;
           logger INFO "Refreshed Record of the Day";;
           ret Refreshed
         else ret NoEligible
     | None => ret NoEligible
     end)
    (fun e =>
       logger ERROR "Error refreshing Record of the Day";;
       ret (RefreshError (str e))).

(** *** [vote_record_of_the_day_view], for a POST request with two floats *)

Definition with_vote (r : RecordOfTheDay) (desirability novelty : Q) : RecordOfTheDay :=
  let dv := desirability_votes r ++ [desirability] in
  let nv := novelty_votes r ++ [novelty] in
  {| rotd_id := rotd_id r; date := date r; listing_id := listing_id r;
     model_score := model_score r; entropy_measure := entropy_measure r;
     system_temperature := system_temperature r; utility_term := utility_term r;
     entropy_term := entropy_term r; free_energy := free_energy r;
     selection_probability := selection_probability r;
     total_candidates := total_candidates r; cluster_count := cluster_count r;
     selection_method := selection_method r;
     desirability_votes := dv; novelty_votes := nv;
     average_desirability := (Qsum dv / of_nat (length dv))%Q;
     average_novelty := (Qsum nv / of_nat (length nv))%Q |}.

Definition vote_record_of_the_day_view (record_id : Z) (desirability novelty : Q)
    : M bool :=
  try_except
    (d ← query (fun d => d);
     match List.find (fun r => (rotd_id r =? record_id)%Z) (record_of_the_days d) with
     | None => raise (DoesNotExist "RecordOfTheDay" "RecordOfTheDay matching query does not exist.")
     | Some _ =>
         put_db {| listings := listings d;
                   record_of_the_days :=
                     map (fun r => if (rotd_id r =? record_id)%Z
                                   then with_vote r desirability novelty else r)
                         (record_of_the_days d);
                   next_rotd_id := next_rotd_id d |};;
         ret true
     end)
    (fun _ => ret false).

End Views.

(** ** A reference instance of the externals

    Small stand-ins for the estimators, used to run the embedding on
    concrete inputs.  The vectorizer has one text feature (the length of the
    text), the scaler is the identity, PCA keeps the first ten columns and
    k-means takes the first five rows as centroids; each refuses what the
    real estimator refuses (use before fitting, too few samples).  They are
    not the estimators: TF-IDF has one column per term, so that a real
    window is wider than here and reaches the PCA branch, which refuses
    fewer than ten listings.  The general theorems hold for every instance
    of [Externals]; only runs on concrete inputs depend on this one. *)
Module Ref.

Definition not_fitted {A} : Res A :=
  Raise (EstimatorError "This estimator instance is not fitted yet.").

Definition text_length (t : string) : list Q := [of_nat (String.length t)].

Definition fit_transform_text (v : bool) (texts : list string) : bool * Res Matrix :=
  (true, Ok (map text_length texts)).

Definition transform_text (v : bool) (texts : list string) : Res Matrix :=
  if v then Ok (map text_length texts) else not_fitted.

Definition scale_fit (v : bool) (x : Matrix) : bool * Res Matrix := (true, Ok x).

Definition scale (v : bool) (x : Matrix) : Res Matrix :=
  if v then Ok x else not_fitted.

Definition reduce_fit (v : bool) (x : Matrix) : bool * Res Matrix :=
  if (length x <? 10)%nat
  then (v, Raise (EstimatorError "n_components=10 must be between 0 and min(n_samples, n_features)"))
  else (true, Ok (map (take 10) x)).

Definition reduce (v : bool) (x : Matrix) : Res Matrix :=
  if v then Ok (map (take 10) x) else not_fitted.

Definition cluster_fit (v : Matrix) (x : Matrix) : Matrix * Res unit :=
  if (length x <? 5)%nat
  then (v, Raise (EstimatorError "n_samples should be >= n_clusters=5"))
  else (take 5 x, Ok tt).

(** The square root to six decimals. *)
Definition sqrt6 (q : Q) : Q :=
  (Z.sqrt (Qnum q * 1000000000000 / Z.pos (Qden q)) # 1000000)%Q.

(** A positive, increasing stand-in for the exponential that overflows where
    the float exponential does. *)
Definition exp2 (q : Q) : npfloat :=
  if Qltb 709 q then PInf
  else if Qltb q 0 then Fin (1 / (1 - q + q * q / 2))%Q
  else Fin (1 + q + q * q / 2)%Q.

#[export] Instance ext : Externals := {|
  Vectorizer := bool;
  Scaler := bool;
  Pca := bool;
  KMeans := Matrix;
  new_vectorizer := false;
  new_scaler := false;
  new_pca := false;
  new_kmeans := [];
  tfidf_fit_transform := fit_transform_text;
  tfidf_transform := transform_text;
  std_fit_transform := scale_fit;
  std_transform := scale;
  pca_fit_transform := reduce_fit;
  pca_transform := reduce;
  kmeans_fit := cluster_fit;
  cluster_centers_ := fun v => v;
  np_sqrt := sqrt6;
  np_exp := exp2
|}.

Definition mk_record (g : list string) (w h day : Z) : Record_ := {|
  artist := "Artist"; title := "Album"; label := "Label";
  genres := g; styles := []; wants := w; haves := h;
  year := Some 2000%Z; added := (day * 86400)%Z
|}.

Definition mk_listing (i : Z) (g : list string) (w h day : Z) (price s : Q)
    (ev : bool) : Listing := {|
  id := i; record := mk_record g w h day; record_price := price; score := s;
  kept := false; evaluated := ev
|}.

Definition mk_world (d : DB) (u : nat -> Q) (t : Z) : World := {|
  db := d; self := new_selector; rng := u; rng_pos := 0; log := []; now := t
|}.

(** *** Concrete inputs *)

(** Noon of day 20000. *)
Definition noon : Z := (20000 * 86400 + 43200)%Z.
Definition today : Z := 20000%Z.

Definition half : nat -> Q := fun _ => 0.5%Q.

(** One listing, scored [0.30]: positively scored but below the threshold. *)
Definition l_low : Listing := mk_listing 1 ["Rock"] 100 50 19999 20 0.3 true.

Definition d_low : DB :=
  {| listings := [l_low]; record_of_the_days := []; next_rotd_id := 1 |}.

Definition w_low : World := mk_world d_low half noon.

(** A pool whose only listing has score zero. *)
Definition l_zero : Listing := mk_listing 2 ["Rock"] 100 50 19999 20 0 true.

(** Windows of four and of five listings. *)
Definition window4 : list Listing :=
  [ mk_listing 1 ["Rock"] 100 50 19999 20 0.3 true;
    mk_listing 2 ["Rock"] 100 50 19999 21 0.3 true;
    mk_listing 3 ["Jazz"] 100 50 19999 22 0.3 true;
    mk_listing 4 ["Jazz"] 100 50 19999 23 0.3 true ].

Definition window5 : list Listing :=
  window4 ++ [mk_listing 5 ["Jazz"] 110 50 19999 24 0.3 true].

(** One eligible listing, already persisted as today's selection. *)
Definition l_top : Listing := mk_listing 9 ["Rock"] 100 50 19999 20 0.9 true.

Definition row (key day lid : Z) : RecordOfTheDay :=
  {| rotd_id := key; date := day; listing_id := lid;
     model_score := Fin 0.9; entropy_measure := Fin 0.5;
     system_temperature := Fin 0.5; utility_term := Fin (-0.9);
     entropy_term := Fin 0.25; free_energy := Fin (-1.15);
     selection_probability := Fin 1; total_candidates := 1; cluster_count := 0;
     selection_method := "thermodynamic_boltzmann";
     desirability_votes := []; novelty_votes := [];
     average_desirability := 0.0; average_novelty := 0.0 |}.

Definition d_selected : DB :=
  {| listings := [l_top]; record_of_the_days := [row 1 today 9]; next_rotd_id := 2 |}.

Definition w_selected : World := mk_world d_selected half noon.

(** Five ordinary recent listings below the threshold, one eligible listing
    that is far from them, and yesterday's selection of a listing with the
    genre of the eligible one. *)
Definition l_far : Listing := mk_listing 6 ["Rock"] 300 50 19998 20 0.9 true.

Definition d_votes : DB :=
  {| listings := window5 ++ [l_far];
     record_of_the_days := [row 1 19999 1];
     next_rotd_id := 2 |}.

Definition w_votes : World := mk_world d_votes half noon.

End Ref.

(** ** Vocabulary of the statements *)

Section Vocabulary.
Context `{Ext : Externals}.

(** The same world at another moment. *)
Definition set_now (t : Z) (w : World) : World :=
  {| db := db w; self := self w; rng := rng w; rng_pos := rng_pos w;
     log := log w; now := t |}.

(** The world once one float was drawn from the generator. *)
Definition drawn (w : World) : World :=
  {| db := db w; self := self w; rng := rng w; rng_pos := S (rng_pos w);
     log := log w; now := now w |}.

(** The next float the generator yields. *)
Definition next_sample (w : World) : Q := frac (rng w (rng_pos w)).

(** The checks [np.random.choice] makes on [p] before it draws: the finite
    entries of [p] when it accepts them. *)
Definition valid_probabilities (a : nat) (p : list npfloat) : option (list Q) :=
  if (a =? 0)%nat || negb (length p =? a)%nat || existsb is_nan p || existsb fnegative p
  then None
  else match finite_values p with
       | None => None
       | Some ps => if Qltb atol (Qabs (Qsum ps - 1)) then None else Some ps
       end.

(** The cumulative distribution [np.random.choice] searches. *)
Definition cdf_of (ps : list Q) : list Q := map (fun c => c / Qsum ps)%Q (cumsum ps).

(** The same world over another database, and with a selector just built. *)
Definition with_db (d : DB) (w : World) : World :=
  {| db := d; self := self w; rng := rng w; rng_pos := rng_pos w;
     log := log w; now := now w |}.

Definition fresh_selector (w : World) : World :=
  {| db := db w; self := new_selector; rng := rng w; rng_pos := rng_pos w;
     log := log w; now := now w |}.

(** The tables once [r] was inserted, and once the rows of [today] were
    deleted. *)
Definition inserted (r : RecordOfTheDay) (d : DB) : DB :=
  {| listings := listings d;
     record_of_the_days := record_of_the_days d ++ [r];
     next_rotd_id := (next_rotd_id d + 1)%Z |}.

Definition deleted (today : Z) (d : DB) : DB :=
  {| listings := listings d;
     record_of_the_days :=
       List.filter (fun r => negb (date r =? today)%Z) (record_of_the_days d);
     next_rotd_id := next_rotd_id d |}.

(** The row the views create for a thermodynamic breakdown. *)
Definition selection_row (key today : Z) (x : Listing) (em t ut et fe : Q)
    (sp : npfloat) (n cc : Z) : RecordOfTheDay :=
  {| rotd_id := key; date := today; listing_id := id x;
     model_score := Fin (score x); entropy_measure := Fin em;
     system_temperature := Fin t; utility_term := Fin ut;
     entropy_term := Fin et; free_energy := Fin fe;
     selection_probability := sp; total_candidates := n; cluster_count := cc;
     selection_method := "thermodynamic_boltzmann";
     desirability_votes := []; novelty_votes := [];
     average_desirability := 0.0; average_novelty := 0.0 |}.

(** What a Boltzmann weight can be at temperature zero. *)
Definition degenerate (x : npfloat) : Prop := x = NaN \/ x = PInf \/ x = Fin 0.

(** The world once [msgs] were logged. *)
Definition logged (msgs : list (Level * string)) (w : World) : World :=
  {| db := db w; self := self w; rng := rng w; rng_pos := rng_pos w;
     log := log w ++ msgs; now := now w |}.

(** [m] returns normally from [w], with a result and a final world that
    satisfy [Q]. *)
Definition ensures {A} (m : M A) (w : World) (Q : A -> World -> Prop) : Prop :=
  match m w with
  | (Ok a, w') => Q a w'
  | (Raise _, _) => False
  end.

(** [m] never raises. *)
Definition total {A} (m : M A) : Prop := forall w, ensures m w (fun _ _ => True).

(** Whatever the outcome, the final world is related to the initial one. *)
Definition keeps {A} (R : World -> World -> Prop) (m : M A) : Prop :=
  forall w, R w (snd (m w)).

(** The frames used below: the database; everything but the selector and the
    log; one attribute of the selector. *)
Definition same_db (w w' : World) : Prop := db w' = db w.

Definition same_env (w w' : World) : Prop :=
  db w' = db w /\ rng w' = rng w /\ rng_pos w' = rng_pos w /\ now w' = now w.

Definition same_cache (w w' : World) : Prop :=
  recent_listings_cache (self w') = recent_listings_cache (self w).

Definition same_centroids (w w' : World) : Prop :=
  cluster_centroids (self w') = cluster_centroids (self w).

(** The frame of the views: they may write, but keep the dates unique. *)
Definition dates_stay_unique (w w' : World) : Prop :=
  NoDup (map date (record_of_the_days (db w))) ->
  NoDup (map date (record_of_the_days (db w'))).

(** The constraints the schema puts on the tables: [date] is unique, [id] is
    the primary key of [Listing], [listing] is a foreign key. *)
Definition unique_dates (d : DB) : Prop := NoDup (map date (record_of_the_days d)).

Definition unique_ids (d : DB) : Prop := NoDup (map id (listings d)).

Definition fk_valid (d : DB) : Prop :=
  forall r, In r (record_of_the_days d) ->
    exists l, In l (listings d) /\ id l = listing_id r.

Definition db_consistent (d : DB) : Prop :=
  unique_dates d /\ unique_ids d /\ fk_valid d.

(** The eligible pool: the listings whose score is above the threshold. *)
Definition eligible_pool (d : DB) : list Listing :=
  List.filter (fun l => Qltb 0.5 (score l)) (listings d).

(** *** The temperature as the specification words it

    The uncertainty factor is the coefficient of variation of the positive
    scores, [0] when there is none; the feedback is the average desirability
    of the last ten selections. *)
Definition coefficient_of_variation (scores : list Q) : Q :=
  (np_std scores / np_mean scores)%Q.

Definition claimed_uncertainty_factor (pool : list Listing) : Q :=
  match positive_scores pool with
  | [] => 0%Q
  | scores => coefficient_of_variation scores
  end.

Definition claimed_average_desirability (d : DB) : Q :=
  (Qsum (map average_desirability (past_records d))
   / of_nat (Nat.max 1 (length (past_records d))))%Q.

Definition claimed_temperature (pool : list Listing) (d : DB) : Q :=
  np_clip ((0.5 + 0.3 * unevaluated_ratio pool + 0.2 * claimed_uncertainty_factor pool)
           * (1 + 0.2 * claimed_average_desirability d))%Q 0.1 1.0.

End Vocabulary.

(** ** More of the code: scoring, prices, the rate limiter, the inventory file *)

(** Sequencing of fallible pure code. *)
#[export] Instance Res_ret : MRet Res := fun A a => Ok a.
#[export] Instance Res_bind : MBind Res :=
  fun A B k r => match r with Ok a => k a | Raise e => Raise e end.

(** *** Python's [round(x, 2)] *)

(** Rounding to the nearest integer, ties to the even one. *)
Definition round_half_even (y : Q) : Z :=
  let f := Qfloor y in
  let d := (y - inject_Z f)%Q in
  if Qltb d 0.5 then f
  else if Qltb 0.5 d then (f + 1)%Z
  else if Z.even f then f else (f + 1)%Z.

Definition py_round2 (x : Q) : Q := (inject_Z (round_half_even (x * 100)) / 100)%Q.

(** *** [discogs/utils/scoring.py] *)

Section Scoring.
(** [math.log] on a positive float. *)
Variable ln : Q -> Q.

(** [math.log(x)]: a domain error for [x <= 0]. *)
Definition math_log (x : Q) : Res Q :=
  if Qle_bool x 0 then Raise (ValueError "math domain error") else Ok (ln x).

(** [a / b] on Python numbers *)
Definition py_truediv (a b : Q) : Res Q :=
  if Qeq_bool b 0 then Raise (ZeroDivisionError "float division by zero")
  else Ok (a / b)%Q.

Definition calculate_score (wants haves : Z) (price : Q) : Res Q :=
  let haves := if (haves =? 0)%Z then 0.01%Q else inject_Z haves in
  ratio ← py_truediv (inject_Z wants) haves;
  let volume := (inject_Z wants + haves)%Q in
  l1 ← math_log (ratio + 1);
  let ratio_score := (l1 * 10)%Q in
  l2 ← math_log volume;
  let volume_score := (l2 * 2)%Q in
  price_score ← py_truediv 50 (price + 1);
  Ok (py_round2 (ratio_score + volume_score + price_score)).

End Scoring.

(** *** [BaseScraperDataView.currency_exchange] ([discogs/views.py]) *)

Definition currency_exchange (price_tuple : Q * string)
    (exchange_rates : gmap string Q) : Q :=
  let '(price, currency) := price_tuple in
  let exchange_rate := default 1%Q (exchange_rates !! currency) in
  py_round2 (price * exchange_rate).

(** *** [RateLimitTracker] ([discogs/utils/rate_limits.py]) *)

Record RateLimitTracker := {
  windows : list Z;              (* [deque([0, 0, 0], maxlen=3)] *)
  current_window_start : Q;
  current_count : Z;
  sleep_time : Q
}.

(** [RateLimitTracker.__init__] at time [t0] *)
Definition new_tracker (t0 : Q) : RateLimitTracker :=
  {| windows := [0; 0; 0]%Z; current_window_start := t0; current_count := 0;
     sleep_time := 0.0 |}.

(** [d.append(x)] on a deque of maximal length 3 *)
Definition deque_append (d : list Z) (x : Z) : list Z :=
  drop (length (d ++ [x]) - 3) (d ++ [x]).

(** [sum(self.windows)] *)
Definition Zsum (l : list Z) : Z := foldl Z.add 0%Z l.

(** [add_request] at time [current_time]: the new tracker and, when a window
    was completed, the total that was logged. *)
Definition add_request (current_time : Q) (s : RateLimitTracker)
    : RateLimitTracker * option Z :=
  let '(s1, logged_total) :=
    if Qle_bool 15 (current_time - current_window_start s) then
      let windows' := deque_append (windows s) (current_count s) in
      let total := (Zsum windows' + current_count s)%Z in
      let sleep' :=
        if (45 <? total)%Z then (sleep_time s + 0.1)%Q
        else if (total <? 40)%Z then Qmax 0.0 (sleep_time s - 0.1)
        else sleep_time s in
      ({| windows := windows'; current_window_start := current_time;
          current_count := 0; sleep_time := sleep' |}, Some total)
    else (s, None) in
  ({| windows := windows s1; current_window_start := current_window_start s1;
      current_count := (current_count s1 + 1)%Z; sleep_time := sleep_time s1 |},
   logged_total).

(** The tracker after the requests made at [times], in that order. *)
Definition requests (times : list Q) (s : RateLimitTracker) : RateLimitTracker :=
  foldl (fun s t => fst (add_request t s)) s times.

(** *** The inventory file ([discogs/scraper/get_inventory.py]) *)

Record InventoryEntry := {
  last_inventory : string;
  record_ids : list Z
}.

(** The content of [user_inventories.json], [None] while the file does not
    exist. *)
Abbreviation InventoryFile := (option (gmap string InventoryEntry)).

(** [load_inventory_json] *)
Definition load_inventory_json (file : InventoryFile) : gmap string InventoryEntry :=
  match file with
  | Some data => data
  | None => ∅
  end.

(** [rid not in record_ids] *)
Definition not_in (l : list Z) (rid : Z) : bool := negb (existsb (Z.eqb rid) l).

(** [update_user_inventory(username, record_ids)] on the day [today]: the
    content of the file after [save_inventory_json]. *)
Definition update_user_inventory (today username : string) (new_ids : list Z)
    (file : InventoryFile) : InventoryFile :=
  let data := load_inventory_json file in
  match data !! username with
  | None =>
      Some (<[username := {| last_inventory := today; record_ids := new_ids |}]> data)
  | Some entry =>
      let existing_ids := record_ids entry in
      let all_ids := new_ids ++ List.filter (not_in new_ids) existing_ids in
      Some (<[username := {| last_inventory := today; record_ids := take 50 all_ids |}]> data)
  end.

(** ** More vocabulary *)

Section More_vocabulary.
Context `{Ext : Externals}.

(** The frame of a measurement: the fitted clustering, the tables and the
    clock stay; the vectorizer and the scaler may be refitted. *)
Definition same_clustering (w w' : World) : Prop :=
  cluster_centroids (self w') = cluster_centroids (self w) /\
  feature_cache (self w') = feature_cache (self w) /\
  recent_listings_cache (self w') = recent_listings_cache (self w) /\
  db w' = db w /\ now w' = now w.

(** The mean of a non-empty list of votes. *)
Definition mean_of (votes : list Q) : Q := (Qsum votes / of_nat (length votes))%Q.

(** Once fitted, the selector stays fitted. *)
Definition fitted_stays (w w' : World) : Prop :=
  is_fitted (self w) = true -> is_fitted (self w') = true.

(** The fitted model: the centroids and the feature cache. *)
Definition same_fit (w w' : World) : Prop :=
  cluster_centroids (self w') = cluster_centroids (self w) /\
  feature_cache (self w') = feature_cache (self w).

(** The free energy [_calculate_free_energy] returns. *)
Definition free_energy_of (listing : Listing) (e t : Q) (w : World) : Q :=
  match fst (_calculate_free_energy listing e t w) with
  | Ok (f, _, _) => f
  | Raise _ => 0
  end.

(** What one turn of the loop records for a listing, at temperature [t]. *)
Definition evaluated_at (t : Q) (l : Listing) (c : candidate) : Prop :=
  c_utility c = utility_of l /\
  c_entropy_term c = (t * c_entropy_measure c)%Q /\
  c_free_energy c = (c_utility c - c_entropy_term c)%Q.

(** The selection a row records: everything but the votes and their
    averages. *)
Definition same_selection (o o' : RecordOfTheDay) : Prop :=
  rotd_id o' = rotd_id o /\ date o' = date o /\ listing_id o' = listing_id o /\
  persisted_breakdown o' = persisted_breakdown o.

(** The date, the listings and the selection of every row are the same. *)
Definition unchanged_selections (w w' : World) : Prop :=
  date_of (now w') = date_of (now w) /\ listings (db w') = listings (db w) /\
  Forall2 same_selection (record_of_the_days (db w)) (record_of_the_days (db w')).

Definition same_now (w w' : World) : Prop := now w' = now w.

(** What can happen between two reads of a date without a refresh: votes,
    other reads, the clock moving within the date, and anything that
    touches neither the tables nor the clock. *)
Inductive between_reads : World -> World -> Prop :=
| no_request w : between_reads w w
| then_vote w w' record_id desirability novelty :
    between_reads w w' ->
    between_reads w (snd (vote_record_of_the_day_view record_id desirability novelty w'))
| then_read w w' :
    between_reads w w' -> between_reads w (snd (DashboardAPIView_get false w'))
| then_time w w' t :
    between_reads w w' -> date_of t = date_of (now w') -> between_reads w (set_now t w')
| then_other w w' w'' :
    between_reads w w' -> db w'' = db w' -> now w'' = now w' -> between_reads w w''.

(** A date is settled when it has its row, or when no listing could be
    selected for it. *)
Definition settled (w : World) : Prop :=
  rows_on (date_of (now w)) (db w) <> [] \/ take 50 (listings_score_gt 0.5 (db w)) = [].

(** What a vote for [record_id] does to one row. *)
Definition vote_on (record_id : Z) (desirability novelty : Q) (r : RecordOfTheDay)
    : RecordOfTheDay :=
  if (rotd_id r =? record_id)%Z then with_vote r desirability novelty else r.

End More_vocabulary.

(** What every reachable tracker satisfies. *)
Definition tracker_ok (s : RateLimitTracker) : Prop :=
  length (windows s) = 3%nat /\ Forall (fun c => 0 <= c)%Z (windows s) /\
  (0 <= current_count s)%Z /\ (0 <= sleep_time s)%Q.

(** *** More concrete inputs *)

Module Samples.
Import Ref.

(** One eligible listing and no persisted selection. *)
Definition d_fresh : DB :=
  {| listings := [l_top]; record_of_the_days := []; next_rotd_id := 1 |}.

Definition w_fresh : World := mk_world d_fresh half noon.

(** A natural logarithm to three decimals on the few values used below. *)
Definition ln3 (x : Q) : Q :=
  if Qle_bool x 1 then 0 else if Qle_bool x 3 then 1.099 else 5.011.

Definition tracker0 : RateLimitTracker := new_tracker 0.

Definition file0 : InventoryFile :=
  Some (<["seller" := {| last_inventory := "2024-01-01"; record_ids := [3; 4]%Z |}]> ∅).
Definition rates : gmap string Q := <["EUR" := 1.1%Q]> ∅.

End Samples.

(** * Facts *)

(** ** Numbers *)

Lemma Qltb_lt a b : Qltb a b = true <-> (a < b)%Q.
Proof.
  unfold Qltb. rewrite negb_true_iff. split.
  - intros H. apply Qnot_le_lt. intros Hle. apply Qle_bool_iff in Hle. congruence.
  - intros H. destruct (Qle_bool b a) eqn:E; [|reflexivity].
    apply Qle_bool_iff in E. exfalso. apply (Qlt_not_le _ _ H E).
Qed.

Lemma Qltb_ge a b : Qltb a b = false <-> (b <= a)%Q.
Proof.
  unfold Qltb. rewrite negb_false_iff. apply Qle_bool_iff.
Qed.

Lemma np_clip_bounds x lo hi : (lo <= hi)%Q -> (lo <= np_clip x lo hi <= hi)%Q.
Proof.
  intros H. unfold np_clip. split.
  - apply Q.min_glb; [apply Q.le_max_r | exact H].
  - apply Q.le_min_r.
Qed.

Lemma frac_range q : (0 <= frac q)%Q /\ (frac q < 1)%Q.
Proof.
  unfold frac. pose proof (Qfloor_le q) as H1. pose proof (Qlt_floor q) as H2.
  rewrite inject_Z_plus in H2. change (inject_Z 1) with 1%Q in H2.
  split; lra.
Qed.

Lemma listings_eqb_refl l : listings_eqb l l = true.
Proof.
  induction l as [|x l IH]; [reflexivity|].
  simpl. unfold listing_eqb. rewrite Z.eqb_refl. exact IH.
Qed.

(** ** The monad *)

Section Monad_facts.
Context `{Ext : Externals}.

Lemma run_bind {A B} (m : M A) (k : A -> M B) w :
  (x ← m; k x) w =
  match m w with
  | (Ok a, w') => k a w'
  | (Raise e, w') => (Raise e, w')
  end.
Proof. reflexivity. Qed.

Lemma bind_ok_inv {A B} (m : M A) (k : A -> M B) w b w' :
  (x ← m; k x) w = (Ok b, w') ->
  exists a w1, m w = (Ok a, w1) /\ k a w1 = (Ok b, w').
Proof.
  rewrite run_bind. destruct (m w) as [[a|e] w1]; [eauto | discriminate].
Qed.

Lemma ensures_ret {A} (a : A) w (Q : A -> World -> Prop) :
  Q a w -> ensures (mret a) w Q.
Proof. intros H. exact H. Qed.

Lemma ensures_bind {A B} (m : M A) (k : A -> M B) w (Q : B -> World -> Prop) :
  ensures m w (fun a w1 => ensures (k a) w1 Q) -> ensures (x ← m; k x) w Q.
Proof.
  unfold ensures. rewrite run_bind. destruct (m w) as [[a|e] w1]; auto.
Qed.

Lemma ensures_mono {A} (m : M A) w (Q Q' : A -> World -> Prop) :
  ensures m w Q -> (forall a w', Q a w' -> Q' a w') -> ensures m w Q'.
Proof.
  unfold ensures. destruct (m w) as [[a|e] w1]; auto.
Qed.

Lemma ensures_run {A} (m : M A) w (Q : A -> World -> Prop) :
  ensures m w Q -> exists a w', m w = (Ok a, w') /\ Q a w'.
Proof.
  unfold ensures. destruct (m w) as [[a|e] w1]; [eauto | tauto].
Qed.

Lemma ensures_eq {A} (m : M A) w a w' (Q : A -> World -> Prop) :
  m w = (Ok a, w') -> Q a w' -> ensures m w Q.
Proof. unfold ensures. intros -> H. exact H. Qed.

Lemma ensures_keeps {A} (m : M A) w R (Q : A -> World -> Prop) :
  keeps R m -> ensures m w Q -> ensures m w (fun a w' => Q a w' /\ R w w').
Proof.
  intros HK. specialize (HK w). unfold ensures.
  destruct (m w) as [[a|e] w1]; simpl in *; auto.
Qed.

Lemma total_try_except {A} (body : M A) (handler : exn -> M A) :
  (forall e, total (handler e)) -> total (try_except body handler).
Proof.
  intros H w. unfold ensures, try_except.
  destruct (body w) as [[a|e] w1]; [exact I | apply H].
Qed.

(** *** Frame rules, for a reflexive and transitive frame *)

Section Frame.
Variable R : World -> World -> Prop.
Hypothesis R_refl : forall w, R w w.
Hypothesis R_trans : forall w1 w2 w3, R w1 w2 -> R w2 w3 -> R w1 w3.

Lemma keeps_ret {A} (a : A) : keeps R (mret a).
Proof using R_refl. intros w. apply R_refl. Qed.

Lemma keeps_raise {A} e : keeps R (@raise _ A e).
Proof using R_refl. intros w. apply R_refl. Qed.

Lemma keeps_lift {A} (r : Res A) : keeps R (lift r).
Proof using R_refl. intros w. apply R_refl. Qed.

Lemma keeps_query {A} (q : DB -> A) : keeps R (query q).
Proof using R_refl. intros w. apply R_refl. Qed.

Lemma keeps_get_self : keeps R get_self.
Proof using R_refl. intros w. apply R_refl. Qed.

Lemma keeps_timezone_now : keeps R timezone_now.
Proof using R_refl. intros w. apply R_refl. Qed.

Lemma keeps_bind {A B} (m : M A) (k : A -> M B) :
  keeps R m -> (forall a, keeps R (k a)) -> keeps R (x ← m; k x).
Proof using R_trans.
  intros Hm Hk w. rewrite run_bind. specialize (Hm w).
  destruct (m w) as [[a|e] w1]; simpl in *; [|exact Hm].
  eapply R_trans; [exact Hm | apply Hk].
Qed.

Lemma keeps_try_except {A} (body : M A) (handler : exn -> M A) :
  keeps R body -> (forall e, keeps R (handler e)) -> keeps R (try_except body handler).
Proof using R_trans.
  intros Hm Hk w. unfold try_except. specialize (Hm w).
  destruct (body w) as [[a|e] w1]; simpl in *; [exact Hm|].
  eapply R_trans; [exact Hm | apply Hk].
Qed.

Lemma keeps_try_except_class {A} C (body : M A) (handler : exn -> M A) :
  keeps R body -> (forall e, keeps R (handler e)) ->
  keeps R (try_except_class C body handler).
Proof using R_trans.
  intros Hm Hk w. unfold try_except_class. specialize (Hm w).
  destruct (body w) as [[a|e] w1]; simpl in *; [exact Hm|].
  destruct (C e); [|exact Hm].
  eapply R_trans; [exact Hm | apply Hk].
Qed.

Lemma keeps_for_each {A B} (body : A -> M B) (l : list A) :
  (forall a, keeps R (body a)) -> keeps R (for_each body l).
Proof using R_refl R_trans.
  intros Hb. induction l as [|x l IH]; simpl.
  - apply keeps_ret.
  - apply keeps_bind; [apply Hb|]. intros b.
    apply keeps_bind; [exact IH|]. intros bs. apply keeps_ret.
Qed.

End Frame.

End Monad_facts.

(** ** What each method leaves unchanged *)

Section Frames.
Context `{Ext : Externals}.

Lemma same_db_refl w : same_db w w.
Proof. reflexivity. Qed.

Lemma same_db_trans w1 w2 w3 : same_db w1 w2 -> same_db w2 w3 -> same_db w1 w3.
Proof. unfold same_db. congruence. Qed.

Lemma same_env_refl w : same_env w w.
Proof. repeat split. Qed.

Lemma same_env_trans w1 w2 w3 : same_env w1 w2 -> same_env w2 w3 -> same_env w1 w3.
Proof. unfold same_env. intuition congruence. Qed.

Lemma same_cache_refl w : same_cache w w.
Proof. reflexivity. Qed.

Lemma same_cache_trans w1 w2 w3 :
  same_cache w1 w2 -> same_cache w2 w3 -> same_cache w1 w3.
Proof. unfold same_cache. congruence. Qed.

Lemma same_env_db {A} (m : M A) : keeps same_env m -> keeps same_db m.
Proof. intros H w. apply H. Qed.

End Frames.

(** A primitive that changes the world keeps a frame by computation. *)
Ltac frame_leaf :=
  let w := fresh "w" in
  intros w;
  cbv [call_self modify_self logger random_sample put_self np_random_uniform];
  repeat match goal with
         | |- context [let '(_, _) := ?x in _] => destruct x
         end;
  cbv [same_db same_env same_cache same_centroids dates_stay_unique]; simpl;
  first [ repeat split; reflexivity | intros; assumption ].

Ltac frame_with Hrefl Htrans :=
  repeat first
    [ apply (keeps_ret _ Hrefl)
    | apply (keeps_raise _ Hrefl)
    | apply (keeps_lift _ Hrefl)
    | apply (keeps_query _ Hrefl)
    | apply (keeps_get_self _ Hrefl)
    | apply (keeps_timezone_now _ Hrefl)
    | assumption
    | solve [auto 2 with frames]
    | apply (keeps_bind _ Htrans); [|intros ?]
    | apply (keeps_try_except_class _ Htrans); [|intros ?]
    | apply (keeps_try_except _ Htrans); [|intros ?]
    | apply (keeps_for_each _ Hrefl Htrans); intros ?
    | match goal with
      | |- keeps _ (match ?x with _ => _ end) => destruct x
      end
    | solve [frame_leaf] ].

Create HintDb frames.

(** A frame proof for any relation that unfolds to equations between
    components of the world. *)
Ltac frame_leaf_of unfold_frame :=
  let w := fresh "w" in
  intros w;
  cbv [call_self modify_self logger random_sample put_self put_db np_random_uniform];
  repeat match goal with
         | |- context [let '(_, _) := ?x in _] => destruct x
         end;
  unfold_frame; simpl;
  first [ repeat split; reflexivity | intros; assumption ].

Ltac frame_by Hrefl Htrans unfold_frame :=
  repeat first
    [ apply (keeps_ret _ Hrefl)
    | apply (keeps_raise _ Hrefl)
    | apply (keeps_lift _ Hrefl)
    | apply (keeps_query _ Hrefl)
    | apply (keeps_get_self _ Hrefl)
    | apply (keeps_timezone_now _ Hrefl)
    | assumption
    | solve [auto 2 with frames]
    | apply (keeps_bind _ Htrans); [|intros ?]
    | apply (keeps_try_except_class _ Htrans); [|intros ?]
    | apply (keeps_try_except _ Htrans); [|intros ?]
    | apply (keeps_for_each _ Hrefl Htrans); intros ?
    | match goal with
      | |- keeps _ (match ?x with _ => _ end) => destruct x
      end
    | solve [frame_leaf_of unfold_frame] ].

Section Method_frames.
Context `{Ext : Externals}.

Lemma build_env ls fit : keeps same_env (_build_feature_vectors ls fit).
Proof.
  unfold _build_feature_vectors, self_vectorizer_fit_transform,
    self_vectorizer_transform, self_scaler_fit_transform, self_scaler_transform.
  destruct ls; frame_with same_env_refl same_env_trans.
Qed.

Lemma build_cache ls fit : keeps same_cache (_build_feature_vectors ls fit).
Proof.
  unfold _build_feature_vectors, self_vectorizer_fit_transform,
    self_vectorizer_transform, self_scaler_fit_transform, self_scaler_transform.
  destruct ls; frame_with same_cache_refl same_cache_trans.
Qed.

Lemma build_db ls fit : keeps same_db (_build_feature_vectors ls fit).
Proof. apply same_env_db, build_env. Qed.

Hint Resolve build_env build_cache build_db : frames.

Lemma refit_env recent : keeps same_env (refit_cluster_model recent).
Proof.
  unfold refit_cluster_model, self_pca_fit_transform, self_cluster_model_fit.
  frame_with same_env_refl same_env_trans.
Qed.

Lemma refit_cache recent : keeps same_cache (refit_cluster_model recent).
Proof.
  unfold refit_cluster_model, self_pca_fit_transform, self_cluster_model_fit.
  frame_with same_cache_refl same_cache_trans.
Qed.

Hint Resolve refit_env refit_cache : frames.

Lemma update_env recent : keeps same_env (_update_cluster_model recent).
Proof.
  unfold _update_cluster_model. frame_with same_env_refl same_env_trans.
Qed.

Lemma update_db recent : keeps same_db (_update_cluster_model recent).
Proof. apply same_env_db, update_env. Qed.

Lemma temperature_env pool : keeps same_env (_calculate_system_temperature pool).
Proof.
  unfold _calculate_system_temperature. frame_with same_env_refl same_env_trans.
Qed.

Lemma temperature_db pool : keeps same_db (_calculate_system_temperature pool).
Proof. apply same_env_db, temperature_env. Qed.

Lemma free_energy_db l e t : keeps same_db (_calculate_free_energy l e t).
Proof.
  unfold _calculate_free_energy. frame_with same_db_refl same_db_trans.
Qed.

Lemma entropy_db l recent : keeps same_db (_calculate_entropy_measure l recent).
Proof.
  unfold _calculate_entropy_measure, self_pca_transform.
  frame_with same_db_refl same_db_trans.
Qed.

Lemma choice_p_db a p : keeps same_db (np_random_choice_p a p).
Proof.
  unfold np_random_choice_p. frame_with same_db_refl same_db_trans.
Qed.

Lemma choice_db a : keeps same_db (np_random_choice a).
Proof.
  unfold np_random_choice. frame_with same_db_refl same_db_trans.
Qed.

Hint Resolve update_db temperature_db free_energy_db entropy_db choice_p_db
  choice_db : frames.

Lemma sampling_db fes ids t : keeps same_db (_boltzmann_sampling fes ids t).
Proof.
  unfold _boltzmann_sampling. frame_with same_db_refl same_db_trans.
Qed.

Lemma evaluate_db recent t l : keeps same_db (evaluate_candidate recent t l).
Proof.
  unfold evaluate_candidate. frame_with same_db_refl same_db_trans.
Qed.

Hint Resolve sampling_db evaluate_db : frames.

Lemma select_body_db m : keeps same_db (select_body m).
Proof.
  unfold select_body. frame_with same_db_refl same_db_trans.
Qed.

Lemma select_handler_db e : keeps same_db (select_handler e).
Proof.
  unfold select_handler. frame_with same_db_refl same_db_trans.
Qed.

Lemma select_db m : keeps same_db (select_record_of_the_day m).
Proof.
  unfold select_record_of_the_day.
  apply (keeps_try_except _ same_db_trans);
    [apply select_body_db | apply select_handler_db].
Qed.

End Method_frames.

(** ** The ORM's ordering *)

Section Ordering.
Context {A : Type} (before : A -> A -> bool).

Lemma insert_by_In x y l : In y (insert_by before x l) <-> y = x \/ In y l.
Proof.
  induction l as [|z l IH]; simpl.
  - intuition.
  - destruct (before z x); simpl; rewrite ?IH; intuition.
Qed.

Lemma order_by_In y l : In y (order_by before l) <-> In y l.
Proof.
  unfold order_by. induction l as [|z l IH]; simpl.
  - tauto.
  - rewrite insert_by_In, IH. intuition.
Qed.

Lemma insert_by_length x l : length (insert_by before x l) = S (length l).
Proof.
  induction l as [|z l IH]; simpl; [reflexivity|].
  destruct (before z x); simpl; congruence.
Qed.

Lemma order_by_length l : length (order_by before l) = length l.
Proof.
  unfold order_by. induction l as [|z l IH]; simpl; [reflexivity|].
  rewrite insert_by_length. congruence.
Qed.

Lemma order_by_nil l : order_by before l = [] <-> l = [].
Proof.
  split; intros H.
  - apply length_zero_iff_nil. rewrite <- order_by_length, H. reflexivity.
  - subst. reflexivity.
Qed.

(** When [before] is the strict part of a total preorder [le], the result is
    sorted for [le]. *)
Variable le : A -> A -> Prop.
Hypothesis le_trans : forall a b c, le a b -> le b c -> le a c.
Hypothesis before_le : forall a b, before a b = true -> le a b.
Hypothesis not_before_le : forall a b, before a b = false -> le b a.

Lemma insert_by_sorted x l :
  StronglySorted le l -> StronglySorted le (insert_by before x l).
Proof using le_trans before_le not_before_le.
  induction 1 as [|z l Hs IH Hz]; simpl.
  - constructor; [constructor | constructor].
  - destruct (before z x) eqn:E.
    + constructor; [exact IH|].
      apply List.Forall_forall. intros y Hy. apply insert_by_In in Hy.
      destruct Hy as [->|Hy]; [apply before_le, E|].
      rewrite List.Forall_forall in Hz. apply Hz, Hy.
    + constructor; [constructor; assumption|].
      constructor; [apply not_before_le, E|].
      rewrite List.Forall_forall in Hz |- *. intros y Hy.
      eapply le_trans; [apply not_before_le, E | apply Hz, Hy].
Qed.

Lemma order_by_sorted l : StronglySorted le (order_by before l).
Proof using le_trans before_le not_before_le.
  unfold order_by. induction l as [|z l IH]; simpl.
  - constructor.
  - apply insert_by_sorted, IH.
Qed.

Lemma order_by_head x l y :
  head (order_by before l) = Some x -> In y l -> y = x \/ le x y.
Proof using le_trans before_le not_before_le.
  intros Hh Hy. apply order_by_In in Hy.
  pose proof (order_by_sorted l) as Hs.
  destruct (order_by before l) as [|z s]; [discriminate|].
  simpl in Hh. injection Hh as ->.
  destruct Hy as [Hy|Hy]; [left; congruence|].
  right. apply StronglySorted_inv in Hs. destruct Hs as [_ Hs].
  rewrite List.Forall_forall in Hs. apply Hs, Hy.
Qed.

End Ordering.

Section Highest.

Lemma by_score_desc_le a b : by_score_desc a b = true -> (score b <= score a)%Q.
Proof. unfold by_score_desc. rewrite Qltb_lt. apply Qlt_le_weak. Qed.

Lemma by_score_desc_ge a b : by_score_desc a b = false -> (score a <= score b)%Q.
Proof. unfold by_score_desc. rewrite Qltb_ge. auto. Qed.

Lemma listings_score_gt_In t d l :
  In l (listings_score_gt t d) <-> In l (listings d) /\ (t < score l)%Q.
Proof.
  unfold listings_score_gt. rewrite order_by_In, filter_In, Qltb_lt. tauto.
Qed.

(** [first()] on the positively scored listings, by descending score. *)
Lemma highest_scored_some d x :
  highest_scored d = Some x ->
  In x (listings d) /\ (0 < score x)%Q /\
  forall y, In y (listings d) -> (score y <= score x)%Q.
Proof.
  unfold highest_scored. intros H.
  assert (Hx : In x (listings_score_gt 0 d)).
  { destruct (listings_score_gt 0 d); [discriminate|].
    simpl in H. injection H as ->. left. reflexivity. }
  apply listings_score_gt_In in Hx. destruct Hx as [Hx Hpos].
  split; [exact Hx|]. split; [exact Hpos|].
  intros y Hy. destruct (Qlt_le_dec 0 (score y)) as [Hy0|Hy0].
  - unfold listings_score_gt in H.
    eapply (order_by_head by_score_desc (fun a b => (score b <= score a)%Q)) in H.
    + destruct H as [->|H]; [apply Qle_refl | exact H].
    + intros a b c Hab Hbc. eapply Qle_trans; eassumption.
    + apply by_score_desc_le.
    + apply by_score_desc_ge.
    + apply filter_In. split; [exact Hy|]. apply Qltb_lt, Hy0.
  - eapply Qle_trans; [exact Hy0 | apply Qlt_le_weak, Hpos].
Qed.

Lemma highest_scored_none d :
  highest_scored d = None <-> forall y, In y (listings d) -> ~ (0 < score y)%Q.
Proof.
  unfold highest_scored. split.
  - intros H y Hy Hpos.
    assert (Hin : In y (listings_score_gt 0 d)) by (apply listings_score_gt_In; auto).
    destruct (listings_score_gt 0 d); [destruct Hin | discriminate].
  - intros H. destruct (listings_score_gt 0 d) as [|z s] eqn:E; [reflexivity|].
    exfalso. assert (Hin : In z (listings_score_gt 0 d)) by (rewrite E; left; reflexivity).
    apply listings_score_gt_In in Hin. destruct Hin as [Hin Hpos]. exact (H z Hin Hpos).
Qed.

Lemma eligible_pool_nil d : eligible_pool d = [] <-> listings_score_gt 0.5 d = [].
Proof.
  unfold listings_score_gt, eligible_pool. symmetry. apply order_by_nil.
Qed.

End Highest.

(** ** Methods that never raise *)

Section Totality.
Context `{Ext : Externals}.

Lemma update_total recent : total (_update_cluster_model recent).
Proof. apply total_try_except. intros e w. exact I. Qed.

Lemma temperature_total pool : total (_calculate_system_temperature pool).
Proof. apply total_try_except. intros e w. exact I. Qed.

Lemma entropy_total l recent : total (_calculate_entropy_measure l recent).
Proof. apply total_try_except. intros e w. exact I. Qed.

Lemma free_energy_run l e t w :
  _calculate_free_energy l e t w =
  (Ok (utility_of l - t * e, utility_of l, t * e)%Q, w).
Proof. reflexivity. Qed.

Lemma uniform_index_lt u n :
  (0 <= u)%Q -> (u < 1)%Q -> (0 < n)%nat ->
  (Z.to_nat (Qfloor (u * of_nat n)) < n)%nat.
Proof.
  intros H0 H1 Hn.
  assert (Hq : (0 < of_nat n)%Q).
  { unfold of_nat. change 0%Q with (inject_Z 0). rewrite <- Zlt_Qlt. lia. }
  assert (Hlo : (0 <= Qfloor (u * of_nat n))%Z).
  { change 0%Z with (Qfloor 0). apply Qfloor_resp_le. nra. }
  assert (Hhi : (Qfloor (u * of_nat n) < Z.of_nat n)%Z).
  { rewrite Zlt_Qlt. eapply Qle_lt_trans; [apply Qfloor_le|].
    fold (of_nat n). nra. }
  lia.
Qed.

Lemma py_index_In {A} (l : list A) i x : py_index l i = Ok x -> In x l.
Proof.
  unfold py_index. destruct (l !! i) as [y|] eqn:E; [|discriminate].
  intros H. injection H as <-. apply list_elem_of_In. eapply list_elem_of_lookup_2, E.
Qed.

Lemma py_index_lt {A} (l : list A) i :
  (i < length l)%nat -> exists x, py_index l i = Ok x.
Proof.
  intros H. unfold py_index. destruct (lookup_lt_is_Some_2 l i H) as [x ->]. eauto.
Qed.

Lemma list_index_In l x :
  In x l -> exists i, list_index l x = Ok i /\ (i < length l)%nat.
Proof.
  induction l as [|y l IH]; simpl; [tauto|].
  intros H. destruct (Z.eqb_spec y x) as [->|Hne].
  - exists 0%nat. split; [reflexivity | lia].
  - destruct H as [H|H]; [contradiction|].
    destruct (IH H) as (i & -> & Hi). exists (S i). split; [reflexivity | lia].
Qed.

(** The uniform fallback of the sampler returns one of the identifiers. *)
Lemma choice_member a w :
  a <> [] -> ensures (np_random_choice a) w (fun c _ => In c a).
Proof.
  intros Ha. unfold np_random_choice. destruct a as [|x a]; [contradiction|].
  unfold ensures. rewrite run_bind. cbn [random_sample].
  destruct (frac_range (rng w (rng_pos w))) as [H0 H1].
  set (u := frac (rng w (rng_pos w))) in *.
  assert (Hlt : (Z.to_nat (Qfloor (u * of_nat (length (x :: a)))) < length (x :: a))%nat).
  { apply uniform_index_lt; [assumption..|]. simpl. lia. }
  destruct (py_index_lt _ _ Hlt) as [c Hc].
  unfold lift. rewrite Hc. eapply py_index_In, Hc.
Qed.

(** On a non-empty list of identifiers the sampler returns one of them. *)
Lemma sampling_member fes ids t w :
  ids <> [] -> ensures (_boltzmann_sampling fes ids t) w (fun r _ => In (fst r) ids).
Proof.
  intros Hids. unfold ensures, _boltzmann_sampling, try_except.
  match goal with |- context [match ?b w with _ => _ end] => destruct (b w) as [[r|e] w1] eqn:E end.
  - apply bind_ok_inv in E. destruct E as (idx & w2 & _ & E).
    apply bind_ok_inv in E. destruct E as (i & w3 & Hi & E).
    apply bind_ok_inv in E. destruct E as (p & w4 & _ & E).
    injection E as <- _. simpl.
    unfold lift in Hi. injection Hi as Hi _. eapply py_index_In, Hi.
  - rewrite run_bind. cbn [logger]. rewrite run_bind.
    match goal with |- context [np_random_choice ids ?w'] =>
      pose proof (choice_member ids w' Hids) as Hc end.
    unfold ensures in Hc.
    match type of Hc with context [np_random_choice ids ?w'] =>
      destruct (np_random_choice ids w') as [[c|e'] w2] end; [|contradiction].
    rewrite run_bind. unfold lift, py_inv.
    destruct (Nat.eqb_spec (length ids) 0) as [Hz|Hz].
    + apply length_zero_iff_nil in Hz. contradiction.
    + exact Hc.
Qed.

Lemma ensures_for_each {A B} (body : A -> M B) (P : A -> B -> Prop) l w :
  (forall x w, ensures (body x) w (fun b _ => P x b)) ->
  ensures (for_each body l) w (fun bs _ => Forall2 P l bs).
Proof.
  intros Hb. revert w. induction l as [|x l IH]; intros w; simpl.
  - apply ensures_ret. constructor.
  - apply ensures_bind. eapply ensures_mono; [apply Hb|].
    intros b w1 Hp. simpl. apply ensures_bind.
    eapply ensures_mono; [apply IH|].
    intros bs w2 Hbs. simpl. apply ensures_ret. constructor; assumption.
Qed.

Lemma evaluate_candidate_id recent t l w :
  ensures (evaluate_candidate recent t l) w (fun c _ => c_listing_id c = id l).
Proof.
  unfold evaluate_candidate. apply ensures_bind.
  eapply ensures_mono; [apply entropy_total|].
  intros e w1 _. simpl. unfold ensures. rewrite run_bind, free_energy_run.
  reflexivity.
Qed.

End Totality.

(** ** The selection round *)

Section Round.
Context `{Ext : Externals}.

Lemma ensures_query {A} (q : DB -> A) w (Q : A -> World -> Prop) :
  Q (q (db w)) w -> ensures (query q) w Q.
Proof. intros H. exact H. Qed.

Lemma ensures_now w (Q : Z -> World -> Prop) :
  Q (now w) w -> ensures timezone_now w Q.
Proof. intros H. exact H. Qed.

Lemma ensures_get_self w (Q : Selector -> World -> Prop) :
  Q (self w) w -> ensures get_self w Q.
Proof. intros H. exact H. Qed.

Lemma ensures_logger lvl msg w (Q : unit -> World -> Prop) :
  Q tt (logged [(lvl, msg)] w) -> ensures (logger lvl msg) w Q.
Proof. intros H. exact H. Qed.

Lemma ensures_lift_ok {A} (a : A) w (Q : A -> World -> Prop) :
  Q a w -> ensures (lift (Ok a)) w Q.
Proof. intros H. exact H. Qed.

Lemma slice_to_nonneg {A} k (l : list A) :
  (0 <= k)%Z -> slice_to k l = Ok (take (Z.to_nat k) l).
Proof.
  intros H. unfold slice_to. destruct (Z.ltb_spec k 0); [lia | reflexivity].
Qed.

(** The temperature of a round is always inside its range. *)
Lemma temperature_range pool w :
  ensures (_calculate_system_temperature pool) w
    (fun t _ => (0.1 <= t)%Q /\ (t <= 1.0)%Q).
Proof.
  unfold ensures, _calculate_system_temperature, try_except.
  rewrite run_bind. cbn [query]. rewrite run_bind. cbn [logger mret M_ret ret].
  apply np_clip_bounds. discriminate.
Qed.

Lemma select_body_empty m w :
  (0 <= m)%Z ->
  take (Z.to_nat m) (listings_score_gt 0.5 (db w)) = [] ->
  select_body m w =
  (Ok (None, ∅),
   logged [(WARNING, "No eligible listings found for Record of the Day")] w).
Proof.
  intros Hm He. unfold select_body. rewrite run_bind. cbn [query].
  rewrite run_bind. rewrite (slice_to_nonneg _ _ Hm). cbn [lift].
  rewrite He. reflexivity.
Qed.

Lemma Forall2_ids (el : list Listing) (cands : list candidate) :
  Forall2 (fun l c => c_listing_id c = id l) el cands ->
  map c_listing_id cands = map id el.
Proof.
  induction 1 as [|l c el cands H _ IH]; simpl; congruence.
Qed.

(** A round over a non-empty pool returns one of its listings, with the
    ten-key breakdown and a temperature inside its range. *)
Lemma select_body_selects m w el :
  (0 <= m)%Z ->
  take (Z.to_nat m) (listings_score_gt 0.5 (db w)) = el -> el <> [] ->
  ensures (select_body m) w (fun r w' =>
    exists x em t ut et fe sp,
      r = (Some x,
           thermodynamic_breakdown (score x) em t ut et fe sp
             (Z.of_nat (length el)) (cluster_count_of (self w'))) /\
      In x el /\ (0.1 <= t)%Q /\ (t <= 1.0)%Q).
Proof.
  intros Hm He Hne. unfold select_body.
  apply ensures_bind, ensures_query.
  rewrite (slice_to_nonneg _ _ Hm), He.
  apply ensures_bind, ensures_lift_ok.
  destruct el as [|first rest]; [contradiction|].
  cbv beta iota. remember (first :: rest) as el eqn:Hel.
  apply ensures_bind, ensures_now.
  apply ensures_bind, ensures_query.
  rewrite slice_to_nonneg by lia.
  apply ensures_bind, ensures_lift_ok.
  apply ensures_bind. eapply ensures_mono; [apply update_total|].
  intros _ w1 _. cbv beta.
  apply ensures_bind. eapply ensures_mono; [apply temperature_range|].
  intros t w2 [Ht0 Ht1]. cbv beta.
  apply ensures_bind. eapply ensures_mono; [apply ensures_for_each|].
  { intros x w'. apply evaluate_candidate_id. }
  intros cands w3 Hc. cbv beta.
  pose proof (Forall2_ids _ _ Hc) as Hids.
  pose proof (Forall2_length _ _ _ Hc) as Hlen.
  assert (Hcne : map c_listing_id cands <> []).
  { rewrite Hids, Hel. discriminate. }
  apply ensures_bind. eapply ensures_mono; [apply sampling_member, Hcne|].
  intros [sid sp] w4 Hsid. simpl in Hsid. cbv beta iota.
  destruct (list_index_In _ _ Hsid) as (i & Hi & Hilt).
  rewrite Hi. apply ensures_bind, ensures_lift_ok.
  rewrite length_map in Hilt.
  destruct (py_index_lt (map c_entropy_measure cands) i) as [em ->];
    [rewrite length_map; exact Hilt|].
  apply ensures_bind, ensures_lift_ok.
  destruct (py_index_lt (map c_utility cands) i) as [ut ->];
    [rewrite length_map; exact Hilt|].
  apply ensures_bind, ensures_lift_ok.
  destruct (py_index_lt (map c_entropy_term cands) i) as [et ->];
    [rewrite length_map; exact Hilt|].
  apply ensures_bind, ensures_lift_ok.
  destruct (py_index_lt (map c_free_energy cands) i) as [fe ->];
    [rewrite length_map; exact Hilt|].
  apply ensures_bind, ensures_lift_ok.
  apply ensures_bind, ensures_get_self.
  apply ensures_bind, ensures_logger.
  apply ensures_bind, ensures_logger.
  apply ensures_ret.
  eexists _, em, t, ut, et, fe, sp. split; [reflexivity|].
  split; [|split; assumption].
  destruct (List.find (fun l => (id l =? sid)%Z) el) as [x|] eqn:Ef; simpl.
  - apply find_some in Ef. apply Ef.
  - subst el. left. reflexivity.
Qed.

End Round.

(** * The claims *)

Section Claims.
Context `{Ext : Externals}.

(** ** The free-energy evaluator *)

(** C3. For every listing, entropy measure [e] and temperature [t], the
    evaluator returns the triple (free energy, utility, entropy term) with
    utility [- s] when the score [s] is positive and [- 1.0] otherwise,
    entropy term [t * e] and free energy [utility - t * e]; the free energy
    is within [1e-5] of [utility - t * e]; the call changes nothing. *)
Theorem free_energy_is_utility_minus_entropy_term (listing : Listing) (e t : Q) w :
  match _calculate_free_energy listing e t w with
  | (Ok (free_energy, utility, entropy_term), w') =>
      w' = w /\
      utility = (if Qltb 0 (score listing) then - score listing else - 1.0)%Q /\
      ((0 < score listing)%Q -> utility = (- score listing)%Q) /\
      (~ (0 < score listing)%Q -> utility = (- 1.0)%Q) /\
      entropy_term = (t * e)%Q /\
      free_energy = (utility - t * e)%Q /\
      (Qabs (free_energy - (utility - t * e)) <= 1e-5)%Q
  | (Raise _, _) => False
  end.
Proof.
  rewrite free_energy_run. unfold utility_of.
  repeat split.
  - intros H. apply Qltb_lt in H. rewrite H. reflexivity.
  - intros H. destruct (Qltb 0 (score listing)) eqn:E; [|reflexivity].
    apply Qltb_lt in E. contradiction.
  - match goal with |- (Qabs ?x <= _)%Q => assert (Hx : (x == 0)%Q) by ring end.
    rewrite Hx. discriminate.
Qed.

(** ** The novelty model *)

Lemma update_below_five recent w :
  (length recent < 5)%nat ->
  _update_cluster_model recent w =
  (Ok false, logged [(WARNING, "Insufficient recent listings for clustering")] w).
Proof.
  intros H. unfold _update_cluster_model, try_except.
  destruct (Nat.ltb_spec (length recent) 5) as [_|H']; [reflexivity | lia].
Qed.

Lemma entropy_without_centroids listing recent w :
  cluster_centroids (self w) = None ->
  _calculate_entropy_measure listing recent w =
  (Ok (0.3 + (0.7 - 0.3) * next_sample w)%Q, drawn w).
Proof.
  intros H. unfold _calculate_entropy_measure, try_except.
  rewrite run_bind. cbn [get_self]. rewrite H. reflexivity.
Qed.

(** C8. A refit over fewer than five listings returns [False] without
    raising and leaves the selector, hence its centroids, as it was; and
    while there are no centroids the entropy measure of any candidate is
    [0.3 + (0.7 - 0.3) * u] for the generator's next uniform sample [u] of
    [[0, 1)], a value of [[0.3, 0.7]]. *)
Theorem refit_below_five_listings (recent : list Listing) (listing : Listing) w :
  (length recent < 5)%nat ->
  _update_cluster_model recent w =
    (Ok false, logged [(WARNING, "Insufficient recent listings for clustering")] w) /\
  self (snd (_update_cluster_model recent w)) = self w /\
  cluster_centroids (self (snd (_update_cluster_model recent w))) =
    cluster_centroids (self w) /\
  (cluster_centroids (self w) = None ->
   _calculate_entropy_measure listing recent w =
     (Ok (0.3 + (0.7 - 0.3) * next_sample w)%Q, drawn w) /\
   (0 <= next_sample w)%Q /\ (next_sample w < 1)%Q /\
   (0.3 <= 0.3 + (0.7 - 0.3) * next_sample w)%Q /\
   (0.3 + (0.7 - 0.3) * next_sample w <= 0.7)%Q).
Proof.
  intros H. rewrite (update_below_five _ _ H).
  split; [reflexivity|]. split; [reflexivity|]. split; [reflexivity|].
  intros Hc. split; [apply entropy_without_centroids, Hc|].
  destruct (frac_range (rng w (rng_pos w))) as [H0 H1]. fold (next_sample w) in H0, H1.
  repeat split; lra.
Qed.

Lemma update_fills_cache recent w :
  (5 <= length recent)%nat ->
  cache_hit (recent_listings_cache (self (snd (_update_cluster_model recent w)))) recent
  = true.
Proof.
  intros H. unfold _update_cluster_model, try_except.
  destruct (Nat.ltb_spec (length recent) 5) as [H'|_]; [lia|].
  rewrite run_bind. cbn [get_self].
  destruct (cache_hit (recent_listings_cache (self w)) recent) eqn:Hc.
  - simpl. exact Hc.
  - rewrite run_bind. cbn [modify_self call_self fst snd].
    match goal with |- context [refit_cluster_model recent ?w'] =>
      pose proof (refit_cache recent w') as Hk;
      destruct (refit_cluster_model recent w') as [[b|e] w1]
    end; unfold same_cache in Hk; simpl in Hk |- *; rewrite Hk;
      simpl; apply listings_eqb_refl.
Qed.

(** C9 (amended). For every window of at least five listings, a second
    refit with the same window recomputes nothing: it only logs that the
    cached model is used and returns [True], and the selector, hence the
    centroids, is the one the first call left. *)
Theorem refit_twice_uses_cache (recent : list Listing) w :
  (5 <= length recent)%nat ->
  let w1 := snd (_update_cluster_model recent w) in
  _update_cluster_model recent w1 =
    (Ok true, logged [(INFO, "Using cached cluster model")] w1) /\
  self (snd (_update_cluster_model recent w1)) = self w1 /\
  cluster_centroids (self (snd (_update_cluster_model recent w1))) =
    cluster_centroids (self w1).
Proof.
  intros H w1.
  assert (Hrun : _update_cluster_model recent w1 =
                 (Ok true, logged [(INFO, "Using cached cluster model")] w1)).
  { pose proof (update_fills_cache recent w H) as Hc. fold w1 in Hc.
    unfold _update_cluster_model, try_except.
    destruct (Nat.ltb_spec (length recent) 5) as [H'|_]; [lia|].
    rewrite run_bind. cbn [get_self]. rewrite Hc. reflexivity. }
  rewrite Hrun. repeat split.
Qed.

(** ** The orchestrator *)

(** C10. [select_record_of_the_day] writes nothing to the database: whatever
    the database, the selector, the generator and [max_candidates] are, and
    whether it returns a selection or a fallback, the tables are the same
    after the call. *)
Theorem select_record_of_the_day_writes_nothing (max_candidates : Z) w :
  db (snd (select_record_of_the_day max_candidates w)) = db w.
Proof. apply select_db. Qed.

Lemma select_handler_run e w :
  select_handler e w =
  (Ok (highest_scored (db w), fallback_breakdown e),
   logged [(ERROR, "Error selecting Record of the Day")] w).
Proof. reflexivity. Qed.

Lemma select_total m : total (select_record_of_the_day m).
Proof.
  apply total_try_except. intros e w. unfold ensures.
  rewrite select_handler_run. exact I.
Qed.

Lemma select_negative m w :
  (m < 0)%Z ->
  select_body m w = (Raise (ValueError "Negative indexing is not supported."), w).
Proof.
  intros H. unfold select_body. rewrite run_bind. cbn [query].
  rewrite run_bind. unfold slice_to.
  destruct (Z.ltb_spec m 0); [reflexivity | lia].
Qed.

Lemma take_nil_of_nil {A} n (l : list A) : l = [] -> take n l = [].
Proof. intros ->. apply take_nil. Qed.

Lemma In_take {A} n (l : list A) x : In x (take n l) -> In x l.
Proof.
  revert n. induction l as [|y l IH]; intros [|n]; simpl; try tauto.
  intros [->|H]; [left; reflexivity | right; eapply IH, H].
Qed.

(** C2 (amended). [select_record_of_the_day] never raises.  For a
    non-negative [max_candidates] and an empty eligible pool it returns
    [(None, {})].  When the body raises [e] it returns the listing that
    [first()] finds among the positively scored ones by descending score (a
    listing of the table with the greatest score, that score positive; none
    when no score is positive) with the breakdown
    [{'error': str(e), 'selection_method': 'fallback'}].  It returns [None]
    with an ['error'] key only when no listing has a positive score. *)
Theorem select_record_of_the_day_never_raises (max_candidates : Z) w :
  exists l b w',
    select_record_of_the_day max_candidates w = (Ok (l, b), w') /\
    ((0 <= max_candidates)%Z -> eligible_pool (db w) = [] ->
     l = None /\ b = ∅) /\
    (forall e w1, select_body max_candidates w = (Raise e, w1) ->
     l = highest_scored (db w) /\
     b = fallback_breakdown e /\
     b !! "error" = Some (VStr (str e)) /\
     b !! "selection_method" = Some (VStr "fallback") /\
     (forall x, l = Some x ->
        In x (listings (db w)) /\ (0 < score x)%Q /\
        forall y, In y (listings (db w)) -> (score y <= score x)%Q)) /\
    (l = None -> is_Some (b !! "error") ->
     forall y, In y (listings (db w)) -> ~ (0 < score y)%Q).
Proof.
  pose proof (select_body_db max_candidates w) as Hdb. unfold same_db in Hdb.
  unfold select_record_of_the_day, try_except.
  destruct (select_body max_candidates w) as [[[l b]|e] w1] eqn:Hbody; simpl in Hdb.
  - exists l, b, w1. split; [reflexivity|].
    assert (Hm : (0 <= max_candidates)%Z).
    { destruct (Z.lt_ge_cases max_candidates 0) as [Hneg|Hpos]; [|exact Hpos].
      rewrite (select_negative _ _ Hneg) in Hbody. discriminate. }
    split; [|split].
    + intros _ He. apply eligible_pool_nil in He.
      rewrite (select_body_empty _ _ Hm) in Hbody
        by (apply take_nil_of_nil, He).
      injection Hbody as <- <- _. split; reflexivity.
    + intros e w2 H. discriminate.
    + intros Hl Herr.
      destruct (take (Z.to_nat max_candidates) (listings_score_gt 0.5 (db w)))
        as [|first rest] eqn:He.
      * rewrite (select_body_empty _ _ Hm He) in Hbody.
        injection Hbody as _ <- _. rewrite lookup_empty in Herr.
        destruct Herr as [v Hv]. discriminate.
      * pose proof (select_body_selects _ w _ Hm He) as Hs.
        unfold ensures in Hs. rewrite Hbody in Hs.
        destruct Hs as (x & em & t & ut & et & fe & sp & Hr & _); [discriminate|].
        injection Hr as Hl' _. congruence.
  - rewrite select_handler_run. rewrite Hdb.
    exists (highest_scored (db w)), (fallback_breakdown e), 
      (logged [(ERROR, "Error selecting Record of the Day")] w1).
    split; [reflexivity|]. split; [|split].
    + intros Hm He. apply eligible_pool_nil in He.
      rewrite (select_body_empty _ _ Hm) in Hbody
        by (apply take_nil_of_nil, He).
      discriminate.
    + intros e' w2 H. injection H as <- <-.
      split; [reflexivity|]. split; [reflexivity|].
      split; [reflexivity|]. split; [reflexivity|].
      intros x Hx. apply highest_scored_some. exact Hx.
    + intros Hl _. apply highest_scored_none, Hl.
Qed.

End Claims.

(** ** The temperature estimator *)

Section Temperature.
Context `{Ext : Externals}.

Lemma temperature_run pool w :
  _calculate_system_temperature pool w =
  (Ok (np_clip ((0.5 + (0.3 * unevaluated_ratio pool + 0.2 * uncertainty_factor pool))
                * (1 + 0.2 * avg_desirability (db w)))%Q 0.1 1.0),
   logged [(INFO, "System temperature")] w).
Proof. reflexivity. Qed.


End Temperature.

(** ** The Boltzmann sampler *)

Section Sampler.
Context `{Ext : Externals}.

Lemma choice_p_valid a p ps w :
  valid_probabilities a p = Some ps ->
  np_random_choice_p a p w =
  (Ok (searchsorted_right (cdf_of ps) (next_sample w)), drawn w).
Proof.
  unfold valid_probabilities, np_random_choice_p.
  destruct (a =? 0)%nat; [discriminate|].
  destruct (negb (length p =? a)%nat); [discriminate|].
  destruct (existsb is_nan p); [discriminate|].
  destruct (existsb fnegative p); [discriminate|]. cbn [orb].
  destruct (finite_values p) as [qs|]; [|discriminate].
  destruct (Qltb atol (Qabs (Qsum qs - 1))); [discriminate|].
  intros H. injection H as ->. reflexivity.
Qed.

Lemma choice_p_invalid a p w :
  valid_probabilities a p = None ->
  exists e, np_random_choice_p a p w = (Raise e, w).
Proof.
  unfold valid_probabilities, np_random_choice_p.
  destruct (a =? 0)%nat; [eexists; reflexivity|].
  destruct (negb (length p =? a)%nat); [eexists; reflexivity|].
  destruct (existsb is_nan p); [eexists; reflexivity|].
  destruct (existsb fnegative p); [eexists; reflexivity|]. cbn [orb].
  destruct (finite_values p) as [qs|]; [|eexists; reflexivity].
  destruct (Qltb atol (Qabs (Qsum qs - 1))); [eexists; reflexivity | discriminate].
Qed.

Lemma valid_probabilities_inv a p ps :
  valid_probabilities a p = Some ps ->
  a <> 0%nat /\ length p = a /\ length ps = a /\
  Forall2 (fun x q => x = Fin q) p ps /\
  (Qabs (Qsum ps - 1) <= atol)%Q.
Proof.
  unfold valid_probabilities.
  destruct (Nat.eqb_spec a 0); [discriminate|].
  destruct (Nat.eqb_spec (length p) a); [|discriminate].
  destruct (existsb is_nan p); [discriminate|].
  destruct (existsb fnegative p); [discriminate|]. cbn [orb].
  destruct (finite_values p) as [qs|] eqn:Ef; [|discriminate].
  destruct (Qltb atol (Qabs (Qsum qs - 1))) eqn:Es; [discriminate|].
  intros H. injection H as <-.
  unfold finite_values in Ef. apply mapM_Some in Ef.
  split; [assumption|]. split; [assumption|].
  split; [rewrite <- (Forall2_length _ _ _ Ef); assumption|].
  split; [|apply Qltb_ge, Es].
  eapply Forall2_impl; [exact Ef|].
  intros x q Hx. destruct x; simpl in Hx; try discriminate. congruence.
Qed.

(** *** The inverse-CDF search *)

Lemma cumsum_from_lookup acc ps j :
  (j < length ps)%nat ->
  cumsum_from acc ps !! j = Some (foldl Qplus acc (take (S j) ps)).
Proof.
  revert acc j. induction ps as [|x ps IH]; intros acc j Hj; simpl in Hj; [lia|].
  destruct j as [|j]; simpl.
  - reflexivity.
  - apply IH. lia.
Qed.

Lemma cumsum_from_length acc ps : length (cumsum_from acc ps) = length ps.
Proof.
  revert acc. induction ps as [|x ps IH]; intros acc; simpl; [reflexivity|].
  rewrite IH. reflexivity.
Qed.

Lemma cdf_of_lookup ps j :
  (j < length ps)%nat ->
  cdf_of ps !! j = Some (Qsum (take (S j) ps) / Qsum ps)%Q.
Proof.
  intros Hj. unfold cdf_of, cumsum. rewrite list_lookup_fmap.
  rewrite (cumsum_from_lookup _ _ _ Hj). reflexivity.
Qed.

Lemma searchsorted_right_below l u j :
  (j < searchsorted_right l u)%nat -> exists c, l !! j = Some c /\ (c <= u)%Q.
Proof.
  revert j. induction l as [|x l IH]; intros j Hj; simpl in Hj; [lia|].
  destruct (Qle_bool x u) eqn:E; [|lia].
  destruct j as [|j]; simpl.
  - exists x. split; [reflexivity | apply Qle_bool_iff, E].
  - apply IH. lia.
Qed.

Lemma searchsorted_right_above l u c :
  l !! searchsorted_right l u = Some c -> (u < c)%Q.
Proof.
  induction l as [|x l IH]; simpl; [discriminate|].
  destruct (Qle_bool x u) eqn:E; simpl.
  - exact IH.
  - intros H. injection H as <-. apply Qnot_le_lt. intros Hle.
    apply Qle_bool_iff in Hle. congruence.
Qed.

Lemma searchsorted_right_lt l u c :
  In c l -> (u < c)%Q -> (searchsorted_right l u < length l)%nat.
Proof.
  induction l as [|x l IH]; simpl; [tauto|].
  intros Hin Hc. destruct (Qle_bool x u) eqn:E; [|lia].
  destruct Hin as [->|Hin].
  - apply Qle_bool_iff in E. exfalso. apply (Qlt_not_le _ _ Hc E).
  - specialize (IH Hin Hc). lia.
Qed.

Lemma sum_near_one_pos s : (Qabs (s - 1) <= atol)%Q -> (0 < s)%Q.
Proof.
  intros H. apply Qabs_Qle_condition in H. destruct H as [H _].
  unfold atol in H. lra.
Qed.

Lemma cdf_index_lt ps u :
  ps <> [] -> (0 < Qsum ps)%Q -> (u < 1)%Q ->
  (searchsorted_right (cdf_of ps) u < length ps)%nat.
Proof.
  intros Hne Hs Hu.
  assert (Hlen : (0 < length ps)%nat) by (destruct ps; [contradiction | simpl; lia]).
  assert (Hlast : cdf_of ps !! (length ps - 1)%nat = Some (Qsum ps / Qsum ps)%Q).
  { rewrite cdf_of_lookup by lia.
    replace (S (length ps - 1)) with (length ps) by lia.
    rewrite take_ge by lia. reflexivity. }
  assert (Hl : length (cdf_of ps) = length ps).
  { unfold cdf_of, cumsum. rewrite length_map. apply cumsum_from_length. }
  rewrite <- Hl. eapply searchsorted_right_lt.
  - apply list_elem_of_In. eapply list_elem_of_lookup_2, Hlast.
  - assert (H1 : (Qsum ps / Qsum ps == 1)%Q) by (field; lra).
    rewrite H1. exact Hu.
Qed.

(** The draw lands in the interval of the chosen index, whose width is the
    probability of that index. *)
Lemma cdf_interval ps u :
  let i := searchsorted_right (cdf_of ps) u in
  (0 <= u)%Q -> (0 < Qsum ps)%Q -> (i < length ps)%nat ->
  (Qsum (take i ps) / Qsum ps <= u)%Q /\ (u < Qsum (take (S i) ps) / Qsum ps)%Q.
Proof.
  intros i Hu Hs Hi. split.
  - destruct i as [|j] eqn:Ei.
    + rewrite take_0. unfold Qsum at 1. simpl.
      assert (H0 : (0 / Qsum ps == 0)%Q) by (field; lra). rewrite H0. exact Hu.
    + destruct (searchsorted_right_below (cdf_of ps) u j) as (c & Hc & Hle).
      { fold i. lia. }
      rewrite cdf_of_lookup in Hc by lia. injection Hc as <-. exact Hle.
  - eapply searchsorted_right_above. fold i. apply cdf_of_lookup, Hi.
Qed.

End Sampler.

Section Sampler_cases.
Context `{Ext : Externals}.

(** *** Temperature zero *)

Lemma weights_at_zero fes t :
  (t == 0)%Q -> Forall degenerate (boltzmann_weights fes t).
Proof.
  intros Ht. unfold boltzmann_weights. apply List.Forall_forall.
  intros x Hx. apply in_map_iff in Hx. destruct Hx as (f & <- & _).
  unfold fdiv, fneg. apply Qeq_bool_iff in Ht. rewrite Ht.
  unfold degenerate.
  destruct (Qeq_bool (- f) 0); [simpl; auto|].
  destruct (Qltb 0 (- f)); simpl; auto.
Qed.

Lemma fadd_sticky W acc :
  Forall degenerate W -> acc = NaN \/ acc = PInf ->
  foldl fadd acc W = NaN \/ foldl fadd acc W = PInf.
Proof.
  intros HW. revert acc. induction HW as [|x W Hx HW IH]; intros acc Hacc; simpl.
  - exact Hacc.
  - apply IH. destruct Hacc as [->| ->]; destruct Hx as [->|[->| ->]]; simpl; auto.
Qed.

Lemma fadd_inf_source W acc :
  Forall degenerate W -> foldl fadd acc W = PInf -> acc = PInf \/ In PInf W.
Proof.
  intros HW. revert acc. induction HW as [|x W Hx HW IH]; intros acc H; simpl in *.
  - left. exact H.
  - destruct (IH _ H) as [Hs|Hs]; [|right; right; exact Hs].
    destruct Hx as [->|[->| ->]].
    + destruct acc; discriminate.
    + right. left. reflexivity.
    + destruct acc; try discriminate. left. reflexivity.
Qed.

Lemma fadd_zero_sum W q :
  Forall degenerate W -> (q == 0)%Q ->
  foldl fadd (Fin q) W = NaN \/ foldl fadd (Fin q) W = PInf \/
  exists q', foldl fadd (Fin q) W = Fin q' /\ (q' == 0)%Q /\ Forall (eq (Fin 0)) W.
Proof.
  intros HW. revert q. induction HW as [|x W Hx HW IH]; intros q Hq; simpl.
  - right; right. exists q. auto.
  - destruct Hx as [->|[->| ->]]; simpl.
    + destruct (fadd_sticky W NaN HW) as [H|H]; auto.
    + destruct (fadd_sticky W PInf HW) as [H|H]; auto.
    + destruct (IH (q + 0)%Q) as [H|[H|(q' & H & Hq' & HF)]]; [lra | auto | auto |].
      right; right. exists q'. auto.
Qed.

(** At temperature zero some probability is [nan]. *)
Lemma normalize_at_zero W :
  W <> [] -> Forall degenerate W -> existsb is_nan (normalize W) = true.
Proof.
  intros Hne HW. apply existsb_exists. unfold normalize, np_sum.
  destruct (fadd_zero_sum W 0 HW) as [H|[H|(q & H & Hq & HF)]]; [reflexivity | | |].
  - destruct W as [|x W]; [contradiction|]. exists NaN. split; [|reflexivity].
    apply in_map_iff. exists x. split; [|left; reflexivity].
    rewrite H. destruct x; reflexivity.
  - destruct (fadd_inf_source W _ HW H) as [Hs|Hs]; [discriminate|].
    exists NaN. split; [|reflexivity].
    apply in_map_iff. exists PInf. split; [|exact Hs]. rewrite H. reflexivity.
  - destruct W as [|x W]; [contradiction|]. exists NaN. split; [|reflexivity].
    apply in_map_iff. exists x. split; [|left; reflexivity].
    inversion HF as [|? ? Hx _]; subst. rewrite H. unfold fdiv.
    apply Qeq_bool_iff in Hq. rewrite Hq. reflexivity.
Qed.

Lemma invalid_at_zero fes (ids : list Z) t :
  ids <> [] -> (t == 0)%Q ->
  valid_probabilities (length ids) (normalize (boltzmann_weights fes t)) = None.
Proof.
  intros Hids Ht. unfold valid_probabilities.
  destruct (Nat.eqb_spec (length ids) 0) as [|_]; [reflexivity|]. cbn [orb].
  destruct (negb (length (normalize (boltzmann_weights fes t)) =? length ids)%nat)
    eqn:El; [reflexivity|]. cbn [orb].
  rewrite normalize_at_zero; [reflexivity | | apply weights_at_zero, Ht].
  intros HW. apply negb_false_iff, Nat.eqb_eq in El.
  unfold normalize in El. rewrite length_map, HW in El. simpl in El.
  symmetry in El. apply length_zero_iff_nil in El. contradiction.
Qed.

End Sampler_cases.

Section Sampler_claim.
Context `{Ext : Externals}.

Lemma sampling_normal fes ids t w ps :
  valid_probabilities (length ids) (normalize (boltzmann_weights fes t)) = Some ps ->
  let i := searchsorted_right (cdf_of ps) (next_sample w) in
  exists id pi wi,
    ids !! i = Some id /\ ps !! i = Some pi /\
    boltzmann_weights fes t !! i = Some wi /\
    Fin pi = fdiv wi (np_sum (boltzmann_weights fes t)) /\
    _boltzmann_sampling fes ids t w = (Ok (id, Fin pi), drawn w) /\
    (Qsum (take i ps) / Qsum ps <= next_sample w)%Q /\
    (next_sample w < Qsum (take (S i) ps) / Qsum ps)%Q.
Proof.
  intros Hv i.
  destruct (valid_probabilities_inv _ _ _ Hv) as (Ha & Hlp & Hlps & HF & Hsum).
  pose proof (sum_near_one_pos _ Hsum) as Hpos.
  destruct (frac_range (rng w (rng_pos w))) as [Hu0 Hu1].
  fold (next_sample w) in Hu0, Hu1.
  assert (Hps : ps <> []).
  { intros ->. simpl in Hlps. congruence. }
  assert (Hi : (i < length ps)%nat) by (apply cdf_index_lt; assumption).
  destruct (lookup_lt_is_Some_2 ids i) as [id Hid]; [lia|].
  destruct (lookup_lt_is_Some_2 ps i Hi) as [pi Hpi].
  destruct (Forall2_lookup_r _ _ _ _ _ HF Hpi) as (x & Hx & ->).
  pose proof Hx as Hn. unfold normalize in Hn. rewrite list_lookup_fmap in Hn.
  destruct (boltzmann_weights fes t !! i) as [wi|] eqn:Hwi; [|discriminate].
  simpl in Hn. injection Hn as Hn.
  exists id, pi, wi.
  split; [exact Hid|]. split; [exact Hpi|]. split; [reflexivity|].
  split; [symmetry; exact Hn|].
  split; [|apply cdf_interval; assumption].
  unfold _boltzmann_sampling, try_except.
  rewrite run_bind, (choice_p_valid _ _ _ _ Hv). fold i.
  rewrite run_bind. unfold lift at 1, py_index at 1. rewrite Hid.
  rewrite run_bind. unfold lift, py_index. rewrite Hx. reflexivity.
Qed.

Lemma logger_run lvl msg w : logger lvl msg w = (Ok tt, logged [(lvl, msg)] w).
Proof. reflexivity. Qed.

Lemma choice_run a w id :
  a !! Z.to_nat (Qfloor (next_sample w * of_nat (length a))) = Some id ->
  np_random_choice a w = (Ok id, drawn w).
Proof.
  intros H. destruct a as [|x a]; [rewrite lookup_nil in H; discriminate|].
  unfold np_random_choice. rewrite run_bind. unfold random_sample, lift, py_index.
  change (frac (rng w (rng_pos w))) with (next_sample w).
  rewrite H. reflexivity.
Qed.

Lemma sampling_fallback fes ids t w :
  ids <> [] ->
  valid_probabilities (length ids) (normalize (boltzmann_weights fes t)) = None ->
  exists id,
    ids !! Z.to_nat (Qfloor (next_sample w * of_nat (length ids))) = Some id /\
    _boltzmann_sampling fes ids t w =
      (Ok (id, Fin (1.0 / of_nat (length ids))),
       drawn (logged [(ERROR, "Error in Boltzmann sampling")] w)).
Proof.
  intros Hids Hv.
  destruct (frac_range (rng w (rng_pos w))) as [Hu0 Hu1].
  fold (next_sample w) in Hu0, Hu1.
  assert (Hlen : (0 < length ids)%nat).
  { destruct ids; [contradiction | simpl; lia]. }
  destruct (lookup_lt_is_Some_2 ids
              (Z.to_nat (Qfloor (next_sample w * of_nat (length ids)))))
    as [id Hid]; [apply uniform_index_lt; assumption|].
  exists id. split; [exact Hid|].
  unfold _boltzmann_sampling, try_except.
  rewrite run_bind.
  destruct (choice_p_invalid _ _ w Hv) as [e ->].
  rewrite run_bind, logger_run.
  rewrite run_bind,
    (choice_run ids (logged [(ERROR, "Error in Boltzmann sampling")] w) id Hid).
  rewrite run_bind. unfold lift, py_inv.
  destruct (Nat.eqb_spec (length ids) 0); [lia|]. reflexivity.
Qed.

(** C7 (amended). For every non-empty list of identifiers the sampler never
    raises and returns one of them.  When [np.random.choice] accepts the
    normalised Boltzmann weights, the index drawn is the one whose interval
    of the cumulative distribution holds the generator's sample (so an index
    is drawn with probability proportional to its weight
    [exp(-free_energy / T)]) and the result is the identifier at that index
    with its own probability, its weight over the sum of the weights.
    Otherwise (a [nan], a negative or non-summing probability, a length
    mismatch) the result is an identifier drawn uniformly, with probability
    [1.0 / len(listing_ids)]; temperature zero is always such a case. *)
Theorem boltzmann_sampling_never_raises_on_identifiers
    (free_energies : list Q) (listing_ids : list Z) (temperature : Q) w :
  listing_ids <> [] ->
  (exists id p w',
     _boltzmann_sampling free_energies listing_ids temperature w = (Ok (id, p), w') /\
     In id listing_ids) /\
  (forall ps,
     valid_probabilities (length listing_ids)
       (normalize (boltzmann_weights free_energies temperature)) = Some ps ->
     let i := searchsorted_right (cdf_of ps) (next_sample w) in
     exists id pi wi,
       listing_ids !! i = Some id /\ ps !! i = Some pi /\
       boltzmann_weights free_energies temperature !! i = Some wi /\
       Fin pi = fdiv wi (np_sum (boltzmann_weights free_energies temperature)) /\
       _boltzmann_sampling free_energies listing_ids temperature w =
         (Ok (id, Fin pi), drawn w) /\
       (Qsum (take i ps) / Qsum ps <= next_sample w)%Q /\
       (next_sample w < Qsum (take (S i) ps) / Qsum ps)%Q) /\
  (valid_probabilities (length listing_ids)
     (normalize (boltzmann_weights free_energies temperature)) = None ->
   exists id,
     listing_ids !! Z.to_nat (Qfloor (next_sample w * of_nat (length listing_ids)))
       = Some id /\
     _boltzmann_sampling free_energies listing_ids temperature w =
       (Ok (id, Fin (1.0 / of_nat (length listing_ids))),
        drawn (logged [(ERROR, "Error in Boltzmann sampling")] w))) /\
  ((temperature == 0)%Q ->
   valid_probabilities (length listing_ids)
     (normalize (boltzmann_weights free_energies temperature)) = None).
Proof.
  intros Hids. split; [|split; [|split]].
  - pose proof (sampling_member free_energies listing_ids temperature w Hids) as H.
    apply ensures_run in H. destruct H as ([id p] & w' & Hr & Hin).
    exists id, p, w'. split; assumption.
  - intros ps Hv. apply sampling_normal, Hv.
  - intros Hv. apply sampling_fallback; assumption.
  - intros Ht. apply invalid_at_zero; assumption.
Qed.

End Sampler_claim.

(** ** The persisted selection *)

Section Persistence.
Context `{Ext : Externals}.

Lemma thermodynamic_fields ms em t ut et fe sp n cc :
  let b := thermodynamic_breakdown ms em t ut et fe sp n cc in
  dict_get b "model_score" (VFloat (Fin 0.0)) = VFloat (Fin ms) /\
  dict_get b "entropy_measure" (VFloat (Fin 0.0)) = VFloat (Fin em) /\
  dict_get b "system_temperature" (VFloat (Fin 0.5)) = VFloat (Fin t) /\
  dict_get b "utility_term" (VFloat (Fin 0.0)) = VFloat (Fin ut) /\
  dict_get b "entropy_term" (VFloat (Fin 0.0)) = VFloat (Fin et) /\
  dict_get b "free_energy" (VFloat (Fin 0.0)) = VFloat (Fin fe) /\
  dict_get b "selection_probability" (VFloat (Fin 0.0)) = VFloat sp /\
  dict_get b "total_candidates" (VInt 0) = VInt n /\
  dict_get b "cluster_count" (VInt 0) = VInt cc /\
  dict_get b "selection_method" (VStr "thermodynamic_boltzmann")
    = VStr "thermodynamic_boltzmann" /\
  dict_truthy b = true.
Proof.
  intros b. repeat split; vm_compute; reflexivity.
Qed.

Lemma rows_on_unique today d :
  unique_dates d -> rows_on today d = [] \/ exists r, rows_on today d = [r].
Proof.
  unfold unique_dates, rows_on. induction (record_of_the_days d) as [|x l IH]; simpl.
  - auto.
  - intros H. apply NoDup_cons in H. destruct H as [Hx Hl].
    destruct (Z.eqb_spec (date x) today) as [He|Hn]; [|auto].
    right. exists x. f_equal.
    destruct (List.filter (fun r => (date r =? today)%Z) l) as [|y k] eqn:Ef;
      [reflexivity|].
    exfalso. apply Hx. assert (Hy : In y (List.filter (fun r => (date r =? today)%Z) l))
      by (rewrite Ef; left; reflexivity).
    apply filter_In in Hy. destruct Hy as [Hy Hd]. apply Z.eqb_eq in Hd.
    apply list_elem_of_In, in_map_iff. exists y. split; [congruence | exact Hy].
Qed.

Lemma rotd_get_some today r w :
  rows_on today (db w) = [r] -> rotd_get today w = (Ok r, w).
Proof.
  intros H. unfold rotd_get. rewrite run_bind. cbn [query]. rewrite H. reflexivity.
Qed.

Lemma rotd_get_none today w :
  rows_on today (db w) = [] ->
  rotd_get today w =
  (Raise (DoesNotExist "RecordOfTheDay" "RecordOfTheDay matching query does not exist."), w).
Proof.
  intros H. unfold rotd_get. rewrite run_bind. cbn [query]. rewrite H. reflexivity.
Qed.

Lemma find_by_id d x :
  unique_ids d -> In x (listings d) ->
  List.find (fun l => (id l =? id x)%Z) (listings d) = Some x.
Proof.
  unfold unique_ids. induction (listings d) as [|y l IH]; simpl; [tauto|].
  intros H Hin. apply NoDup_cons in H. destruct H as [Hy Hl].
  destruct (Z.eqb_spec (id y) (id x)) as [He|Hn].
  - destruct Hin as [->|Hin]; [reflexivity|].
    exfalso. apply Hy. rewrite He. apply list_elem_of_In, in_map, Hin.
  - destruct Hin as [->|Hin]; [contradiction|]. apply IH; assumption.
Qed.

Lemma rotd_listing_fk d r :
  fk_valid d -> In r (record_of_the_days d) -> exists l, rotd_listing d r = Some l.
Proof.
  intros Hfk Hr. destruct (Hfk r Hr) as (l & Hl & Hid).
  unfold rotd_listing.
  destruct (List.find (fun l0 => (id l0 =? listing_id r)%Z) (listings d)) as [l'|] eqn:Ef;
    [eauto|].
  exfalso. apply (find_none _ _ Ef) in Hl. apply Z.eqb_neq in Hl. contradiction.
Qed.

(** A read that finds today's row returns it and changes nothing. *)
Lemma get_persisted w r l :
  rows_on (date_of (now w)) (db w) = [r] -> rotd_listing (db w) r = Some l ->
  DashboardAPIView_get false w =
  (Ok {| r_record_of_the_day := Some l; r_record_of_the_day_obj := Some r;
         r_breakdown := persisted_breakdown r |}, w).
Proof.
  intros Hrows Hl. unfold DashboardAPIView_get.
  rewrite run_bind. cbn [timezone_now]. rewrite run_bind.
  unfold try_except_class. rewrite run_bind. cbn [negb]. rewrite run_bind.
  rewrite (rotd_get_some _ _ _ Hrows). cbn [mret M_ret ret].
  rewrite run_bind. unfold rotd_listing_get. rewrite run_bind. cbn [query].
  rewrite Hl. reflexivity.
Qed.

Lemma create_selection_run today x em t ut et fe sp n cc w :
  rows_on today (db w) = [] ->
  let r := selection_row (next_rotd_id (db w)) today x em t ut et fe sp n cc in
  create_selection today x (thermodynamic_breakdown (score x) em t ut et fe sp n cc) w
  = (Ok r, with_db (inserted r (db w)) w) /\
  persisted_breakdown r = thermodynamic_breakdown (score x) em t ut et fe sp n cc.
Proof.
  intros Hrows r. split; [|reflexivity].
  unfold create_selection.
  destruct (thermodynamic_fields (score x) em t ut et fe sp n cc)
    as (H1 & H2 & H3 & H4 & H5 & H6 & H7 & H8 & H9 & H10 & _).
  cbv zeta in H1, H2, H3, H4, H5, H6, H7, H8, H9, H10.
  rewrite H1, H2, H3, H4, H5, H6, H7, H8, H9, H10.
  cbn [to_float to_int to_str]. repeat (rewrite run_bind; cbn [lift]).
  unfold rotd_create. rewrite run_bind. cbn [query date]. rewrite Hrows.
  reflexivity.
Qed.

(** A read on a date without a row and without an eligible listing persists
    nothing and draws nothing. *)
Lemma get_no_eligible w :
  rows_on (date_of (now w)) (db w) = [] ->
  take 50 (listings_score_gt 0.5 (db w)) = [] ->
  DashboardAPIView_get false w =
  (Ok {| r_record_of_the_day := highest_scored (db w);
         r_record_of_the_day_obj := None;
         r_breakdown := <["selection_method" := VStr "fallback_highest_score"]> ∅ |},
   logged [(WARNING, "No eligible listings found for Record of the Day")]
     (fresh_selector w)).
Proof.
  intros Hrows He. unfold DashboardAPIView_get.
  rewrite run_bind. cbn [timezone_now]. rewrite run_bind.
  unfold try_except_class. rewrite run_bind. cbn [negb]. rewrite run_bind.
  rewrite (rotd_get_none _ _ Hrows). cbn [is_rotd_DoesNotExist String.eqb Ascii.eqb Bool.eqb].
  unfold try_except. rewrite run_bind.
  change (put_self new_selector w) with (Ok tt, fresh_selector w). cbv beta iota.
  rewrite run_bind. unfold select_record_of_the_day, try_except.
  rewrite (select_body_empty 50 (fresh_selector w)) by (first [lia | exact He]).
  reflexivity.
Qed.

(** A read on a date without a row, with an eligible listing, persists the
    winner and its breakdown under that date. *)
Lemma get_creates w :
  rows_on (date_of (now w)) (db w) = [] ->
  take 50 (listings_score_gt 0.5 (db w)) <> [] ->
  exists x em t ut et fe sp n cc w3,
    let r := selection_row (next_rotd_id (db w)) (date_of (now w)) x em t ut et fe sp n cc in
    DashboardAPIView_get false w =
      (Ok {| r_record_of_the_day := Some x; r_record_of_the_day_obj := Some r;
             r_breakdown := persisted_breakdown r |},
       with_db (inserted r (db w)) w3) /\
    In x (listings (db w)).
Proof.
  intros Hrows He. unfold DashboardAPIView_get.
  rewrite run_bind. cbn [timezone_now]. rewrite run_bind.
  unfold try_except_class. rewrite run_bind. cbn [negb]. rewrite run_bind.
  rewrite (rotd_get_none _ _ Hrows). cbn [is_rotd_DoesNotExist String.eqb Ascii.eqb Bool.eqb].
  unfold try_except at 1. rewrite run_bind.
  change (put_self new_selector w) with (Ok tt, fresh_selector w). cbv beta iota.
  rewrite run_bind. unfold select_record_of_the_day, try_except at 1.
  pose proof (select_body_selects 50 (fresh_selector w) _ ltac:(lia) eq_refl He) as Hs.
  pose proof (select_body_db 50 (fresh_selector w)) as Hdb.
  unfold ensures in Hs. unfold same_db in Hdb.
  destruct (select_body 50 (fresh_selector w)) as [[[l b]|e] w3]; [|contradiction].
  destruct Hs as (x & em & t & ut & et & fe & sp & Hr & Hin & _).
  match type of Hr with
  | _ = (_, thermodynamic_breakdown _ _ _ _ _ _ _ ?n0 ?c0) =>
      set (n := n0) in Hr; set (cc := c0) in Hr
  end.
  injection Hr as -> ->. simpl in Hdb. cbv beta iota.
  destruct (thermodynamic_fields (score x) em t ut et fe sp n cc)
    as (_ & _ & _ & _ & _ & _ & _ & _ & _ & _ & Ht).
  cbv zeta in Ht. rewrite Ht.
  assert (Hrows3 : rows_on (date_of (now w)) (db w3) = []) by (rewrite Hdb; exact Hrows).
  destruct (create_selection_run (date_of (now w)) x em t ut et fe sp n cc w3 Hrows3)
    as [Hc Hp].
  rewrite run_bind, Hc. rewrite Hdb.
  exists x, em, t, ut, et, fe, sp, n, cc, w3. cbv zeta.
  split; [reflexivity|].
  apply (listings_score_gt_In 0.5 (db w)). eapply In_take, Hin.
Qed.

End Persistence.

(** ** One selection per date *)

Section One_per_date.
Context `{Ext : Externals}.

Lemma dates_refl w : dates_stay_unique w w.
Proof. intros H. exact H. Qed.

Lemma dates_trans w1 w2 w3 :
  dates_stay_unique w1 w2 -> dates_stay_unique w2 w3 -> dates_stay_unique w1 w3.
Proof. unfold dates_stay_unique. auto. Qed.

Lemma same_db_dates {A} (m : M A) : keeps same_db m -> keeps dates_stay_unique m.
Proof. intros H w Hu. rewrite (H w). exact Hu. Qed.

Lemma NoDup_map_filter {A B} (f : A -> B) (p : A -> bool) (l : list A) :
  NoDup (map f l) -> NoDup (map f (List.filter p l)).
Proof.
  induction l as [|x l IH]; simpl; [auto|].
  intros H. apply NoDup_cons in H. destruct H as [Hx Hl].
  destruct (p x); simpl; [|auto].
  apply NoDup_cons. split; [|auto].
  intros Hin. apply Hx. apply list_elem_of_In, in_map_iff in Hin.
  destruct Hin as (y & Hy & Hin). apply filter_In in Hin.
  apply list_elem_of_In, in_map_iff. exists y. tauto.
Qed.

Lemma rotd_delete_dates today : keeps dates_stay_unique (rotd_delete today).
Proof.
  intros w Hu. unfold rotd_delete. rewrite run_bind. cbn [query put_db snd db record_of_the_days].
  apply NoDup_map_filter, Hu.
Qed.

Lemma rows_on_nil_date today d :
  rows_on today d = [] -> ~ In today (map date (record_of_the_days d)).
Proof.
  intros H Hin. apply in_map_iff in Hin. destruct Hin as (r & Hr & Hin).
  assert (Hf : In r (rows_on today d)).
  { apply filter_In. split; [exact Hin | apply Z.eqb_eq, Hr]. }
  rewrite H in Hf. destruct Hf.
Qed.

Lemma rotd_create_dates row : keeps dates_stay_unique (rotd_create row).
Proof.
  intros w Hu. unfold rotd_create. rewrite run_bind. cbn [query].
  destruct (rows_on (date row) (db w)) as [|r0 rs] eqn:Hrows; [|exact Hu].
  rewrite run_bind. cbn [put_db mret M_ret ret snd db record_of_the_days].
  rewrite map_app. simpl. apply NoDup_app. split; [exact Hu|]. split.
  - intros y Hy Hy'. apply list_elem_of_In in Hy, Hy'. simpl in Hy'.
    destruct Hy' as [<-|[]]. cbn [date] in Hy.
    apply (rows_on_nil_date _ _ Hrows), Hy.
  - apply NoDup_singleton.
Qed.

Hint Resolve rotd_delete_dates rotd_create_dates : frames.

Lemma create_selection_dates today l b :
  keeps dates_stay_unique (create_selection today l b).
Proof.
  unfold create_selection. frame_with dates_refl dates_trans.
Qed.

Lemma select_dates m : keeps dates_stay_unique (select_record_of_the_day m).
Proof. apply same_db_dates, select_db. Qed.

Hint Resolve create_selection_dates select_dates : frames.

Lemma dashboard_dates force : keeps dates_stay_unique (DashboardAPIView_get force).
Proof.
  unfold DashboardAPIView_get, rotd_get, rotd_listing_get.
  frame_with dates_refl dates_trans.
Qed.

Lemma refresh_dates : keeps dates_stay_unique refresh_record_of_the_day_view.
Proof.
  unfold refresh_record_of_the_day_view. frame_with dates_refl dates_trans.
Qed.

Lemma vote_dates i d n : keeps dates_stay_unique (vote_record_of_the_day_view i d n).
Proof.
  unfold vote_record_of_the_day_view.
  apply (keeps_try_except _ dates_trans); [|intros e; apply (keeps_ret _ dates_refl)].
  intros w Hu. rewrite run_bind. cbn [query].
  destruct (List.find _ _); [|exact Hu].
  rewrite run_bind. cbn [put_db mret M_ret ret snd db record_of_the_days].
  rewrite map_map.
  erewrite map_ext; [exact Hu|]. intros r0. simpl.
  destruct (rotd_id r0 =? i)%Z; reflexivity.
Qed.

End One_per_date.

(** ** The clock is only read *)

Section Clock.
Context `{Ext : Externals}.

Lemma same_now_refl w : same_now w w.
Proof. reflexivity. Qed.

Lemma same_now_trans w1 w2 w3 : same_now w1 w2 -> same_now w2 w3 -> same_now w1 w3.
Proof. unfold same_now. congruence. Qed.

Ltac clock := frame_by same_now_refl same_now_trans ltac:(cbv [same_now]).

Lemma build_now ls fit : keeps same_now (_build_feature_vectors ls fit).
Proof.
  unfold _build_feature_vectors, self_vectorizer_fit_transform,
    self_vectorizer_transform, self_scaler_fit_transform, self_scaler_transform.
  destruct ls; clock.
Qed.

Hint Resolve build_now : frames.

Lemma update_now recent : keeps same_now (_update_cluster_model recent).
Proof.
  unfold _update_cluster_model, refit_cluster_model, self_pca_fit_transform,
    self_cluster_model_fit.
  clock.
Qed.

Lemma temperature_now pool : keeps same_now (_calculate_system_temperature pool).
Proof. unfold _calculate_system_temperature. clock. Qed.

Lemma evaluate_now recent t l : keeps same_now (evaluate_candidate recent t l).
Proof.
  unfold evaluate_candidate, _calculate_entropy_measure, _calculate_free_energy,
    self_pca_transform.
  clock.
Qed.

Lemma sampling_now fes ids t : keeps same_now (_boltzmann_sampling fes ids t).
Proof.
  unfold _boltzmann_sampling, np_random_choice_p, np_random_choice. clock.
Qed.

Hint Resolve update_now temperature_now evaluate_now sampling_now : frames.

Lemma select_now m : keeps same_now (select_record_of_the_day m).
Proof.
  unfold select_record_of_the_day, select_body, select_handler. clock.
Qed.

Hint Resolve select_now : frames.

Lemma dashboard_now force : keeps same_now (DashboardAPIView_get force).
Proof.
  unfold DashboardAPIView_get, rotd_get, rotd_listing_get, rotd_delete,
    create_selection, rotd_create.
  clock.
Qed.

End Clock.

(** ** Reads of one date *)

Section Daily_selection.
Context `{Ext : Externals}.

Lemma rows_on_inserted today d r :
  rows_on today d = [] -> date r = today -> rows_on today (inserted r d) = [r].
Proof.
  intros H Hd. unfold rows_on, inserted in *. cbn [record_of_the_days].
  rewrite List.filter_app, H. simpl. rewrite Hd, Z.eqb_refl. reflexivity.
Qed.

Lemma same_selection_refl o : same_selection o o.
Proof. repeat split. Qed.

Lemma same_selection_trans o1 o2 o3 :
  same_selection o1 o2 -> same_selection o2 o3 -> same_selection o1 o3.
Proof. unfold same_selection. intuition congruence. Qed.

Lemma Forall2_same_selection_refl rows : Forall2 same_selection rows rows.
Proof. induction rows; constructor; [apply same_selection_refl | assumption]. Qed.

Lemma Forall2_same_selection_trans rows1 rows2 rows3 :
  Forall2 same_selection rows1 rows2 -> Forall2 same_selection rows2 rows3 ->
  Forall2 same_selection rows1 rows3.
Proof.
  intros H. revert rows3. induction H as [|o1 o2 rows1 rows2 Ho _ IH]; intros rows3 H';
    inversion H' as [|? o3 ? rows3' Ho' H'' ]; subst; constructor.
  - eapply same_selection_trans; eassumption.
  - apply IH, H''.
Qed.

Lemma unchanged_refl w : unchanged_selections w w.
Proof. split; [reflexivity|]. split; [reflexivity | apply Forall2_same_selection_refl]. Qed.

Lemma unchanged_trans w1 w2 w3 :
  unchanged_selections w1 w2 -> unchanged_selections w2 w3 -> unchanged_selections w1 w3.
Proof.
  intros (Hd & Hl & Hr) (Hd' & Hl' & Hr').
  split; [congruence|]. split; [congruence|].
  eapply Forall2_same_selection_trans; eassumption.
Qed.

(** A vote changes no selection. *)
Lemma vote_unchanged record_id d n w :
  unchanged_selections w (snd (vote_record_of_the_day_view record_id d n w)).
Proof.
  unfold vote_record_of_the_day_view, try_except. rewrite run_bind. cbn [query].
  destruct (List.find _ _); [|apply unchanged_refl].
  rewrite run_bind. cbn [put_db mret M_ret ret snd db now listings record_of_the_days].
  split; [reflexivity|]. split; [reflexivity|].
  induction (record_of_the_days (db w)) as [|row rows IH]; simpl; constructor; [|exact IH].
  destruct (rotd_id row =? record_id)%Z; repeat split.
Qed.

Lemma rows_on_unchanged today rows rows' :
  Forall2 same_selection rows rows' ->
  Forall2 same_selection (List.filter (fun r => (date r =? today)%Z) rows)
                         (List.filter (fun r => (date r =? today)%Z) rows').
Proof.
  induction 1 as [|o o' rows rows' Ho _ IH]; simpl; [constructor|].
  destruct Ho as (Hk & Hd & Hrest). rewrite Hd.
  destruct (date o =? today)%Z; [|exact IH].
  constructor; [|exact IH]. split; [exact Hk|]. split; assumption.
Qed.

Lemma unchanged_dates rows rows' :
  Forall2 same_selection rows rows' -> map date rows' = map date rows.
Proof.
  induction 1 as [|o o' rows rows' (_ & Hd & _) _ IH]; simpl; congruence.
Qed.

Lemma unchanged_In rows rows' o' :
  Forall2 same_selection rows rows' -> In o' rows' ->
  exists o, In o rows /\ same_selection o o'.
Proof.
  induction 1 as [|o o2 rows rows' Ho _ IH]; simpl; [tauto|].
  intros [<-|Hin].
  - exists o. split; [left; reflexivity | exact Ho].
  - destruct (IH Hin) as (o1 & H1 & H2). exists o1. split; [right; exact H1 | exact H2].
Qed.

Lemma unchanged_consistent w w' :
  unchanged_selections w w' -> db_consistent (db w) -> db_consistent (db w').
Proof.
  intros (_ & Hl & Hr) (Hud & Hui & Hfk). split; [|split].
  - unfold unique_dates. rewrite (unchanged_dates _ _ Hr). exact Hud.
  - unfold unique_ids. rewrite Hl. exact Hui.
  - intros o' Ho'. destruct (unchanged_In _ _ _ Hr Ho') as (o & Ho & (_ & _ & Hlid & _)).
    destruct (Hfk o Ho) as (l & Hin & Hid). exists l. rewrite Hl, Hlid. split; assumption.
Qed.

Lemma unchanged_pool w w' :
  unchanged_selections w w' ->
  listings_score_gt 0.5 (db w') = listings_score_gt 0.5 (db w) /\
  highest_scored (db w') = highest_scored (db w).
Proof.
  intros (_ & Hl & _). unfold highest_scored, listings_score_gt. rewrite Hl. auto.
Qed.

Lemma unchanged_settled w w' :
  unchanged_selections w w' -> settled w -> settled w'.
Proof.
  intros Hu Hs. pose proof (unchanged_pool _ _ Hu) as [Hp _].
  destruct Hu as (Hd & _ & Hr). destruct Hs as [Hs|Hs]; [left | right].
  - intros H. apply Hs. unfold rows_on in *.
    pose proof (rows_on_unchanged (date_of (now w)) _ _ Hr) as Hf.
    rewrite Hd in H. rewrite H in Hf. inversion Hf. reflexivity.
  - rewrite Hp. exact Hs.
Qed.

(** What a read of a settled date returns, and that it writes nothing. *)
Lemma read_settled w :
  db_consistent (db w) -> settled w ->
  (exists o l,
     rows_on (date_of (now w)) (db w) = [o] /\ rotd_listing (db w) o = Some l /\
     DashboardAPIView_get false w =
       (Ok {| r_record_of_the_day := Some l; r_record_of_the_day_obj := Some o;
              r_breakdown := persisted_breakdown o |}, w)) \/
  (rows_on (date_of (now w)) (db w) = [] /\
   DashboardAPIView_get false w =
     (Ok {| r_record_of_the_day := highest_scored (db w);
            r_record_of_the_day_obj := None;
            r_breakdown := <["selection_method" := VStr "fallback_highest_score"]> ∅ |},
      logged [(WARNING, "No eligible listings found for Record of the Day")]
        (fresh_selector w))).
Proof.
  intros (Hud & Hui & Hfk) Hs.
  destruct (rows_on_unique (date_of (now w)) (db w) Hud) as [Hrows|[o Hrows]].
  - right. split; [exact Hrows|]. destruct Hs as [Hs|Hs]; [contradiction|].
    apply get_no_eligible; assumption.
  - left. assert (Ho : In o (record_of_the_days (db w))).
    { assert (Hin : In o (rows_on (date_of (now w)) (db w)))
        by (rewrite Hrows; left; reflexivity).
      apply filter_In in Hin. apply Hin. }
    destruct (rotd_listing_fk _ _ Hfk Ho) as [l Hl].
    exists o, l. split; [exact Hrows|]. split; [exact Hl|].
    apply get_persisted; assumption.
Qed.

Lemma read_unchanged w :
  db_consistent (db w) -> settled w ->
  unchanged_selections w (snd (DashboardAPIView_get false w)).
Proof.
  intros Hc Hs.
  destruct (read_settled w Hc Hs) as [(o & l & _ & _ & ->)|(_ & ->)];
    (split; [reflexivity|]; split; [reflexivity | apply Forall2_same_selection_refl]).
Qed.

Lemma between_reads_unchanged w1 w2 :
  db_consistent (db w1) -> settled w1 -> between_reads w1 w2 ->
  unchanged_selections w1 w2.
Proof.
  intros Hc Hs. induction 1 as [w|w w' i d n _ IH|w w' _ IH|w w' t _ IH Ht|w w' w'' _ IH Hdb Hn].
  - apply unchanged_refl.
  - eapply unchanged_trans; [apply IH; assumption | apply vote_unchanged].
  - specialize (IH Hc Hs). eapply unchanged_trans; [exact IH|].
    apply read_unchanged;
      [eapply unchanged_consistent | eapply unchanged_settled]; eassumption.
  - specialize (IH Hc Hs). destruct IH as (Hd & Hl & Hr).
    split; [cbn [set_now now]; congruence|]. split; assumption.
  - specialize (IH Hc Hs). destruct IH as (Hd & Hl & Hr).
    split; [congruence|]. rewrite Hdb. split; assumption.
Qed.

(** The first read of a date settles it. *)
Lemma first_read w :
  db_consistent (db w) ->
  exists r w1,
    DashboardAPIView_get false w = (Ok r, w1) /\
    db_consistent (db w1) /\ settled w1 /\ now w1 = now w /\
    fst (DashboardAPIView_get false w1) = Ok r /\
    (forall o, r_record_of_the_day_obj r = Some o ->
       rows_on (date_of (now w)) (db w1) = [o] /\
       r_breakdown r = persisted_breakdown o /\
       r_record_of_the_day r = rotd_listing (db w1) o /\
       exists l, r_record_of_the_day r = Some l /\ In l (listings (db w)) /\
                 id l = listing_id o) /\
    (r_record_of_the_day_obj r = None ->
       rows_on (date_of (now w)) (db w1) = [] /\ eligible_pool (db w) = [] /\
       db w1 = db w /\ r_record_of_the_day r = highest_scored (db w) /\
       r_breakdown r = <["selection_method" := VStr "fallback_highest_score"]> ∅).
Proof.
  intros Hc. pose proof Hc as (Hud & Hui & Hfk).
  pose proof (dashboard_now false w) as Hnow. unfold same_now in Hnow.
  destruct (rows_on_unique (date_of (now w)) (db w) Hud) as [Hrows|[o Hrows]].
  - destruct (take 50 (listings_score_gt 0.5 (db w))) as [|first rest] eqn:He.
    + rewrite (get_no_eligible w Hrows He) in Hnow |- *.
      eexists _, _. split; [reflexivity|]. split; [exact Hc|].
      split; [right; exact He|]. split; [reflexivity|].
      split; [rewrite get_no_eligible; [reflexivity | exact Hrows | exact He]|].
      split; [discriminate|]. intros _.
      split; [exact Hrows|]. split; [|repeat split].
      apply eligible_pool_nil.
      destruct (listings_score_gt 0.5 (db w)); [reflexivity | discriminate He].
    + destruct (get_creates w Hrows)
        as (x & em & t & ut & et & fe & sp & n & cc & w3 & Hget & Hx).
      { rewrite He. discriminate. }
      cbv zeta in Hget. rewrite Hget in Hnow |- *. cbn [snd with_db now] in Hnow.
      set (r0 := selection_row (next_rotd_id (db w)) (date_of (now w)) x em t ut et fe
                   sp n cc) in *.
      assert (Hrows1 : rows_on (date_of (now w)) (inserted r0 (db w)) = [r0])
        by (apply rows_on_inserted; [exact Hrows | reflexivity]).
      assert (Hfind : rotd_listing (inserted r0 (db w)) r0 = Some x).
      { unfold rotd_listing. cbn [listings inserted listing_id r0 selection_row].
        apply find_by_id; assumption. }
      eexists _, _. split; [reflexivity|]. cbn [with_db db now].
      split.
      { split; [|split].
        - pose proof (dashboard_dates false w Hud) as Hd. rewrite Hget in Hd. exact Hd.
        - exact Hui.
        - intros o Ho. cbn [inserted record_of_the_days listings] in *.
          apply in_app_iff in Ho as [Ho|[<-|[]]]; [apply Hfk, Ho|].
          exists x. split; [exact Hx | reflexivity]. }
      split; [left; cbn [with_db db now]; rewrite Hnow, Hrows1; discriminate|].
      split; [exact Hnow|].
      split.
      { rewrite (get_persisted _ r0 x); [reflexivity | | exact Hfind].
        cbn [with_db db now]. rewrite Hnow. exact Hrows1. }
      split; [|discriminate].
      intros o [= <-]. split; [exact Hrows1|]. split; [reflexivity|].
      split; [symmetry; exact Hfind|].
      exists x. split; [reflexivity|]. split; [exact Hx | reflexivity].
  - assert (Ho : In o (record_of_the_days (db w))).
    { assert (Hin : In o (rows_on (date_of (now w)) (db w)))
        by (rewrite Hrows; left; reflexivity).
      apply filter_In in Hin. apply Hin. }
    destruct (rotd_listing_fk _ _ Hfk Ho) as [l Hl].
    rewrite (get_persisted w o l Hrows Hl).
    eexists _, _. split; [reflexivity|]. split; [exact Hc|].
    split; [left; rewrite Hrows; discriminate|]. split; [reflexivity|].
    split; [rewrite (get_persisted w o l Hrows Hl); reflexivity|].
    split; [|discriminate].
    intros o' [= <-]. split; [exact Hrows|]. split; [reflexivity|].
    split; [symmetry; exact Hl|].
    exists l. split; [reflexivity|].
    unfold rotd_listing in Hl. apply find_some in Hl as [Hin Hid].
    split; [exact Hin | apply Z.eqb_eq, Hid].
Qed.

(** A read of a world whose selections are those a first read left. *)
Lemma later_read w1 w2 r :
  db_consistent (db w1) -> settled w1 -> unchanged_selections w1 w2 ->
  fst (DashboardAPIView_get false w1) = Ok r ->
  exists r' w3,
    DashboardAPIView_get false w2 = (Ok r', w3) /\
    r_record_of_the_day r' = r_record_of_the_day r /\
    r_breakdown r' = r_breakdown r /\
    match r_record_of_the_day_obj r, r_record_of_the_day_obj r' with
    | Some o, Some o' => same_selection o o'
    | None, None => True
    | _, _ => False
    end /\
    db w3 = db w2 /\ rng_pos w3 = rng_pos w2 /\
    (r_record_of_the_day_obj r <> None -> w3 = w2) /\
    (record_of_the_days (db w2) = record_of_the_days (db w1) -> r' = r).
Proof.
  intros Hc Hs Hu Hr.
  pose proof (unchanged_consistent _ _ Hu Hc) as Hc2.
  pose proof (unchanged_settled _ _ Hu Hs) as Hs2.
  pose proof (unchanged_pool _ _ Hu) as [_ Hh].
  destruct Hu as (Hd & Hl & Hrows).
  pose proof (rows_on_unchanged (date_of (now w1)) _ _ Hrows) as Hf.
  fold (rows_on (date_of (now w1)) (db w1)) in Hf.
  fold (rows_on (date_of (now w1)) (db w2)) in Hf. rewrite <- Hd in Hf at 2.
  destruct (read_settled w1 Hc Hs) as [(o & l & Ho & Hol & Hget)|(Ho & Hget)];
    rewrite Hget in Hr; injection Hr as <-;
    destruct (read_settled w2 Hc2 Hs2) as [(o' & l' & Ho' & Hol' & Hget')|(Ho' & Hget')];
    rewrite Ho, Ho' in Hf; inversion Hf; subst.
  - match goal with H : same_selection o o' |- _ => rename H into Hsel end.
    assert (l' = l) as ->.
    { destruct Hsel as (_ & _ & Hlid & _). unfold rotd_listing in Hol, Hol'.
      rewrite Hl, Hlid in Hol'. congruence. }
    eexists _, _. split; [exact Hget'|]. cbn [r_record_of_the_day r_breakdown
      r_record_of_the_day_obj].
    split; [reflexivity|]. split; [apply Hsel|]. split; [exact Hsel|].
    split; [reflexivity|]. split; [reflexivity|]. split; [reflexivity|].
    intros Hsame. unfold rows_on in Ho, Ho'. rewrite Hsame, Hd, Ho in Ho'.
    injection Ho' as <-. reflexivity.
  - eexists _, _. split; [exact Hget'|]. cbn [r_record_of_the_day r_breakdown
      r_record_of_the_day_obj].
    split; [exact Hh|]. split; [reflexivity|]. split; [exact I|].
    split; [reflexivity|]. split; [reflexivity|].
    split; [intros H; contradiction|]. intros _. rewrite Hh. reflexivity.
Qed.

(** C5. Every view keeps at most one persisted selection per calendar date
    (the dashboard with or without [force_refresh], the refresh view and
    the vote view).  When the tables respect their schema, the first
    dashboard read of a date shows the selection that is persisted for it:
    the row it returns is the only row of the date, the listing is the one
    the row refers to and the breakdown is the row's; it returns no row only
    when no listing is above the threshold, and then shows the best
    positively scored listing and writes nothing.  Whatever happens between
    two reads of the date short of a refresh (votes, other reads, the clock
    moving within the date, anything that leaves the tables alone), the
    later read returns the same listing and the same breakdown, and a row
    with the same key, date, listing and thermodynamic fields; it writes
    nothing and draws nothing from the generator; when a row is persisted it
    leaves the world as it was (no selector is built, nothing is computed);
    and when the rows are those the first read left, the whole response is
    the same. *)
Theorem one_selection_per_date_and_stable_reads w :
  db_consistent (db w) ->
  (forall force, unique_dates (db (snd (DashboardAPIView_get force w)))) /\
  unique_dates (db (snd (refresh_record_of_the_day_view w))) /\
  (forall i d n, unique_dates (db (snd (vote_record_of_the_day_view i d n w)))) /\
  exists r w1,
    DashboardAPIView_get false w = (Ok r, w1) /\
    now w1 = now w /\
    (forall o, r_record_of_the_day_obj r = Some o ->
       rows_on (date_of (now w)) (db w1) = [o] /\
       r_breakdown r = persisted_breakdown o /\
       exists l, r_record_of_the_day r = Some l /\ In l (listings (db w)) /\
                 id l = listing_id o) /\
    (r_record_of_the_day_obj r = None ->
       rows_on (date_of (now w)) (db w1) = [] /\ eligible_pool (db w) = [] /\
       db w1 = db w /\ r_record_of_the_day r = highest_scored (db w)) /\
    forall w2, between_reads w1 w2 ->
      exists r' w3,
        DashboardAPIView_get false w2 = (Ok r', w3) /\
        r_record_of_the_day r' = r_record_of_the_day r /\
        r_breakdown r' = r_breakdown r /\
        match r_record_of_the_day_obj r, r_record_of_the_day_obj r' with
        | Some o, Some o' => same_selection o o'
        | None, None => True
        | _, _ => False
        end /\
        db w3 = db w2 /\ rng_pos w3 = rng_pos w2 /\
        (r_record_of_the_day_obj r <> None -> w3 = w2) /\
        (record_of_the_days (db w2) = record_of_the_days (db w1) -> r' = r).
Proof.
  intros Hc. pose proof Hc as (Hud & _ & _).
  split; [intros force; apply (dashboard_dates force w Hud)|].
  split; [apply (refresh_dates w Hud)|].
  split; [intros i d n; apply (vote_dates i d n w Hud)|].
  destruct (first_read w Hc) as (r & w1 & Hget & Hc1 & Hs1 & Hnow & Hre & Hsome & Hnone).
  exists r, w1. split; [exact Hget|]. split; [exact Hnow|].
  split.
  { intros o Ho. destruct (Hsome o Ho) as (H1 & H2 & _ & H4). auto. }
  split.
  { intros Ho. destruct (Hnone Ho) as (H1 & H2 & H3 & H4 & _). auto. }
  intros w2 Hb.
  apply (later_read w1 w2 r Hc1 Hs1); [|exact Hre].
  apply between_reads_unchanged; assumption.
Qed.

(** The dashboard under [force_refresh] deletes today's row, runs the
    pipeline and persists nothing: the date is left without a row. *)
Lemma force_refresh_persists_nothing w :
  exists l b w',
    DashboardAPIView_get true w =
      (Ok {| r_record_of_the_day := l; r_record_of_the_day_obj := None;
             r_breakdown := b |}, w') /\
    select_record_of_the_day 50
      (fresh_selector (with_db (deleted (date_of (now w)) (db w)) w)) = (Ok (l, b), w') /\
    db w' = deleted (date_of (now w)) (db w) /\
    rows_on (date_of (now w)) (db w') = [].
Proof.
  pose proof (select_total 50
                (fresh_selector (with_db (deleted (date_of (now w)) (db w)) w))) as Ht.
  pose proof (select_db 50
                (fresh_selector (with_db (deleted (date_of (now w)) (db w)) w))) as Hdb.
  unfold ensures in Ht. unfold same_db in Hdb.
  destruct (select_record_of_the_day 50 _) as [[[l b]|e] w'] eqn:Hs; [|contradiction].
  simpl in Hdb. exists l, b, w'.
  split; [|split; [reflexivity|split; [exact Hdb|]]].
  - unfold DashboardAPIView_get.
    rewrite run_bind. cbn [timezone_now]. rewrite run_bind.
    unfold try_except_class. rewrite run_bind. cbn [negb]. rewrite run_bind.
    change (rotd_delete (date_of (now w)) w)
      with (Ok tt, with_db (deleted (date_of (now w)) (db w)) w).
    cbv beta iota. cbn [mret M_ret ret]. cbv beta iota.
    rewrite run_bind.
    change (put_self new_selector (with_db (deleted (date_of (now w)) (db w)) w))
      with (Ok tt, fresh_selector (with_db (deleted (date_of (now w)) (db w)) w)).
    cbv beta iota. rewrite run_bind, Hs. reflexivity.
  - rewrite Hdb. unfold rows_on, deleted. cbn [record_of_the_days].
    induction (record_of_the_days (db w)) as [|r rs IH]; [reflexivity|].
    simpl. destruct (Z.eqb_spec (date r) (date_of (now w))) as [He|Hn]; simpl; [exact IH|].
    destruct (Z.eqb_spec (date r) (date_of (now w))); [contradiction | exact IH].
Qed.

End Daily_selection.

(** ** The values the entropy measure takes *)

Section Entropy_cases.
Context `{Ext : Externals}.

Lemma lift_ok_inv {A} (r : Res A) w a w' : lift r w = (Ok a, w') -> r = Ok a /\ w' = w.
Proof. unfold lift. intros H. injection H as -> ->. auto. Qed.

(** The entropy measure of a candidate is the uniform default, the constant
    [0.5], or a value clipped to [[0.1, 0.9]] and then multiplied by
    [1 + 0.3 * avg_novelty] of the similar past selections. *)
Lemma entropy_measure_cases listing recent w :
  exists v w',
    _calculate_entropy_measure listing recent w = (Ok v, w') /\
    (v = (0.3 + (0.7 - 0.3) * next_sample w)%Q \/ v = 0.5%Q \/
     exists e,
       v = (np_clip e 0.1 0.9
            * (1 + 0.3 * avg_novelty (similar_records (genres (record listing)) (db w))))%Q).
Proof.
  unfold _calculate_entropy_measure, try_except.
  match goal with
  | |- context [match ?b w with _ => _ end] => destruct (b w) as [[v|e] w1] eqn:E
  end.
  2: { eexists _, _. split; [reflexivity|]. right; left; reflexivity. }
  exists v, w1. split; [reflexivity|].
  apply bind_ok_inv in E. destruct E as (s & w2 & Hs & E).
  injection Hs as <- <-.
  destruct (cluster_centroids (self w)) as [c|].
  2: { injection E as <- _. left. reflexivity. }
  apply bind_ok_inv in E. destruct E as ([fv ids] & w3 & Hb & E).
  pose proof (build_db [listing] false w) as Hdb3. unfold same_db in Hdb3.
  rewrite Hb in Hdb3. simpl in Hdb3.
  destruct (shape0 fv =? 0)%nat.
  { injection E as <- _. right; left; reflexivity. }
  apply bind_ok_inv in E. destruct E as (red & w4 & Hr & E).
  assert (Hdb4 : db w4 = db w3).
  { match type of Hr with
    | ?m w3 = _ =>
        assert (Hk : keeps same_db m)
          by (unfold self_pca_transform; frame_with same_db_refl same_db_trans)
    end.
    specialize (Hk w3). rewrite Hr in Hk. exact Hk. }
  destruct red as [fv'|].
  2: { injection E as <- _. right; left; reflexivity. }
  apply bind_ok_inv in E. destruct E as (d1 & w5 & H1 & E).
  apply lift_ok_inv in H1. destruct H1 as [_ ->].
  apply bind_ok_inv in E. destruct E as (mind & w5 & H1 & E).
  apply lift_ok_inv in H1. destruct H1 as [_ ->].
  apply bind_ok_inv in E. destruct E as (d2 & w5 & H1 & E).
  apply lift_ok_inv in H1. destruct H1 as [_ ->].
  apply bind_ok_inv in E. destruct E as (maxd & w5 & H1 & E).
  apply lift_ok_inv in H1. destruct H1 as [_ ->].
  apply bind_ok_inv in E. destruct E as (sim & w5 & H1 & E).
  injection H1 as <- <-. injection E as <- _.
  right; right. rewrite Hdb4, Hdb3. eexists. reflexivity.
Qed.

(** Without feedback on similar selections the measure is inside
    [[0.1, 0.9]]. *)
Lemma entropy_measure_without_feedback listing recent w :
  (avg_novelty (similar_records (genres (record listing)) (db w)) == 0)%Q ->
  exists v w',
    _calculate_entropy_measure listing recent w = (Ok v, w') /\
    (0.1 <= v)%Q /\ (v <= 0.9)%Q.
Proof.
  intros Ha.
  destruct (entropy_measure_cases listing recent w) as (v & w' & Hr & Hv).
  exists v, w'. split; [exact Hr|].
  destruct Hv as [->|[->|[e ->]]].
  - destruct (frac_range (rng w (rng_pos w))) as [H0 H1].
    fold (next_sample w) in H0, H1. split; lra.
  - split; discriminate.
  - rewrite Ha. destruct (np_clip_bounds e 0.1 0.9) as [H0 H1]; [discriminate|].
    split; lra.
Qed.

(** The lookup selects no row, whatever the genres. *)
Lemma genres_overlap_never a b : genres_overlap a b = false.
Proof. reflexivity. Qed.

Lemma similar_records_nil g d : similar_records g d = [].
Proof.
  unfold similar_records, rotd_genres_overlap.
  induction (rotd_all d) as [|r rs IH]; [reflexivity|].
  simpl. destruct (rotd_listing d r); exact IH.
Qed.

(** The entropy measure of a candidate is always inside [[0.1, 0.9]]. *)
Lemma entropy_measure_in_range listing recent w :
  ensures (_calculate_entropy_measure listing recent) w
    (fun v _ => (0.1 <= v)%Q /\ (v <= 0.9)%Q).
Proof.
  destruct (entropy_measure_without_feedback listing recent w) as (v & w' & Hr & Hv).
  { rewrite similar_records_nil. reflexivity. }
  unfold ensures. rewrite Hr. exact Hv.
Qed.

End Entropy_cases.

(** * The claims on concrete inputs *)

Section Concrete.
Import Ref.

(** C2, counterexample: with [max_candidates = -1] and an empty eligible
    pool the result is the fallback listing with an error breakdown, not
    [(None, {})]. *)
Lemma select_negative_bound_empty_pool :
  eligible_pool (db w_low) = [] /\
  fst (select_record_of_the_day (-1) w_low) =
    Ok (Some l_low, fallback_breakdown (ValueError "Negative indexing is not supported.")) /\
  fst (select_record_of_the_day (-1) w_low) <> Ok (None, ∅).
Proof.
  split; [reflexivity|].
  assert (Heq : fst (select_record_of_the_day (-1) w_low) =
                Ok (Some l_low,
                    fallback_breakdown (ValueError "Negative indexing is not supported.")))
    by (vm_compute; reflexivity).
  split; [exact Heq|]. rewrite Heq. intros H. injection H as H _. discriminate H.
Qed.

Lemma select_record_of_the_day_never_raises_witness :
  (exists l b w',
     select_record_of_the_day 50 w_low = (Ok (l, b), w') /\ l = None /\ b = ∅) /\
  (exists l b w',
     select_record_of_the_day (-1) w_low = (Ok (l, b), w') /\
     l = highest_scored (db w_low) /\
     b !! "selection_method" = Some (VStr "fallback")).
Proof.
  split.
  - destruct (select_record_of_the_day_never_raises 50 w_low)
      as (l & b & w' & H & He & _).
    exists l, b, w'. split; [exact H|]. apply He; [discriminate | reflexivity].
  - destruct (select_record_of_the_day_never_raises (-1) w_low)
      as (l & b & w' & H & _ & Hr & _).
    exists l, b, w'. split; [exact H|].
    destruct (Hr _ _ (select_negative (-1) w_low eq_refl)) as (Hl & _ & _ & Hm & _).
    split; assumption.
Defined.

Lemma free_energy_is_utility_minus_entropy_term_witness :
  (0 < score l_top)%Q /\ utility_of l_top = (- score l_top)%Q /\
  ~ (0 < score l_zero)%Q /\ utility_of l_zero = (- 1.0)%Q.
Proof.
  pose proof (free_energy_is_utility_minus_entropy_term l_top 0.5 0.5 w_low) as H1.
  pose proof (free_energy_is_utility_minus_entropy_term l_zero 0.5 0.5 w_low) as H2.
  rewrite free_energy_run in H1, H2.
  destruct H1 as (_ & _ & Hpos & _). destruct H2 as (_ & _ & _ & Hneg & _).
  split; [reflexivity|]. split; [apply Hpos; reflexivity|].
  split; [discriminate|]. apply Hneg. discriminate.
Defined.



Lemma w_fresh_consistent : db_consistent (db Samples.w_fresh).
Proof.
  split; [apply NoDup_nil_2|]. split; [apply NoDup_singleton|].
  intros r Hr. destruct Hr.
Qed.

Lemma one_selection_per_date_and_stable_reads_witness :
  db_consistent (db Samples.w_fresh) /\
  exists r w1 o,
    DashboardAPIView_get false Samples.w_fresh = (Ok r, w1) /\
    r_record_of_the_day_obj r = Some o /\
    rows_on today (db w1) = [o] /\ listing_id o = 9%Z /\
    id <$> r_record_of_the_day r = Some 9%Z /\
    let w2 := snd (vote_record_of_the_day_view (rotd_id o) 4 3
                     (set_now (noon + 3600) w1)) in
    exists r' o',
      DashboardAPIView_get false w2 = (Ok r', w2) /\
      r_record_of_the_day r' = r_record_of_the_day r /\
      r_breakdown r' = r_breakdown r /\
      r_record_of_the_day_obj r' = Some o' /\ same_selection o o'.
Proof.
  split; [exact w_fresh_consistent|].
  destruct (one_selection_per_date_and_stable_reads Samples.w_fresh w_fresh_consistent)
    as (_ & _ & _ & r & w1 & Hget & Hnow & Hsome & Hnone & Hlater).
  destruct (r_record_of_the_day_obj r) as [o|] eqn:Ho.
  2: { destruct (Hnone eq_refl) as (_ & Hp & _). vm_compute in Hp. discriminate Hp. }
  destruct (Hsome o eq_refl) as (Hrows & Hb & l & Hl & Hin & Hid).
  assert (Hl9 : l = l_top) by (destruct Hin as [<-|[]]; reflexivity).
  exists r, w1, o. split; [exact Hget|]. split; [exact Ho|].
  split; [exact Hrows|]. split; [rewrite <- Hid, Hl9; reflexivity|].
  split; [rewrite Hl, Hl9; reflexivity|].
  cbv zeta.
  destruct (Hlater (snd (vote_record_of_the_day_view (rotd_id o) 4 3
                           (set_now (noon + 3600) w1))))
    as (r' & w3 & Hget' & Hr' & Hb' & Hobj & _ & _ & Hw3 & _).
  { apply then_vote, then_time; [apply no_request|].
    rewrite Hnow. reflexivity. }
  destruct (r_record_of_the_day_obj r') as [o'|] eqn:Ho'; [|contradiction].
  rewrite (Hw3 ltac:(discriminate)) in Hget'.
  exists r', o'. repeat split; try assumption; apply Hobj.
Defined.

(** C6. (defect in the code) On [w_selected] today's selection is persisted.
    The dashboard under [force_refresh] deletes it, runs the pipeline and
    answers with listing 9 and its thermodynamic breakdown, but no row is
    left for the date; the refresh view, from the same world, leaves the
    row it created. *)
Theorem force_refresh_leaves_date_without_selection :
  rows_on today (db w_selected) = [row 1 today 9] /\
  match DashboardAPIView_get true w_selected with
  | (Ok r, w') =>
      id <$> r_record_of_the_day r = Some 9%Z /\
      r_record_of_the_day_obj r = None /\
      r_breakdown r !! "selection_method" = Some (VStr "thermodynamic_boltzmann") /\
      rows_on today (db w') = [] /\ record_of_the_days (db w') = []
  | (Raise _, _) => False
  end /\
  match refresh_record_of_the_day_view w_selected with
  | (Ok Refreshed, w') =>
      map (fun o => (date o, listing_id o)) (rows_on today (db w')) = [(today, 9%Z)]
  | _ => False
  end.
Proof. vm_compute. repeat split; reflexivity. Qed.

(** C7, counterexample: on empty input the sampler raises, from its own
    fallback branch. *)
Lemma boltzmann_sampling_empty_input_raises :
  fst (_boltzmann_sampling [] [] 0.5 w_low) =
  Raise (ValueError "'a' cannot be empty unless no samples are taken").
Proof. reflexivity. Qed.

Lemma boltzmann_sampling_never_raises_on_identifiers_witness :
  [7; 8]%Z <> [] /\
  (exists id p w',
     _boltzmann_sampling [-1; 0]%Q [7; 8]%Z 0.5 w_low = (Ok (id, p), w') /\
     In id [7; 8]%Z) /\
  valid_probabilities 2 (normalize (boltzmann_weights [-1; 0]%Q 0)) = None.
Proof.
  assert (Hne : [7; 8]%Z <> []) by discriminate.
  split; [exact Hne|]. split.
  - apply (boltzmann_sampling_never_raises_on_identifiers [-1; 0]%Q [7; 8]%Z 0.5 w_low Hne).
  - apply (boltzmann_sampling_never_raises_on_identifiers [-1; 0]%Q [7; 8]%Z 0 w_low Hne).
    reflexivity.
Defined.

Lemma refit_below_five_listings_witness :
  (length window4 < 5)%nat /\ cluster_centroids (self w_low) = None /\
  fst (_update_cluster_model window4 w_low) = Ok false /\
  fst (_calculate_entropy_measure l_low window4 w_low) =
    Ok (0.3 + (0.7 - 0.3) * next_sample w_low)%Q.
Proof.
  assert (Hlen : (length window4 < 5)%nat) by (vm_compute; lia).
  destruct (refit_below_five_listings window4 l_low w_low Hlen) as (H1 & _ & _ & H2).
  destruct (H2 eq_refl) as (H3 & _).
  split; [exact Hlen|]. split; [reflexivity|].
  split; [rewrite H1 | rewrite H3]; reflexivity.
Defined.

(** C9, counterexample: with a window of four listings both calls return
    [False]. *)
Lemma refit_twice_with_four_listings :
  fst (_update_cluster_model window4 w_low) = Ok false /\
  fst (_update_cluster_model window4 (snd (_update_cluster_model window4 w_low)))
    = Ok false.
Proof. split; reflexivity. Qed.

Lemma refit_twice_uses_cache_witness :
  (5 <= length window5)%nat /\
  fst (_update_cluster_model window5 (snd (_update_cluster_model window5 w_low)))
    = Ok true.
Proof.
  assert (Hlen : (5 <= length window5)%nat) by (vm_compute; lia).
  split; [exact Hlen|].
  destruct (refit_twice_uses_cache window5 w_low Hlen) as (H & _).
  rewrite H. reflexivity.
Defined.

End Concrete.

(** * Further properties of the code *)

(** ** The feature builder and the novelty model *)

Section Selector_properties.
Context `{Ext : Externals}.

Lemma same_clustering_refl w : same_clustering w w.
Proof. repeat split. Qed.

Lemma same_clustering_trans w1 w2 w3 :
  same_clustering w1 w2 -> same_clustering w2 w3 -> same_clustering w1 w3.
Proof. unfold same_clustering. intuition congruence. Qed.

Lemma build_clustering ls fit : keeps same_clustering (_build_feature_vectors ls fit).
Proof.
  unfold _build_feature_vectors, self_vectorizer_fit_transform,
    self_vectorizer_transform, self_scaler_fit_transform, self_scaler_transform.
  destruct ls;
    frame_by same_clustering_refl same_clustering_trans ltac:(cbv [same_clustering]).
Qed.

Hint Resolve build_clustering : frames.

(** X1. Measuring the entropy of a candidate never changes the fitted
    clustering (centroids, feature cache, cached window), the tables or the
    clock, whatever the estimators do. *)
Theorem entropy_measure_keeps_clustering (listing : Listing)
    (recent_listings : list Listing) w :
  same_clustering w (snd (_calculate_entropy_measure listing recent_listings w)).
Proof.
  revert w. change (keeps same_clustering
                      (_calculate_entropy_measure listing recent_listings)).
  unfold _calculate_entropy_measure, self_pca_transform.
  frame_by same_clustering_refl same_clustering_trans ltac:(cbv [same_clustering]).
Qed.

End Selector_properties.

(** ** What the feature builder returns *)

Section Feature_builder.
Context `{Ext : Externals}.

Lemma fitted_stays_refl w : fitted_stays w w.
Proof. intros H. exact H. Qed.

Lemma fitted_stays_trans w1 w2 w3 :
  fitted_stays w1 w2 -> fitted_stays w2 w3 -> fitted_stays w1 w3.
Proof. unfold fitted_stays. auto. Qed.

Lemma vectorizer_fit_fitted text : keeps fitted_stays (self_vectorizer_fit_transform text).
Proof.
  unfold self_vectorizer_fit_transform.
  frame_by fitted_stays_refl fitted_stays_trans ltac:(cbv [fitted_stays]).
Qed.

Lemma scaler_fit_fitted x : keeps fitted_stays (self_scaler_fit_transform x).
Proof.
  unfold self_scaler_fit_transform.
  frame_by fitted_stays_refl fitted_stays_trans ltac:(cbv [fitted_stays]).
Qed.

Lemma scaling_fitted (fit : bool) x :
  keeps fitted_stays
    (if fit then self_scaler_fit_transform x
     else try_except (self_scaler_transform x) (fun _ => self_scaler_fit_transform x)).
Proof.
  pose proof (scaler_fit_fitted x). unfold self_scaler_transform.
  destruct fit; frame_by fitted_stays_refl fitted_stays_trans ltac:(cbv [fitted_stays]).
Qed.

Lemma build_fitted ls fit : keeps fitted_stays (_build_feature_vectors ls fit).
Proof.
  unfold _build_feature_vectors, self_vectorizer_fit_transform,
    self_vectorizer_transform, self_scaler_fit_transform, self_scaler_transform.
  destruct ls;
    frame_by fitted_stays_refl fitted_stays_trans ltac:(cbv [fitted_stays]).
Qed.

Lemma build_ids ls fit w m ids w' :
  _build_feature_vectors ls fit w = (Ok (m, ids), w') -> ids = map id ls.
Proof.
  destruct ls as [|l ls]; [intros [= <- <- <-]; reflexivity|].
  unfold _build_feature_vectors, _extract_listing_features.
  intros H.
  apply bind_ok_inv in H as (s & w1 & _ & H).
  apply bind_ok_inv in H as (tf & w2 & _ & H).
  apply bind_ok_inv in H as (cf & w3 & _ & H).
  apply bind_ok_inv in H as (cf' & w4 & _ & H).
  injection H as _ <- _. rewrite map_map. reflexivity.
Qed.

Lemma build_sets_fitted ls fit w m ids w' :
  ls <> [] ->
  _build_feature_vectors ls fit w = (Ok (m, ids), w') -> is_fitted (self w') = true.
Proof.
  destruct ls as [|l ls]; [contradiction|]. intros _.
  unfold _build_feature_vectors, _extract_listing_features.
  intros H.
  apply bind_ok_inv in H as (s & w1 & Hs & H). injection Hs as <- <-.
  apply bind_ok_inv in H as (tf & w2 & Htf & H).
  apply bind_ok_inv in H as (cf & w3 & Hcf & H).
  assert (w3 = w2) as -> by (unfold lift in Hcf; congruence).
  apply bind_ok_inv in H as (cf' & w4 & Hsc & H).
  injection H as _ _ <-.
  pose proof (scaling_fitted fit cf w2) as Hk. rewrite Hsc in Hk. apply Hk. clear Hk Hsc.
  destruct (negb (is_fitted (self w)) || fit) eqn:Ec.
  - apply bind_ok_inv in Htf as (tm & w5 & _ & Htf).
    apply bind_ok_inv in Htf as ([] & w6 & Hmod & Htf).
    injection Htf as _ <-. injection Hmod as <-. reflexivity.
  - apply orb_false_iff in Ec as [Ec _]. apply negb_false_iff in Ec.
    pose proof (vectorizer_fit_fitted (map (fun l0 => text_content (record l0)) (l :: ls)))
      as Hv.
    assert (Hk : keeps fitted_stays
              (try_except
                 (self_vectorizer_transform
                    (map (fun l0 => text_content (record l0)) (l :: ls)))
                 (fun _ => self_vectorizer_fit_transform
                    (map (fun l0 => text_content (record l0)) (l :: ls))))).
    { unfold self_vectorizer_transform.
      frame_by fitted_stays_refl fitted_stays_trans ltac:(cbv [fitted_stays]). }
    specialize (Hk w). rewrite Htf in Hk. apply Hk, Ec.
Qed.

(** X2. [_build_feature_vectors]: an empty list gives two empty results and
    changes nothing; when it returns, the identifiers are those of the
    listings, in their order, and the selector is marked as fitted; whatever
    the outcome, a fitted selector stays fitted and the tables, the generator
    and the clock are untouched. *)
Theorem build_feature_vectors_result (ls : list Listing) (fit_transformers : bool) w :
  (ls = [] -> _build_feature_vectors ls fit_transformers w = (Ok ([], []), w)) /\
  (forall m ids w',
     _build_feature_vectors ls fit_transformers w = (Ok (m, ids), w') ->
     ids = map id ls /\ length ids = length ls /\
     (ls <> [] -> is_fitted (self w') = true)) /\
  (is_fitted (self w) = true ->
   is_fitted (self (snd (_build_feature_vectors ls fit_transformers w))) = true) /\
  same_env w (snd (_build_feature_vectors ls fit_transformers w)).
Proof.
  split; [intros ->; reflexivity|].
  split; [|split; [apply build_fitted | apply build_env]].
  intros m ids w' H.
  pose proof (build_ids _ _ _ _ _ _ H) as ->.
  split; [reflexivity|]. split; [apply length_map|].
  intros Hne. eapply build_sets_fitted; eassumption.
Qed.

End Feature_builder.

(** ** What a refit changes *)

Section Refit.
Context `{Ext : Externals}.

Lemma same_fit_refl w : same_fit w w.
Proof. split; reflexivity. Qed.

Lemma same_fit_trans w1 w2 w3 : same_fit w1 w2 -> same_fit w2 w3 -> same_fit w1 w3.
Proof. unfold same_fit. intuition congruence. Qed.

Lemma build_fit ls fit : keeps same_fit (_build_feature_vectors ls fit).
Proof.
  unfold _build_feature_vectors, self_vectorizer_fit_transform,
    self_vectorizer_transform, self_scaler_fit_transform, self_scaler_transform.
  destruct ls; frame_by same_fit_refl same_fit_trans ltac:(cbv [same_fit]).
Qed.

Lemma pca_fit_fit x : keeps same_fit (self_pca_fit_transform x).
Proof.
  unfold self_pca_fit_transform.
  frame_by same_fit_refl same_fit_trans ltac:(cbv [same_fit]).
Qed.

(** A refit either completes, and then installs the centroids of the model
    it has just fitted, or leaves the fitted model as it was. *)
Lemma refit_outcome recent w :
  match refit_cluster_model recent w with
  | (Ok true, w') =>
      cluster_centroids (self w') = Some (cluster_centers_ (cluster_model (self w'))) /\
      is_Some (feature_cache (self w'))
  | (_, w') => same_fit w w'
  end.
Proof.
  unfold refit_cluster_model. rewrite run_bind.
  pose proof (build_fit recent true w) as Hb.
  destruct (_build_feature_vectors recent true w) as [[[fv ids]|e] w1];
    simpl in Hb; [|exact Hb].
  destruct (shape0 fv =? 0)%nat; [exact Hb|].
  assert (Htail : forall fv2 w2, same_fit w w2 ->
            match (self_cluster_model_fit fv2;;
                   modify_self (fun s =>
                     with_cluster_centroids s (Some (cluster_centers_ (cluster_model s))));;
                   modify_self (fun s => with_feature_cache s (Some fv2));;
                   logger INFO "Updated cluster model with recent listings";;
                   mret true) w2 with
            | (Ok true, w') =>
                cluster_centroids (self w')
                  = Some (cluster_centers_ (cluster_model (self w'))) /\
                is_Some (feature_cache (self w'))
            | (_, w') => same_fit w w'
            end).
  { intros fv2 w2 H2. rewrite run_bind. unfold self_cluster_model_fit, call_self at 1.
    destruct (kmeans_fit (cluster_model (self w2)) fv2) as [km [[]|e]] eqn:Ek; simpl.
    - split; [reflexivity | eexists; reflexivity].
    - exact H2. }
  rewrite run_bind.
  destruct (10 <? shape1 fv)%nat.
  - pose proof (pca_fit_fit fv w1) as Hp.
    destruct (self_pca_fit_transform fv w1) as [[fv2|e] w2]; simpl in Hp.
    + apply Htail. eapply same_fit_trans; eassumption.
    + eapply same_fit_trans; eassumption.
  - apply Htail, Hb.
Qed.

(** X3. [_update_cluster_model] never raises and never writes to the
    tables.  When it answers [False] the centroids and the feature cache are
    those it found; when it answers [True] without a cache hit, the centroids
    are those of the cluster model it has just fitted and the feature cache is
    filled; it answers [True] only for at least five listings, and the window
    it was given is then the cached one. *)
Theorem update_cluster_model_outcome (recent_listings : list Listing) w :
  exists b w',
    _update_cluster_model recent_listings w = (Ok b, w') /\
    same_env w w' /\
    (b = false -> same_fit w w') /\
    (b = true -> (5 <= length recent_listings)%nat) /\
    (b = true -> cache_hit (recent_listings_cache (self w)) recent_listings = false ->
     cluster_centroids (self w') = Some (cluster_centers_ (cluster_model (self w'))) /\
     is_Some (feature_cache (self w')) /\
     recent_listings_cache (self w') = Some recent_listings) /\
    (b = true -> cache_hit (recent_listings_cache (self w)) recent_listings = true ->
     self w' = self w).
Proof.
  pose proof (update_env recent_listings w) as Henv.
  unfold _update_cluster_model, try_except in *.
  destruct (length recent_listings <? 5)%nat eqn:El.
  - eexists _, _. split; [reflexivity|]. split; [exact Henv|].
    split; [intros _; split; reflexivity|].
    repeat split; discriminate.
  - apply Nat.ltb_ge in El. rewrite run_bind in *. cbn [get_self] in *.
    destruct (cache_hit (recent_listings_cache (self w)) recent_listings) eqn:Eh.
    + eexists _, _. split; [reflexivity|]. split; [exact Henv|].
      split; [discriminate|]. split; [intros _; exact El|].
      split; [discriminate|]. intros _ _. reflexivity.
    + rewrite run_bind in *.
      change (modify_self (fun s => with_recent_listings_cache s (Some recent_listings)) w)
        with (Ok tt,
              {| db := db w;
                 self := with_recent_listings_cache (self w) (Some recent_listings);
                 rng := rng w; rng_pos := rng_pos w; log := log w; now := now w |})
        in *.
      cbv beta iota in *.
      set (w0 := {| db := db w;
                    self := with_recent_listings_cache (self w) (Some recent_listings);
                    rng := rng w; rng_pos := rng_pos w; log := log w; now := now w |})
        in *.
      pose proof (refit_outcome recent_listings w0) as Ho.
      pose proof (refit_cache recent_listings w0) as Hc.
      destruct (refit_cluster_model recent_listings w0) as [[[|]|e] w1];
        simpl in Hc; (eexists _, _; split; [reflexivity|]; split; [exact Henv|]).
      * split; [discriminate|]. split; [intros _; exact El|].
        split; [|discriminate]. intros _ _. destruct Ho as [Ho1 Ho2].
        split; [exact Ho1|]. split; [exact Ho2|]. exact Hc.
      * split; [intros _; exact Ho|]. repeat split; discriminate.
      * split; [intros _; exact Ho|]. repeat split; discriminate.
Qed.

End Refit.

(** ** The range of the entropy measure *)

Section Entropy_range.
Context `{Ext : Externals}.

Lemma foldl_Qplus_bounds (N : Q) l acc n :
  (forall x, In x l -> 0 <= x <= N)%Q ->
  (0 <= acc <= of_nat n * N)%Q ->
  (0 <= foldl Qplus acc l <= of_nat (n + length l) * N)%Q.
Proof.
  revert acc n. induction l as [|x l IH]; intros acc n Hl Hacc; simpl.
  - rewrite Nat.add_0_r. exact Hacc.
  - replace (n + S (length l))%nat with (S n + length l)%nat by lia.
    apply IH; [intros y Hy; apply Hl; right; exact Hy|].
    specialize (Hl x (or_introl eq_refl)).
    unfold of_nat in *. rewrite Nat2Z.inj_succ, <- Z.add_1_r, inject_Z_plus.
    change (inject_Z 1) with 1%Q.
    set (k := inject_Z (Z.of_nat n)) in *. destruct Hl, Hacc. clearbody k. clear IH.
    split; [lra|]. assert (E : ((k + 1) * N == k * N + N)%Q) by ring. rewrite E. lra.
Qed.

Lemma Qsum_bounds (N : Q) l :
  (forall x, In x l -> 0 <= x <= N)%Q ->
  (0 <= Qsum l <= of_nat (length l) * N)%Q.
Proof.
  intros Hl. apply (foldl_Qplus_bounds N l 0 0%nat Hl).
  unfold of_nat. change (inject_Z (Z.of_nat 0)) with 0%Q. split; lra.
Qed.

Lemma avg_novelty_range (N : Q) rs :
  (0 <= N)%Q -> (forall r, In r rs -> 0 <= average_novelty r <= N)%Q ->
  (0 <= avg_novelty rs <= N)%Q.
Proof.
  intros HN Hrs. unfold avg_novelty.
  assert (Hs := Qsum_bounds N (map average_novelty rs)).
  rewrite length_map in Hs.
  assert (Hs' : (0 <= Qsum (map average_novelty rs) <= of_nat (length rs) * N)%Q).
  { apply Hs. intros x Hx. apply in_map_iff in Hx as (r & <- & Hr). apply Hrs, Hr. }
  clear Hs.
  assert (Hmax : (of_nat (length rs) <= of_nat (Nat.max 1 (length rs)))%Q).
  { unfold of_nat. rewrite <- Zle_Qle. lia. }
  assert (Hpos : (1 <= of_nat (Nat.max 1 (length rs)))%Q).
  { unfold of_nat. change 1%Q with (inject_Z 1). rewrite <- Zle_Qle. lia. }
  set (s := Qsum (map average_novelty rs)) in *.
  set (k := of_nat (Nat.max 1 (length rs))) in *.
  set (n := of_nat (length rs)) in *.
  assert (Hk : (0 < k)%Q) by lra.
  split.
  - apply Qle_shift_div_l; [exact Hk|]. lra.
  - apply Qle_shift_div_r; [exact Hk|]. nra.
Qed.

Lemma similar_records_In g d r :
  In r (similar_records g d) -> In r (record_of_the_days d).
Proof.
  unfold similar_records, rotd_genres_overlap, rotd_all. intros H.
  apply In_take in H. apply filter_In in H as [H _].
  apply order_by_In in H. exact H.
Qed.

(** X4. [_calculate_entropy_measure] never raises, and when the novelty
    averages of the past selections lie between [0] and [N], its value lies
    between [0.1] and [0.9 * (1 + 0.3 * N)]: the clip to [0.1, 0.9] comes
    before the feedback multiplier. *)
Theorem entropy_measure_bounds (listing : Listing) (recent_listings : list Listing)
    (N : Q) w :
  (0 <= N)%Q ->
  (forall r, In r (record_of_the_days (db w)) -> 0 <= average_novelty r <= N)%Q ->
  exists v w',
    _calculate_entropy_measure listing recent_listings w = (Ok v, w') /\
    (0.1 <= v)%Q /\ (v <= 0.9 * (1 + 0.3 * N))%Q.
Proof.
  intros HN Hrows.
  destruct (entropy_measure_cases listing recent_listings w) as (v & w' & Hr & Hv).
  exists v, w'. split; [exact Hr|].
  destruct Hv as [-> | [-> | (e & ->)]].
  - pose proof (frac_range (rng w (rng_pos w))) as [H0 H1].
    unfold next_sample. split; nra.
  - split; lra.
  - pose proof (np_clip_bounds e 0.1 0.9 ltac:(lra)) as [Hc0 Hc1].
    set (a := avg_novelty (similar_records (genres (record listing)) (db w))).
    assert (Ha : (0 <= a <= N)%Q).
    { apply avg_novelty_range; [exact HN|].
      intros r Hr'. apply Hrows. eapply similar_records_In, Hr'. }
    set (c := np_clip e 0.1 0.9) in *. split; nra.
Qed.

End Entropy_range.

(** ** The order the free energy puts on candidates *)

Section Free_energy_order.
Context `{Ext : Externals}.

(** X5. Lower free energy is preferred by the sampler.  At a non-negative
    temperature a larger entropy measure never raises the free energy; among
    positively scored listings a higher score never raises it; and a listing
    whose score is not positive gets the utility [-1.0], so that it is
    preferred to every listing scored between 0 and 1. *)
Theorem free_energy_order (a b : Listing) (e e' t : Q) w :
  ((0 <= t)%Q -> (e <= e')%Q -> (free_energy_of a e' t w <= free_energy_of a e t w)%Q) /\
  ((0 < score a)%Q -> (score a <= score b)%Q ->
   (free_energy_of b e t w <= free_energy_of a e t w)%Q) /\
  (~ (0 < score a)%Q -> (0 < score b)%Q -> (score b <= 1)%Q ->
   (free_energy_of a e t w <= free_energy_of b e t w)%Q).
Proof.
  unfold free_energy_of. rewrite !free_energy_run. cbn [fst].
  unfold utility_of. split; [|split].
  - intros Ht He. nra.
  - intros Ha Hab.
    assert (Hb : (0 < score b)%Q) by lra.
    apply Qltb_lt in Ha, Hb. rewrite Ha, Hb. lra.
  - intros Ha Hb Hb1.
    assert (Ea : Qltb 0 (score a) = false).
    { apply Qltb_ge. apply Qnot_lt_le. exact Ha. }
    apply Qltb_lt in Hb. rewrite Ea, Hb. lra.
Qed.

End Free_energy_order.

(** ** The probability the sampler reports *)

Section Sampler_probability.
Context `{Ext : Externals}.

Lemma valid_probabilities_nonneg a p ps :
  valid_probabilities a p = Some ps -> Forall (fun q => 0 <= q)%Q ps.
Proof.
  unfold valid_probabilities.
  destruct (a =? 0)%nat; [discriminate|].
  destruct (negb (length p =? a)%nat); [discriminate|].
  destruct (existsb is_nan p); [discriminate|].
  destruct (existsb fnegative p) eqn:En; [discriminate|]. cbn [orb].
  destruct (finite_values p) as [qs|] eqn:Ef; [|discriminate].
  destruct (Qltb atol (Qabs (Qsum qs - 1))); [discriminate|].
  intros H. injection H as <-.
  unfold finite_values in Ef. apply mapM_Some in Ef.
  induction Ef as [|x q p qs Hx _ IH]; [constructor|].
  simpl in En. apply orb_false_iff in En as [En1 En2].
  constructor; [|apply IH, En2].
  destruct x; simpl in Hx; try discriminate. injection Hx as <-.
  simpl in En1. apply Qltb_ge, En1.
Qed.

Lemma foldl_Qplus_ge l acc :
  Forall (fun q => 0 <= q)%Q l -> (acc <= foldl Qplus acc l)%Q.
Proof.
  intros H. revert acc. induction H as [|x l Hx _ IH]; intros acc; simpl; [lra|].
  specialize (IH (acc + x)%Q). lra.
Qed.

Lemma foldl_Qplus_elem l acc x :
  Forall (fun q => 0 <= q)%Q l -> In x l -> (acc + x <= foldl Qplus acc l)%Q.
Proof.
  intros H. revert acc. induction H as [|y l Hy Hl IH]; intros acc Hin; simpl;
    [contradiction|].
  destruct Hin as [->|Hin].
  - apply foldl_Qplus_ge, Hl.
  - specialize (IH (acc + y)%Q Hin). lra.
Qed.

Lemma probability_range a p ps i q :
  valid_probabilities a p = Some ps -> ps !! i = Some q ->
  (0 <= q)%Q /\ (q <= 1 + atol)%Q.
Proof.
  intros Hv Hq.
  pose proof (valid_probabilities_nonneg _ _ _ Hv) as Hnn.
  destruct (valid_probabilities_inv _ _ _ Hv) as (_ & _ & _ & _ & Hs).
  assert (Hin : In q ps).
  { apply list_elem_of_In. eapply list_elem_of_lookup_2, Hq. }
  split.
  - rewrite Forall_forall in Hnn. apply Hnn, list_elem_of_In, Hin.
  - pose proof (foldl_Qplus_elem ps 0 q Hnn Hin) as Hle. fold (Qsum ps) in Hle.
    apply Qabs_Qle_condition in Hs as [_ Hs]. lra.
Qed.

Lemma inverse_count_range n : (0 < n)%nat -> (0 <= 1.0 / of_nat n <= 1 + atol)%Q.
Proof.
  intros Hn.
  assert (Hq : (1 <= of_nat n)%Q).
  { unfold of_nat. change 1%Q with (inject_Z 1). rewrite <- Zle_Qle. lia. }
  assert (Hp : (0 < of_nat n)%Q) by lra.
  split.
  - apply Qle_shift_div_l; [exact Hp|]. lra.
  - apply Qle_shift_div_r; [exact Hp|]. unfold atol. lra.
Qed.

(** What one call of the sampler does, on a non-empty list of identifiers. *)
Lemma sampling_outcome fes ids t w :
  ids <> [] ->
  exists sid q w',
    _boltzmann_sampling fes ids t w = (Ok (sid, Fin q), w') /\
    In sid ids /\ (0 <= q)%Q /\ (q <= 1 + atol)%Q /\
    rng_pos w' = S (rng_pos w) /\ rng w' = rng w /\ self w' = self w /\
    db w' = db w /\ now w' = now w.
Proof.
  intros Hne.
  destruct (valid_probabilities (length ids) (normalize (boltzmann_weights fes t)))
    as [ps|] eqn:Ev.
  - destruct (sampling_normal fes ids t w ps Ev)
      as (sid & q & wi & Hid & Hq & _ & _ & Hr & _).
    destruct (probability_range _ _ _ _ _ Ev Hq) as [H0 H1].
    exists sid, q, (drawn w). split; [exact Hr|].
    split; [apply list_elem_of_In; eapply list_elem_of_lookup_2, Hid|].
    repeat split; assumption.
  - destruct (sampling_fallback fes ids t w Hne Ev) as (sid & Hid & Hr).
    assert (Hlen : (0 < length ids)%nat) by (destruct ids; [contradiction | simpl; lia]).
    destruct (inverse_count_range _ Hlen) as [H0 H1].
    eexists sid, _, _. split; [exact Hr|].
    split; [apply list_elem_of_In; eapply list_elem_of_lookup_2, Hid|].
    repeat split; assumption.
Qed.

(** X6. On a non-empty list of identifiers [_boltzmann_sampling] reports a
    finite probability between 0 and 1 (up to the tolerance of
    [np.random.choice]), draws exactly one number from the generator, and
    touches neither the selector nor the tables; on its uniform fallback the
    probability is [1 / len(listing_ids)]. *)
Theorem boltzmann_sampling_probability (free_energies : list Q) (listing_ids : list Z)
    (temperature : Q) w :
  listing_ids <> [] ->
  exists sid q w',
    _boltzmann_sampling free_energies listing_ids temperature w = (Ok (sid, Fin q), w') /\
    (0 <= q)%Q /\ (q <= 1 + atol)%Q /\
    rng_pos w' = S (rng_pos w) /\ self w' = self w /\ db w' = db w /\
    (valid_probabilities (length listing_ids)
       (normalize (boltzmann_weights free_energies temperature)) = None ->
     q = (1.0 / of_nat (length listing_ids))%Q).
Proof.
  intros Hne.
  destruct (sampling_outcome free_energies listing_ids temperature w Hne)
    as (sid & q & w' & Hr & _ & H0 & H1 & Hp & _ & Hs & Hd & _).
  exists sid, q, w'. split; [exact Hr|].
  repeat (split; [assumption|]).
  intros Ev.
  destruct (sampling_fallback free_energies listing_ids temperature w Hne Ev)
    as (sid' & _ & Hr').
  rewrite Hr in Hr'. injection Hr' as _ -> _. reflexivity.
Qed.

End Sampler_probability.

(** ** A round that selects *)

Section Selecting_round.
Context `{Ext : Externals}.

Lemma evaluate_candidate_detail recent t l w :
  ensures (evaluate_candidate recent t l) w
    (fun c _ => c_listing_id c = id l /\
                (evaluated_at t l c /\
                 (0.1 <= c_entropy_measure c)%Q /\ (c_entropy_measure c <= 0.9)%Q)).
Proof.
  unfold evaluate_candidate. apply ensures_bind.
  eapply ensures_mono; [apply entropy_measure_in_range|].
  intros e w1 He. simpl. unfold ensures. rewrite run_bind, free_energy_run.
  split; [reflexivity|]. split; [repeat split | exact He].
Qed.

(** [listing_ids.index(selected_id)] and the lookup of the selected listing
    land on the same turn of the loop. *)
Lemma index_of_selected (P : Listing -> candidate -> Prop) el cands sid i :
  Forall2 (fun l c => c_listing_id c = id l /\ P l c) el cands ->
  list_index (map c_listing_id cands) sid = Ok i ->
  exists x c,
    List.find (fun l => (id l =? sid)%Z) el = Some x /\ cands !! i = Some c /\ P x c.
Proof.
  intros H. revert i. induction H as [|l c el cands [Hid Hp] _ IH]; intros i; simpl;
    [discriminate|].
  rewrite Hid. destruct (id l =? sid)%Z.
  - intros [= <-]. exists l, c. repeat split; assumption.
  - destruct (list_index (map c_listing_id cands) sid) as [j|e] eqn:Ej; [|discriminate].
    intros [= <-]. destruct (IH j eq_refl) as (x & c' & Hf & Hc & Hx).
    exists x, c'. repeat split; assumption.
Qed.

Lemma py_index_map {A B} (f : A -> B) (l : list A) i c :
  l !! i = Some c -> py_index (map f l) i = Ok (f c).
Proof.
  unfold py_index. revert i. induction l as [|x l IH]; intros [|i]; simpl;
    try discriminate.
  - intros [= ->]. reflexivity.
  - apply IH.
Qed.

Lemma select_body_detail m w el :
  (0 <= m)%Z ->
  take (Z.to_nat m) (listings_score_gt 0.5 (db w)) = el -> el <> [] ->
  ensures (select_body m) w (fun r w' =>
    exists x em t q,
      r = (Some x,
           thermodynamic_breakdown (score x) em t (utility_of x) (t * em)
             (utility_of x - t * em) (Fin q)
             (Z.of_nat (length el)) (cluster_count_of (self w'))) /\
      In x el /\ (0.1 <= t)%Q /\ (t <= 1.0)%Q /\ (0 <= q)%Q /\ (q <= 1 + atol)%Q /\
      (0.1 <= em)%Q /\ (em <= 0.9)%Q).
Proof.
  intros Hm He Hne. unfold select_body.
  apply ensures_bind, ensures_query.
  rewrite (slice_to_nonneg _ _ Hm), He.
  apply ensures_bind, ensures_lift_ok.
  destruct el as [|first rest]; [contradiction|].
  cbv beta iota. remember (first :: rest) as el eqn:Hel.
  apply ensures_bind, ensures_now.
  apply ensures_bind, ensures_query.
  rewrite slice_to_nonneg by lia.
  apply ensures_bind, ensures_lift_ok.
  apply ensures_bind. eapply ensures_mono; [apply update_total|].
  intros _ w1 _. cbv beta.
  apply ensures_bind. eapply ensures_mono; [apply temperature_range|].
  intros t w2 [Ht0 Ht1]. cbv beta.
  apply ensures_bind. eapply ensures_mono; [apply ensures_for_each|].
  { intros x w'. apply evaluate_candidate_detail. }
  intros cands w3 Hc. cbv beta.
  assert (Hids : map c_listing_id cands = map id el).
  { apply Forall2_ids. eapply Forall2_impl; [exact Hc|]. intros ? ? [H _]. exact H. }
  assert (Hcne : map c_listing_id cands <> []).
  { rewrite Hids, Hel. discriminate. }
  apply ensures_bind.
  destruct (sampling_outcome (map c_free_energy cands) (map c_listing_id cands) t w3 Hcne)
    as (sid & q & w4 & Hr & Hsid & Hq0 & Hq1 & _).
  eapply ensures_eq; [exact Hr|]. cbv beta iota.
  destruct (list_index_In _ _ Hsid) as (i & Hi & _).
  destruct (index_of_selected _ _ _ _ _ Hc Hi)
    as (x & c & Hf & Hci & (Hu & Het & Hfe) & Hem0 & Hem1).
  rewrite Hi, Hf. apply ensures_bind, ensures_lift_ok.
  rewrite (py_index_map c_entropy_measure _ _ _ Hci). apply ensures_bind, ensures_lift_ok.
  rewrite (py_index_map c_utility _ _ _ Hci). apply ensures_bind, ensures_lift_ok.
  rewrite (py_index_map c_entropy_term _ _ _ Hci). apply ensures_bind, ensures_lift_ok.
  rewrite (py_index_map c_free_energy _ _ _ Hci). apply ensures_bind, ensures_lift_ok.
  apply ensures_bind, ensures_get_self.
  apply ensures_bind, ensures_logger.
  apply ensures_bind, ensures_logger.
  apply ensures_ret.
  exists x, (c_entropy_measure c), t, q.
  rewrite Hfe, Het, Hu. simpl. split; [reflexivity|].
  split; [apply find_some in Hf; apply Hf|].
  repeat split; assumption.
Qed.

Lemma eligible_take_nonempty m d :
  (0 < m)%Z -> eligible_pool d <> [] ->
  take (Z.to_nat m) (listings_score_gt 0.5 d) <> [].
Proof.
  intros Hm Hp H. apply Hp, eligible_pool_nil.
  destruct (listings_score_gt 0.5 d) as [|x l]; [reflexivity|].
  destruct (Z.to_nat m) eqn:E; [lia|]. discriminate.
Qed.

Lemma eligible_take_length m d :
  length (take (Z.to_nat m) (listings_score_gt 0.5 d)) =
  Nat.min (Z.to_nat m) (length (eligible_pool d)).
Proof.
  rewrite length_take. unfold listings_score_gt, eligible_pool.
  rewrite order_by_length. reflexivity.
Qed.

(** The outcome of a round with a positive bound over a non-empty pool. *)
Lemma select_selects m w :
  (0 < m)%Z -> eligible_pool (db w) <> [] ->
  exists x em t q w',
    select_record_of_the_day m w =
      (Ok (Some x,
           thermodynamic_breakdown (score x) em t (- score x) (t * em)
             (- score x - t * em) (Fin q)
             (Z.of_nat (Nat.min (Z.to_nat m) (length (eligible_pool (db w)))))
             (cluster_count_of (self w'))), w') /\
    In x (listings (db w)) /\ (0.5 < score x)%Q /\
    (0.1 <= t)%Q /\ (t <= 1.0)%Q /\ (0 <= q)%Q /\ (q <= 1 + atol)%Q /\ db w' = db w.
Proof.
  intros Hm Hp.
  pose proof (eligible_take_nonempty m (db w) Hm Hp) as Hne.
  pose proof (select_body_detail m w _ ltac:(lia) eq_refl Hne) as Hb.
  pose proof (select_body_db m w) as Hdb.
  unfold select_record_of_the_day, try_except.
  unfold ensures in Hb.
  destruct (select_body m w) as [[r|e] w'] eqn:Er; [|contradiction].
  destruct Hb as (x & em & t & q & -> & Hx & Ht0 & Ht1 & Hq0 & Hq1 & _).
  apply In_take in Hx. apply listings_score_gt_In in Hx as [Hin Hs].
  assert (Hu : utility_of x = (- score x)%Q).
  { unfold utility_of.
    assert (H0 : (0 < score x)%Q) by lra. apply Qltb_lt in H0. rewrite H0. reflexivity. }
  rewrite Hu, eligible_take_length.
  exists x, em, t, q, w'. split; [reflexivity|].
  repeat (split; [assumption|]). exact Hdb.
Qed.


(** X7. With a positive bound and a listing above the threshold,
    [select_record_of_the_day] selects: it returns a listing of the table
    whose score is above 0.5, and a breakdown whose [model_score] is that
    score, whose [total_candidates] is the smaller of the bound and the size
    of the pool, whose [cluster_count] is the number of centroids the
    selector holds, tagged [thermodynamic_boltzmann] and without an [error]
    key; the tables are left as they were. *)
Theorem select_record_of_the_day_selects (max_candidates : Z) w :
  (0 < max_candidates)%Z -> eligible_pool (db w) <> [] ->
  exists x b w',
    select_record_of_the_day max_candidates w = (Ok (Some x, b), w') /\
    In x (listings (db w)) /\ (0.5 < score x)%Q /\
    b !! "model_score" = Some (VFloat (Fin (score x))) /\
    b !! "total_candidates" =
      Some (VInt (Z.of_nat (Nat.min (Z.to_nat max_candidates)
                              (length (eligible_pool (db w)))))) /\
    b !! "cluster_count" = Some (VInt (cluster_count_of (self w'))) /\
    b !! "selection_method" = Some (VStr "thermodynamic_boltzmann") /\
    b !! "error" = None /\
    db w' = db w.
Proof.
  intros Hm Hp.
  destruct (select_selects max_candidates w Hm Hp)
    as (x & em & t & q & w' & Hr & Hin & Hs & _ & _ & _ & _ & Hdb).
  eexists x, _, w'. split; [exact Hr|].
  split; [exact Hin|]. split; [exact Hs|].
  unfold thermodynamic_breakdown.
  repeat (split; [vm_compute; reflexivity|]). exact Hdb.
Qed.


End Selecting_round.

(** ** What the views persist *)

Section View_effects.
Context `{Ext : Externals}.

Lemma rows_on_deleted today d : rows_on today (deleted today d) = [].
Proof.
  unfold rows_on, deleted. cbn [record_of_the_days].
  induction (record_of_the_days d) as [|r rs IH]; [reflexivity|].
  simpl. destruct (Z.eqb_spec (date r) today) as [He|Hn]; simpl; [exact IH|].
  destruct (Z.eqb_spec (date r) today); [contradiction | exact IH].
Qed.

Lemma deleted_In today d r :
  In r (record_of_the_days (deleted today d)) <->
  In r (record_of_the_days d) /\ date r <> today.
Proof.
  unfold deleted. cbn [record_of_the_days]. rewrite filter_In.
  destruct (Z.eqb_spec (date r) today); simpl; intuition congruence.
Qed.

(** A round of fifty over a non-empty pool, followed by the [create] call of
    the views, on a date without a row. *)
Lemma select_then_create today w :
  rows_on today (db w) = [] -> eligible_pool (db w) <> [] ->
  exists x em t q w3,
    let b := thermodynamic_breakdown (score x) em t (- score x) (t * em)
               (- score x - t * em) (Fin q)
               (Z.of_nat (Nat.min 50 (length (eligible_pool (db w)))))
               (cluster_count_of (self w3)) in
    let r := selection_row (next_rotd_id (db w)) today x em t (- score x) (t * em)
               (- score x - t * em) (Fin q)
               (Z.of_nat (Nat.min 50 (length (eligible_pool (db w)))))
               (cluster_count_of (self w3)) in
    select_record_of_the_day 50 w = (Ok (Some x, b), w3) /\
    dict_truthy b = true /\
    create_selection today x b w3 = (Ok r, with_db (inserted r (db w)) w3) /\
    persisted_breakdown r = b /\
    In x (listings (db w)) /\ (0.5 < score x)%Q /\ db w3 = db w.
Proof.
  intros Hrows Hp.
  destruct (select_selects 50 w ltac:(lia) Hp)
    as (x & em & t & q & w3 & Hr & Hin & Hs & _ & _ & _ & _ & Hdb).
  change (Z.to_nat 50) with 50%nat in Hr.
  exists x, em, t, q, w3. cbv zeta.
  split; [exact Hr|].
  split; [apply thermodynamic_fields|].
  assert (Hrows3 : rows_on today (db w3) = []) by (rewrite Hdb; exact Hrows).
  destruct (create_selection_run today x em t (- score x) (t * em) (- score x - t * em)
              (Fin q) (Z.of_nat (Nat.min 50 (length (eligible_pool (db w)))))
              (cluster_count_of (self w3)) w3 Hrows3) as [Hc Hpb].
  cbv zeta in Hc, Hpb. rewrite Hdb in Hc.
  repeat (split; [assumption|]). exact Hdb.
Qed.

Lemma dashboard_creates w :
  rows_on (date_of (now w)) (db w) = [] -> eligible_pool (db w) <> [] ->
  exists x em t q w3,
    let r := selection_row (next_rotd_id (db w)) (date_of (now w)) x em t (- score x)
               (t * em) (- score x - t * em) (Fin q)
               (Z.of_nat (Nat.min 50 (length (eligible_pool (db w)))))
               (cluster_count_of (self w3)) in
    DashboardAPIView_get false w =
      (Ok {| r_record_of_the_day := Some x; r_record_of_the_day_obj := Some r;
             r_breakdown := persisted_breakdown r |},
       with_db (inserted r (db w)) w3) /\
    In x (listings (db w)) /\ (0.5 < score x)%Q.
Proof.
  intros Hrows Hp. unfold DashboardAPIView_get.
  rewrite run_bind. cbn [timezone_now]. rewrite run_bind.
  unfold try_except_class. rewrite run_bind. cbn [negb]. rewrite run_bind.
  rewrite (rotd_get_none _ _ Hrows). cbn [is_rotd_DoesNotExist String.eqb Ascii.eqb Bool.eqb].
  unfold try_except at 1. rewrite run_bind.
  change (put_self new_selector w) with (Ok tt, fresh_selector w). cbv beta iota.
  rewrite run_bind.
  destruct (select_then_create (date_of (now w)) (fresh_selector w) Hrows Hp)
    as (x & em & t & q & w3 & Hs & Ht & Hc & Hpb & Hin & Hsc & _).
  cbv zeta in Hs, Ht, Hc, Hpb. cbn [fresh_selector db] in Hs, Ht, Hc, Hpb.
  rewrite Hs. cbv beta iota. rewrite Ht. rewrite run_bind, Hc. cbv beta iota.
  exists x, em, t, q, w3. cbv zeta. rewrite Hpb.
  split; [reflexivity|]. split; assumption.
Qed.

(** X9. The first dashboard read of a date, when a listing is above the
    threshold, persists the selection it shows: the response carries the
    selected listing (scored above 0.5), the new row and that row's
    breakdown; the row has the next primary key, today's date, the listing
    as foreign key, its score as [model_score], no votes, and it is the only
    row of the date; the other rows and the listings are untouched. *)
Theorem dashboard_first_read_persists w :
  rows_on (date_of (now w)) (db w) = [] -> eligible_pool (db w) <> [] ->
  exists x r w',
    DashboardAPIView_get false w =
      (Ok {| r_record_of_the_day := Some x; r_record_of_the_day_obj := Some r;
             r_breakdown := persisted_breakdown r |}, w') /\
    In x (listings (db w)) /\ (0.5 < score x)%Q /\
    rotd_id r = next_rotd_id (db w) /\ date r = date_of (now w) /\
    listing_id r = id x /\ model_score r = Fin (score x) /\
    selection_method r = "thermodynamic_boltzmann" /\
    desirability_votes r = [] /\ novelty_votes r = [] /\
    record_of_the_days (db w') = record_of_the_days (db w) ++ [r] /\
    rows_on (date_of (now w)) (db w') = [r] /\
    listings (db w') = listings (db w).
Proof.
  intros Hrows Hp.
  destruct (dashboard_creates w Hrows Hp) as (x & em & t & q & w3 & Hr & Hin & Hs).
  cbv zeta in Hr.
  eexists x, _, _. split; [exact Hr|].
  split; [exact Hin|]. split; [exact Hs|].
  repeat (split; [reflexivity|]).
  split; [|reflexivity].
  cbn [with_db db]. apply rows_on_inserted; [exact Hrows | reflexivity].
Qed.

(** X10. A dashboard read of a date without a row, when no listing is above
    the threshold, persists nothing and draws no random number: it shows the
    best positively scored listing (none when there is no such listing),
    scored at most 0.5, without a row, tagged [fallback_highest_score]. *)
Theorem dashboard_read_without_eligible w :
  rows_on (date_of (now w)) (db w) = [] -> eligible_pool (db w) = [] ->
  exists w',
    DashboardAPIView_get false w =
      (Ok {| r_record_of_the_day := highest_scored (db w);
             r_record_of_the_day_obj := None;
             r_breakdown := <["selection_method" := VStr "fallback_highest_score"]> ∅ |},
       w') /\
    db w' = db w /\ rng_pos w' = rng_pos w /\
    (forall x, highest_scored (db w) = Some x ->
       In x (listings (db w)) /\ (0 < score x)%Q /\ (score x <= 0.5)%Q /\
       forall y, In y (listings (db w)) -> (score y <= score x)%Q).
Proof.
  intros Hrows Hp.
  assert (He : take 50 (listings_score_gt 0.5 (db w)) = []).
  { apply eligible_pool_nil in Hp. rewrite Hp. reflexivity. }
  eexists. split; [apply (get_no_eligible w Hrows He)|].
  split; [reflexivity|]. split; [reflexivity|].
  intros x Hx. destruct (highest_scored_some _ _ Hx) as (Hin & H0 & Hmax).
  split; [exact Hin|]. split; [exact H0|]. split; [|exact Hmax].
  destruct (Qlt_le_dec 0.5 (score x)) as [Hgt|Hle]; [|exact Hle].
  exfalso. apply Qltb_lt in Hgt.
  assert (Hx' : In x (eligible_pool (db w))).
  { unfold eligible_pool. apply filter_In. split; assumption. }
  rewrite Hp in Hx'. exact Hx'.
Qed.

(** X11. A dashboard read with [force_refresh=1] never raises, deletes the
    row of the date and creates none: the response has no row object, the
    date is left without a selection, the rows of other dates and the
    listings are untouched; when a listing is above the threshold the
    response still shows a freshly selected listing. *)
Theorem force_refresh_deletes_without_replacing w :
  exists l b w',
    DashboardAPIView_get true w =
      (Ok {| r_record_of_the_day := l; r_record_of_the_day_obj := None;
             r_breakdown := b |}, w') /\
    rows_on (date_of (now w)) (db w') = [] /\
    (forall r, In r (record_of_the_days (db w')) <->
               In r (record_of_the_days (db w)) /\ date r <> date_of (now w)) /\
    listings (db w') = listings (db w) /\
    (eligible_pool (db w) <> [] ->
     exists x, l = Some x /\ In x (listings (db w)) /\ (0.5 < score x)%Q /\
               b !! "selection_method" = Some (VStr "thermodynamic_boltzmann")).
Proof.
  destruct (force_refresh_persists_nothing w) as (l & b & w' & Hr & Hs & Hdb & Hrows).
  exists l, b, w'. split; [exact Hr|]. split; [exact Hrows|].
  split; [intros r; rewrite Hdb; apply deleted_In|].
  split; [rewrite Hdb; reflexivity|].
  intros Hp.
  destruct (select_selects 50
              (fresh_selector (with_db (deleted (date_of (now w)) (db w)) w))
              ltac:(lia) Hp)
    as (x & em & t & q & w3 & Hr' & Hin & Hsc & _).
  rewrite Hs in Hr'. injection Hr' as -> -> _.
  exists x. split; [reflexivity|]. split; [exact Hin|]. split; [exact Hsc|].
  vm_compute. reflexivity.
Qed.

(** X12. [refresh_record_of_the_day_view] never raises.  It deletes the row
    of the date, votes included, and leaves the rows of other dates and the
    listings untouched.  When a listing is above the threshold it answers
    with success and the date has exactly one row, without votes, for a
    listing scored above 0.5; otherwise it answers that nothing is eligible
    and the date is left without a row. *)
Theorem refresh_view_outcome w :
  exists resp w',
    refresh_record_of_the_day_view w = (Ok resp, w') /\
    listings (db w') = listings (db w) /\
    (forall r, date r <> date_of (now w) ->
       (In r (record_of_the_days (db w')) <-> In r (record_of_the_days (db w)))) /\
    (eligible_pool (db w) <> [] ->
     resp = Refreshed /\
     exists r x,
       rows_on (date_of (now w)) (db w') = [r] /\
       listing_id r = id x /\ In x (listings (db w)) /\ (0.5 < score x)%Q /\
       desirability_votes r = [] /\ novelty_votes r = [] /\
       rotd_id r = next_rotd_id (db w)) /\
    (eligible_pool (db w) = [] ->
     resp = NoEligible /\ rows_on (date_of (now w)) (db w') = []).
Proof.
  set (today := date_of (now w)).
  set (wd := with_db (deleted today (db w)) w).
  assert (Hrun : forall k : M RefreshResponse,
            (t ← timezone_now;
             let today := date_of t in
             rotd_delete today;; put_self new_selector;; k) w
            = k (fresh_selector wd)).
  { intros k. reflexivity. }
  assert (Hrows : rows_on today (db (fresh_selector wd)) = []) by apply rows_on_deleted.
  destruct (eligible_pool (db w)) as [|e0 pool] eqn:Ep.
  - assert (He : take (Z.to_nat 50) (listings_score_gt 0.5 (db (fresh_selector wd))) = []).
    { apply eligible_pool_nil in Ep.
      change (take (Z.to_nat 50) (listings_score_gt 0.5 (db w)) = []).
      rewrite Ep. reflexivity. }
    eexists NoEligible, _. split.
    { unfold refresh_record_of_the_day_view, try_except.
      rewrite run_bind. cbn [timezone_now]. rewrite run_bind.
      change (rotd_delete (date_of (now w)) w) with (Ok tt, wd). cbv beta iota.
      rewrite run_bind.
      change (put_self new_selector wd) with (Ok tt, fresh_selector wd). cbv beta iota.
      rewrite run_bind. unfold select_record_of_the_day, try_except.
      rewrite (select_body_empty 50 (fresh_selector wd) ltac:(lia) He).
      reflexivity. }
    split; [reflexivity|].
    split.
    { intros r Hd. cbn [logged db fresh_selector wd with_db].
      rewrite deleted_In. tauto. }
    split; [intros H; contradiction H; reflexivity|].
    intros _. split; [reflexivity|]. apply rows_on_deleted.
  - assert (Hp : eligible_pool (db (fresh_selector wd)) <> []).
    { change (eligible_pool (db w) <> []). rewrite Ep. discriminate. }
    destruct (select_then_create today (fresh_selector wd) Hrows Hp)
      as (x & em & t & q & w3 & Hs & Ht & Hc & _ & Hin & Hsc & _).
    cbv zeta in Hs, Ht, Hc.
    eexists Refreshed, _. split.
    { unfold refresh_record_of_the_day_view, try_except.
      rewrite run_bind. cbn [timezone_now]. rewrite run_bind.
      change (rotd_delete (date_of (now w)) w) with (Ok tt, wd). cbv beta iota.
      rewrite run_bind.
      change (put_self new_selector wd) with (Ok tt, fresh_selector wd). cbv beta iota.
      rewrite run_bind. rewrite Hs. cbv beta iota. rewrite Ht.
      rewrite run_bind. fold today. rewrite Hc. reflexivity. }
    split; [reflexivity|].
    split.
    { intros r Hd. cbn [logged db with_db inserted record_of_the_days].
      rewrite in_app_iff. cbn [fresh_selector wd with_db db].
      rewrite deleted_In. simpl. split.
      - intros [[H _]|[<-|[]]]; [exact H|]. contradiction Hd. reflexivity.
      - intros H. left. split; assumption. }
    split; [|discriminate].
    intros _. split; [reflexivity|].
    eexists _, x. split.
    { cbn [logged db with_db]. apply rows_on_inserted; [exact Hrows | reflexivity]. }
    repeat (split; [first [reflexivity | assumption]|]). reflexivity.
Qed.

End View_effects.

(** ** Votes *)

Section Votes.
Context `{Ext : Externals}.

Lemma foldl_Qplus_between (lo hi : Q) l acc n :
  (forall x, In x l -> lo <= x <= hi)%Q ->
  (of_nat n * lo <= acc <= of_nat n * hi)%Q ->
  (of_nat (n + length l) * lo <= foldl Qplus acc l <= of_nat (n + length l) * hi)%Q.
Proof.
  revert acc n. induction l as [|x l IH]; intros acc n Hl Hacc; simpl.
  - rewrite Nat.add_0_r. exact Hacc.
  - replace (n + S (length l))%nat with (S n + length l)%nat by lia.
    apply IH; [intros y Hy; apply Hl; right; exact Hy|].
    specialize (Hl x (or_introl eq_refl)).
    unfold of_nat in *. rewrite Nat2Z.inj_succ, <- Z.add_1_r, inject_Z_plus.
    change (inject_Z 1) with 1%Q.
    set (k := inject_Z (Z.of_nat n)) in *. destruct Hl, Hacc. clearbody k. clear IH.
    assert (E1 : ((k + 1) * lo == k * lo + lo)%Q) by ring.
    assert (E2 : ((k + 1) * hi == k * hi + hi)%Q) by ring.
    rewrite E1, E2. split; lra.
Qed.

Lemma mean_of_between (lo hi : Q) votes :
  votes <> [] -> (forall x, In x votes -> lo <= x <= hi)%Q ->
  (lo <= mean_of votes <= hi)%Q.
Proof.
  intros Hne Hl. unfold mean_of.
  pose proof (foldl_Qplus_between lo hi votes 0 0%nat Hl) as Hs.
  fold (Qsum votes) in Hs. rewrite Nat.add_0_l in Hs.
  assert (Hn : (0 < of_nat (length votes))%Q).
  { unfold of_nat. change 0%Q with (inject_Z 0). rewrite <- Zlt_Qlt.
    destruct votes; [contradiction | simpl; lia]. }
  destruct Hs as [Hs1 Hs2].
  { unfold of_nat. change (inject_Z (Z.of_nat 0)) with 0%Q. split; lra. }
  set (s := Qsum votes) in *. set (k := of_nat (length votes)) in *.
  split.
  - apply Qle_shift_div_l; [exact Hn|]. lra.
  - apply Qle_shift_div_r; [exact Hn|]. lra.
Qed.

Lemma vote_run_known record_id d n w r0 :
  List.find (fun r => (rotd_id r =? record_id)%Z) (record_of_the_days (db w)) = Some r0 ->
  vote_record_of_the_day_view record_id d n w =
  (Ok true,
   with_db {| listings := listings (db w);
              record_of_the_days := map (vote_on record_id d n) (record_of_the_days (db w));
              next_rotd_id := next_rotd_id (db w) |} w).
Proof.
  intros Hf. unfold vote_record_of_the_day_view, try_except.
  rewrite run_bind. cbn [query]. rewrite Hf. reflexivity.
Qed.

Lemma vote_run_unknown record_id d n w :
  List.find (fun r => (rotd_id r =? record_id)%Z) (record_of_the_days (db w)) = None ->
  vote_record_of_the_day_view record_id d n w = (Ok false, w).
Proof.
  intros Hf. unfold vote_record_of_the_day_view, try_except.
  rewrite run_bind. cbn [query]. rewrite Hf. reflexivity.
Qed.



End Votes.

(** ** Rounding to two decimals *)

Lemma Qfloor_frac_range y :
  (0 <= y - inject_Z (Qfloor y))%Q /\ (y - inject_Z (Qfloor y) < 1)%Q.
Proof. apply frac_range. Qed.

Lemma round_half_even_floor y :
  (Qfloor y <= round_half_even y <= Qfloor y + 1)%Z.
Proof.
  unfold round_half_even.
  destruct (Qltb (y - inject_Z (Qfloor y)) 0.5); [lia|].
  destruct (Qltb 0.5 (y - inject_Z (Qfloor y))); [lia|].
  destruct (Z.even (Qfloor y)); lia.
Qed.

Lemma round_half_even_close y :
  (y - 0.5 <= inject_Z (round_half_even y))%Q /\
  (inject_Z (round_half_even y) <= y + 0.5)%Q.
Proof.
  destruct (Qfloor_frac_range y) as [H0 H1].
  unfold round_half_even.
  destruct (Qltb (y - inject_Z (Qfloor y)) 0.5) eqn:E1.
  - apply Qltb_lt in E1. split; lra.
  - apply Qltb_ge in E1.
    destruct (Qltb 0.5 (y - inject_Z (Qfloor y))) eqn:E2.
    + rewrite inject_Z_plus. change (inject_Z 1) with 1%Q. split; lra.
    + apply Qltb_ge in E2. destruct (Z.even (Qfloor y)).
      * split; lra.
      * rewrite inject_Z_plus. change (inject_Z 1) with 1%Q. split; lra.
Qed.

Lemma round_half_even_mono y1 y2 :
  (y1 <= y2)%Q -> (round_half_even y1 <= round_half_even y2)%Z.
Proof.
  intros Hle.
  pose proof (Qfloor_resp_le _ _ Hle) as Hf.
  pose proof (round_half_even_floor y1) as [_ Hb1].
  pose proof (round_half_even_floor y2) as [Hb2 _].
  destruct (Z_lt_le_dec (Qfloor y1) (Qfloor y2)) as [Hlt|Hge]; [lia|].
  assert (Heq : Qfloor y1 = Qfloor y2) by lia. clear Hf Hge Hb1 Hb2.
  unfold round_half_even. rewrite Heq.
  set (f := Qfloor y2) in *.
  destruct (Qltb (y1 - inject_Z f) 0.5) eqn:A1.
  - destruct (Qltb (y2 - inject_Z f) 0.5); [lia|].
    destruct (Qltb 0.5 (y2 - inject_Z f)); [lia|].
    destruct (Z.even f); lia.
  - apply Qltb_ge in A1.
    destruct (Qltb (y2 - inject_Z f) 0.5) eqn:A2.
    { apply Qltb_lt in A2. exfalso. lra. }
    destruct (Qltb 0.5 (y1 - inject_Z f)) eqn:B1.
    + apply Qltb_lt in B1.
      destruct (Qltb 0.5 (y2 - inject_Z f)) eqn:B2; [lia|].
      apply Qltb_ge in B2. exfalso. lra.
    + destruct (Qltb 0.5 (y2 - inject_Z f)); [destruct (Z.even f); lia|].
      destruct (Z.even f); lia.
Qed.

Lemma round_half_even_int k : round_half_even (inject_Z k) = k.
Proof.
  unfold round_half_even. rewrite Qfloor_Z.
  assert (E : Qltb (inject_Z k - inject_Z k) 0.5 = true).
  { apply Qltb_lt. lra. }
  rewrite E. reflexivity.
Qed.

Lemma round_half_even_Qeq y1 y2 :
  (y1 == y2)%Q -> round_half_even y1 = round_half_even y2.
Proof.
  intros H. apply Z.le_antisymm; apply round_half_even_mono; lra.
Qed.

Lemma py_round2_mono x y : (x <= y)%Q -> (py_round2 x <= py_round2 y)%Q.
Proof.
  intros H. unfold py_round2.
  assert (Hz : (round_half_even (x * 100) <= round_half_even (y * 100))%Z).
  { apply round_half_even_mono. lra. }
  rewrite Zle_Qle in Hz.
  unfold Qdiv. change (/ 100)%Q with 0.01%Q. lra.
Qed.

Lemma py_round2_close x : (x - 0.005 <= py_round2 x)%Q /\ (py_round2 x <= x + 0.005)%Q.
Proof.
  unfold py_round2. destruct (round_half_even_close (x * 100)) as [H0 H1].
  unfold Qdiv. change (/ 100)%Q with 0.01%Q. split; lra.
Qed.

Lemma py_round2_idempotent x : py_round2 (py_round2 x) = py_round2 x.
Proof.
  unfold py_round2 at 1.
  assert (E : round_half_even (py_round2 x * 100) = round_half_even (x * 100)).
  { etransitivity; [|apply round_half_even_int].
    apply round_half_even_Qeq. unfold py_round2. field. }
  rewrite E. reflexivity.
Qed.

(** ** The score of a listing *)

Section Scoring_facts.
Variable ln : Q -> Q.

Lemma py_truediv_ok a b : ~ (b == 0)%Q -> py_truediv a b = Ok (a / b)%Q.
Proof.
  intros H. unfold py_truediv. destruct (Qeq_bool b 0) eqn:E; [|reflexivity].
  apply Qeq_bool_eq in E. contradiction.
Qed.

Lemma math_log_ok x : (0 < x)%Q -> math_log ln x = Ok (ln x).
Proof.
  intros H. unfold math_log. destruct (Qle_bool x 0) eqn:E; [|reflexivity].
  apply Qle_bool_iff in E. lra.
Qed.

(** [haves] once the zero was replaced. *)
Lemma haves_positive haves :
  (0 <= haves)%Z -> (0 < (if (haves =? 0)%Z then 0.01 else inject_Z haves))%Q.
Proof.
  intros H. destruct (Z.eqb_spec haves 0); [lra|].
  change 0%Q with (inject_Z 0). rewrite <- Zlt_Qlt. lia.
Qed.

Lemma calculate_score_prefix wants haves price :
  (0 <= wants)%Z -> (0 <= haves)%Z ->
  let h := if (haves =? 0)%Z then 0.01%Q else inject_Z haves in
  calculate_score ln wants haves price =
  (price_score ← py_truediv 50 (price + 1);
   Ok (py_round2 (ln (inject_Z wants / h + 1) * 10 + ln (inject_Z wants + h) * 2
                  + price_score))).
Proof.
  intros Hw Hh. cbv zeta. unfold calculate_score.
  pose proof (haves_positive haves Hh) as Hh0.
  set (h := if (haves =? 0)%Z then 0.01%Q else inject_Z haves) in *.
  assert (Hw0 : (0 <= inject_Z wants)%Q).
  { change 0%Q with (inject_Z 0). rewrite <- Zle_Qle. exact Hw. }
  assert (Hr : (0 <= inject_Z wants / h)%Q) by (apply Qle_shift_div_l; lra).
  clearbody h.
  rewrite (py_truediv_ok (inject_Z wants) h) by lra. cbn [mbind Res_bind].
  rewrite math_log_ok by lra. cbn [mbind Res_bind].
  rewrite math_log_ok by lra. cbn [mbind Res_bind].
  reflexivity.
Qed.

Lemma calculate_score_run wants haves price :
  (0 <= wants)%Z -> (0 <= haves)%Z -> ~ (price == -1)%Q ->
  let h := if (haves =? 0)%Z then 0.01%Q else inject_Z haves in
  calculate_score ln wants haves price =
  Ok (py_round2 (ln (inject_Z wants / h + 1) * 10 + ln (inject_Z wants + h) * 2
                 + 50 / (price + 1))).
Proof.
  intros Hw Hh Hp. cbv zeta. rewrite (calculate_score_prefix wants haves price Hw Hh).
  cbv zeta. rewrite py_truediv_ok; [reflexivity|]. intros H. apply Hp. lra.
Qed.

(** X15. [calculate_score] on non-negative counts raises only for the price
    [-1] (a division by zero); otherwise it returns a number with two
    decimals.  A count of [haves] equal to zero is replaced by [0.01], so
    that neither the ratio nor the logarithm of the volume fails. *)
Theorem calculate_score_defined (wants haves : Z) (price : Q) :
  (0 <= wants)%Z -> (0 <= haves)%Z ->
  (~ (price == -1)%Q ->
   exists s k, calculate_score ln wants haves price = Ok s /\ s = (inject_Z k / 100)%Q) /\
  ((price == -1)%Q ->
   calculate_score ln wants haves price =
     Raise (ZeroDivisionError "float division by zero")).
Proof.
  intros Hw Hh. split.
  - intros Hp. eexists _, _.
    split; [apply (calculate_score_run wants haves price Hw Hh Hp)|]. reflexivity.
  - intros Hp. rewrite (calculate_score_prefix wants haves price Hw Hh). cbv zeta.
    unfold py_truediv. destruct (Qeq_bool (price + 1) 0) eqn:E; [reflexivity|].
    apply Qeq_bool_neq in E. exfalso. apply E. lra.
Qed.

(** X16. For the same counts a dearer listing never scores higher: the
    price enters the score only through [50 / (price + 1)], and rounding to
    two decimals keeps the order. *)
Theorem calculate_score_price_monotone (wants haves : Z) (p1 p2 s1 s2 : Q) :
  (0 <= wants)%Z -> (0 <= haves)%Z -> (-1 < p1)%Q -> (p1 <= p2)%Q ->
  calculate_score ln wants haves p1 = Ok s1 ->
  calculate_score ln wants haves p2 = Ok s2 ->
  (s2 <= s1)%Q.
Proof.
  intros Hw Hh H1 H12.
  rewrite (calculate_score_run wants haves p1 Hw Hh) by lra.
  rewrite (calculate_score_run wants haves p2 Hw Hh) by lra.
  cbv zeta. intros [= <-] [= <-]. apply py_round2_mono.
  assert (Hp : (50 / (p2 + 1) <= 50 / (p1 + 1))%Q).
  { apply Qle_shift_div_l; [lra|].
    assert (E : (50 / (p2 + 1) * (p1 + 1) == 50 * (p1 + 1) / (p2 + 1))%Q) by (field; lra).
    rewrite E. apply Qle_shift_div_r; lra. }
  lra.
Qed.

End Scoring_facts.

(** ** Prices in the seller's currency *)

(** X17. [currency_exchange] multiplies by the rate of the currency, by 1
    when the table has no such currency, and rounds to two decimals: the
    result is within half a cent of the product, is a fixed point of the
    rounding, and does not decrease with the price when the rate is not
    negative. *)
Theorem currency_exchange_rounds (price price' : Q) (currency : string)
    (exchange_rates : gmap string Q) :
  let rate := default 1%Q (exchange_rates !! currency) in
  let r := currency_exchange (price, currency) exchange_rates in
  (price * rate - 0.005 <= r)%Q /\ (r <= price * rate + 0.005)%Q /\
  py_round2 r = r /\
  (exchange_rates !! currency = None -> r = py_round2 price) /\
  ((0 <= rate)%Q -> (price <= price')%Q ->
   (r <= currency_exchange (price', currency) exchange_rates)%Q).
Proof.
  cbv zeta. unfold currency_exchange.
  split; [apply py_round2_close|]. split; [apply py_round2_close|].
  split; [apply py_round2_idempotent|].
  split.
  - intros ->. cbn [default]. unfold py_round2.
    f_equal. f_equal. apply round_half_even_Qeq. ring.
  - intros Hr Hp. apply py_round2_mono. nra.
Qed.

(** ** The rate limiter *)

Lemma deque_append_length d x : length d = 3%nat -> length (deque_append d x) = 3%nat.
Proof.
  intros H. unfold deque_append. rewrite length_drop, !length_app, H. reflexivity.
Qed.

Lemma deque_append_three a b c x : deque_append [a; b; c] x = [b; c; x].
Proof. reflexivity. Qed.

Lemma add_request_ok t s : tracker_ok s -> tracker_ok (fst (add_request t s)).
Proof.
  intros (Hl & Hw & Hc & Hs). unfold add_request.
  destruct (Qle_bool 15 (t - current_window_start s));
    cbn [fst windows current_count sleep_time current_window_start];
    unfold tracker_ok; cbn [windows current_count sleep_time].
  - split; [apply deque_append_length, Hl|].
    split.
    + unfold deque_append. apply Forall_drop, Forall_app. split; [exact Hw|].
      constructor; [exact Hc | constructor].
    + split; [lia|].
      destruct (45 <? _)%Z; [lra|].
      destruct (_ <? 40)%Z; [|exact Hs].
      eapply Qle_trans; [|apply Q.le_max_l]. lra.
  - split; [exact Hl|]. split; [exact Hw|]. split; [lia | exact Hs].
Qed.

Lemma add_request_count t s :
  tracker_ok s -> (1 <= current_count (fst (add_request t s)))%Z.
Proof.
  intros (_ & _ & Hc & _). unfold add_request.
  destruct (Qle_bool 15 (t - current_window_start s));
    cbn [fst windows current_count sleep_time current_window_start]; lia.
Qed.

Lemma add_request_sleep t s :
  (0 <= sleep_time s)%Q ->
  (sleep_time (fst (add_request t s)) <= sleep_time s + 0.1)%Q.
Proof.
  intros Hs. unfold add_request.
  destruct (Qle_bool 15 (t - current_window_start s));
    cbn [fst windows current_count sleep_time current_window_start]; [|lra].
  destruct (45 <? _)%Z; [lra|].
  destruct (_ <? 40)%Z; [|lra].
  apply Q.max_lub; lra.
Qed.

Lemma requests_snoc times t s :
  requests (times ++ [t]) s = fst (add_request t (requests times s)).
Proof. unfold requests. rewrite foldl_app. reflexivity. Qed.

Lemma new_tracker_ok t0 : tracker_ok (new_tracker t0).
Proof.
  unfold tracker_ok, new_tracker. cbn. split; [reflexivity|].
  split; [repeat constructor; lia|]. split; [lia | lra].
Qed.

Lemma requests_ok t0 times : tracker_ok (requests times (new_tracker t0)).
Proof.
  induction times as [|t times IH] using rev_ind; [apply new_tracker_ok|].
  rewrite requests_snoc. apply add_request_ok, IH.
Qed.

(** X18. Whatever the times of the requests, the tracker of a client keeps
    three windows with non-negative counts, a non-negative sleep time that
    grows by at most a tenth of a second per request, and, once a request
    was made, a current count of at least one. *)
Theorem rate_limit_tracker_invariant (t0 : Q) (times : list Q) :
  let s := requests times (new_tracker t0) in
  length (windows s) = 3%nat /\ Forall (fun c => 0 <= c)%Z (windows s) /\
  (0 <= sleep_time s)%Q /\ (sleep_time s <= 0.1 * of_nat (length times))%Q /\
  (times <> [] -> (1 <= current_count s)%Z).
Proof.
  cbv zeta. destruct (requests_ok t0 times) as (Hl & Hw & _ & Hs).
  split; [exact Hl|]. split; [exact Hw|]. split; [exact Hs|]. clear Hl Hw Hs.
  split.
  - induction times as [|t times IH] using rev_ind.
    + change (0.0 <= 0.1 * 0)%Q. lra.
    + rewrite requests_snoc.
      pose proof (add_request_sleep t (requests times (new_tracker t0))
                    ltac:(apply requests_ok)) as Hs.
      rewrite length_app. cbn [length]. unfold of_nat in *.
      rewrite Nat2Z.inj_add, inject_Z_plus. change (inject_Z (Z.of_nat 1)) with 1%Q.
      lra.
  - destruct times as [|t times] using rev_ind; [intros H; contradiction|].
    intros _. rewrite requests_snoc. apply add_request_count, requests_ok.
Qed.

(** X19. On every tracker a client can reach, a request that completes a
    window (fifteen seconds or more after the window started) shifts the
    three windows, starts a new window with this request as its first, and
    compares with the thresholds 45 and 40 a total in which the completed
    window is counted twice, once as the newest window and once as the
    current count. *)
Theorem window_total_counts_completed_window_twice (t0 : Q) (times : list Q)
    (current_time : Q) :
  let s := requests times (new_tracker t0) in
  (15 <= current_time - current_window_start s)%Q ->
  exists a b c,
    windows s = [a; b; c] /\
    snd (add_request current_time s) = Some (b + c + 2 * current_count s)%Z /\
    windows (fst (add_request current_time s)) = [b; c; current_count s] /\
    current_count (fst (add_request current_time s)) = 1%Z /\
    current_window_start (fst (add_request current_time s)) = current_time.
Proof.
  cbv zeta. intros H.
  destruct (requests_ok t0 times) as (Hl & _).
  set (s := requests times (new_tracker t0)) in *.
  destruct (windows s) as [|a [|b [|c [|d l]]]] eqn:Hw; try discriminate Hl.
  exists a, b, c. split; [reflexivity|].
  unfold add_request. rewrite Hw, deque_append_three.
  apply Qle_bool_iff in H. rewrite H.
  cbn [fst snd windows current_count current_window_start].
  split; [|repeat split].
  f_equal. unfold Zsum. simpl. lia.
Qed.

(** X20. Inside the first window the tracker never slows the client down:
    when all the requests come less than fifteen seconds after the tracker
    was created, it has only counted them. *)
Theorem requests_inside_first_window (t0 : Q) (times : list Q) :
  (forall t, In t times -> (t - t0 < 15)%Q) ->
  requests times (new_tracker t0) =
    {| windows := [0; 0; 0]%Z; current_window_start := t0;
       current_count := Z.of_nat (length times); sleep_time := 0.0 |}.
Proof.
  induction times as [|t times IH] using rev_ind; intros H; [reflexivity|].
  rewrite requests_snoc, IH by (intros t' Ht'; apply H, in_app_iff; left; exact Ht').
  unfold add_request. cbn [current_window_start].
  assert (E : Qle_bool 15 (t - t0) = false).
  { destruct (Qle_bool 15 (t - t0)) eqn:E; [|reflexivity].
    apply Qle_bool_iff in E.
    assert (Ht : In t (times ++ [t])) by (apply in_app_iff; right; left; reflexivity).
    specialize (H t Ht). lra. }
  rewrite E. cbn [fst windows current_window_start current_count sleep_time].
  rewrite length_app. cbn [length]. f_equal. lia.
Qed.

(** ** The inventory file *)

Lemma filter_not_in_NoDup new_ids old_ids :
  NoDup new_ids -> NoDup old_ids ->
  NoDup (new_ids ++ List.filter (not_in new_ids) old_ids).
Proof.
  intros Hn Ho. apply NoDup_app. split; [exact Hn|]. split.
  - intros x Hx Hf. apply list_elem_of_In, filter_In in Hf as [_ Hf].
    unfold not_in in Hf. apply negb_true_iff in Hf.
    assert (Ht : existsb (Z.eqb x) new_ids = true).
    { apply existsb_exists. exists x. split; [apply list_elem_of_In, Hx | apply Z.eqb_refl]. }
    congruence.
  - induction Ho as [|y l Hy Hl IH]; simpl; [constructor|].
    destruct (not_in new_ids y); [|exact IH].
    constructor; [|exact IH].
    intros Hin. apply Hy. apply list_elem_of_In. apply list_elem_of_In in Hin.
    apply filter_In in Hin. apply Hin.
Qed.

(** X21. [update_user_inventory] always leaves a file; the entries of the
    other users are those of the file it read (none when there was no file),
    and the entry of the user carries today's date. *)
Theorem update_user_inventory_entry (today username : string) (new_ids : list Z)
    (file : InventoryFile) :
  exists data entry,
    update_user_inventory today username new_ids file = Some data /\
    data !! username = Some entry /\ last_inventory entry = today /\
    (forall other, other <> username ->
       data !! other = load_inventory_json file !! other).
Proof.
  unfold update_user_inventory.
  destruct (load_inventory_json file !! username) as [e|];
    (eexists _, _; split; [reflexivity|];
     split; [apply lookup_insert_eq|]; split; [reflexivity|];
     intros other Hne; apply lookup_insert_ne; congruence).
Qed.

(** X22. The identifiers [update_user_inventory] stores.  For a user the
    file already knows: the new identifiers come first, followed by the old
    ones that are not among them, cut after fifty; every stored identifier
    is a new or an old one, and none is repeated when neither list repeats
    one.  For a user the file does not know, the new identifiers are stored
    as they are, however many. *)
Theorem update_user_inventory_ids (today username : string) (new_ids : list Z)
    (file : InventoryFile) :
  exists data entry,
    update_user_inventory today username new_ids file = Some data /\
    data !! username = Some entry /\
    (load_inventory_json file !! username = None -> record_ids entry = new_ids) /\
    (forall old, load_inventory_json file !! username = Some old ->
       (length (record_ids entry) <= 50)%nat /\
       take (length new_ids) (record_ids entry) = take 50 new_ids /\
       (forall rid, In rid (record_ids entry) ->
          In rid new_ids \/ In rid (record_ids old)) /\
       ((length new_ids + length (record_ids old) <= 50)%nat ->
        forall rid, In rid new_ids \/ In rid (record_ids old) ->
          In rid (record_ids entry)) /\
       (NoDup new_ids -> NoDup (record_ids old) -> NoDup (record_ids entry))).
Proof.
  unfold update_user_inventory.
  destruct (load_inventory_json file !! username) as [e|] eqn:El.
  - eexists _, _. split; [reflexivity|]. split; [apply lookup_insert_eq|].
    split; [discriminate|]. intros old [= <-]. cbn [record_ids].
    set (rest := List.filter (not_in new_ids) (record_ids e)).
    split; [rewrite length_take; lia|].
    split.
    { rewrite take_take. destruct (Nat.le_gt_cases (length new_ids) 50) as [Hle|Hgt].
      - rewrite Nat.min_l by exact Hle. rewrite take_app_length.
        symmetry. apply take_ge. exact Hle.
      - rewrite Nat.min_r by lia. rewrite take_app_le by lia. reflexivity. }
    split.
    { intros rid Hin. apply In_take in Hin. apply in_app_iff in Hin as [Hin|Hin];
        [left; exact Hin|]. right. apply filter_In in Hin. apply Hin. }
    split.
    { intros Hlen rid Hin. rewrite take_ge.
      - apply in_app_iff. destruct Hin as [Hin|Hin]; [left; exact Hin|].
        destruct (not_in new_ids rid) eqn:En.
        + right. apply filter_In. split; assumption.
        + left. unfold not_in in En. apply negb_false_iff, existsb_exists in En.
          destruct En as (y & Hy & Hxy). apply Z.eqb_eq in Hxy. subst y. exact Hy.
      - rewrite length_app.
        pose proof (filter_length_le (not_in new_ids) (record_ids e)). fold rest in H.
        lia. }
    intros Hn Ho. pose proof (filter_not_in_NoDup _ _ Hn Ho) as Hnd. fold rest in Hnd.
    rewrite <- (take_drop 50 (new_ids ++ rest)) in Hnd.
    apply NoDup_app in Hnd as [Hnd _]. exact Hnd.
  - eexists _, _. split; [reflexivity|]. split; [apply lookup_insert_eq|].
    split; [reflexivity | discriminate].
Qed.

(** * The further properties on concrete inputs *)

Section More_concrete.
Import Ref Samples.

Lemma build_feature_vectors_result_witness :
  exists m w',
    _build_feature_vectors window5 true w_low = (Ok (m, map id window5), w') /\
    is_fitted (self w') = true.
Proof.
  destruct (_build_feature_vectors window5 true w_low) as [[[m ids]|e] w'] eqn:E;
    [|vm_compute in E; discriminate E].
  destruct (build_feature_vectors_result window5 true w_low) as (_ & H & _).
  destruct (H m ids w' E) as (-> & _ & Hf).
  exists m, w'. split; [reflexivity|]. apply Hf. discriminate.
Defined.

Lemma update_cluster_model_outcome_witness :
  exists w',
    _update_cluster_model window5 w_low = (Ok true, w') /\
    cluster_centroids (self w') = Some (cluster_centers_ (cluster_model (self w'))) /\
    recent_listings_cache (self w') = Some window5.
Proof.
  destruct (update_cluster_model_outcome window5 w_low)
    as (b & w' & Hr & _ & _ & _ & Ht & _).
  assert (Hb : fst (_update_cluster_model window5 w_low) = Ok true)
    by (vm_compute; reflexivity).
  rewrite Hr in Hb. injection Hb as ->.
  exists w'. split; [exact Hr|].
  destruct (Ht eq_refl eq_refl) as (H1 & _ & H3). split; assumption.
Defined.

Lemma entropy_measure_bounds_witness :
  exists v w',
    _calculate_entropy_measure l_far window5 w_votes = (Ok v, w') /\
    (0.1 <= v)%Q /\ (v <= 0.9 * (1 + 0.3 * 4))%Q.
Proof.
  apply entropy_measure_bounds; [lra|].
  intros r [<-|[]]. simpl. split; lra.
Defined.

Lemma free_energy_order_witness :
  (free_energy_of l_top 0.5 0.5 w_low <= free_energy_of l_top 0.2 0.5 w_low)%Q /\
  (free_energy_of l_top 0.2 0.5 w_low <= free_energy_of l_low 0.2 0.5 w_low)%Q /\
  (free_energy_of l_zero 0.2 0.5 w_low <= free_energy_of l_top 0.2 0.5 w_low)%Q.
Proof.
  split; [|split].
  - apply (free_energy_order l_top l_top 0.2 0.5 0.5 w_low); lra.
  - apply (free_energy_order l_low l_top 0.2 0.2 0.5 w_low); simpl; lra.
  - apply (free_energy_order l_zero l_top 0.2 0.2 0.5 w_low); simpl; lra.
Defined.

Lemma boltzmann_sampling_probability_witness :
  exists sid q w',
    _boltzmann_sampling [-1.15; -0.8]%Q [1; 2]%Z 0.5 w_low = (Ok (sid, Fin q), w') /\
    (0 <= q)%Q /\ (q <= 1 + atol)%Q /\ rng_pos w' = S (rng_pos w_low).
Proof.
  destruct (boltzmann_sampling_probability [-1.15; -0.8]%Q [1; 2]%Z 0.5 w_low)
    as (sid & q & w' & Hr & H0 & H1 & Hp & _); [discriminate|].
  exists sid, q, w'. repeat split; assumption.
Defined.

Lemma select_record_of_the_day_selects_witness :
  exists x b w',
    select_record_of_the_day 50 w_fresh = (Ok (Some x, b), w') /\
    In x (listings (db w_fresh)) /\ (0.5 < score x)%Q /\
    b !! "total_candidates" = Some (VInt 1) /\
    b !! "error" = None.
Proof.
  destruct (select_record_of_the_day_selects 50 w_fresh)
    as (x & b & w' & Hr & Hin & Hs & _ & Hn & _ & _ & He & _);
    [lia | discriminate |].
  exists x, b, w'. repeat split; assumption.
Defined.


Lemma dashboard_first_read_persists_witness :
  exists x r w',
    DashboardAPIView_get false w_fresh =
      (Ok {| r_record_of_the_day := Some x; r_record_of_the_day_obj := Some r;
             r_breakdown := persisted_breakdown r |}, w') /\
    rows_on today (db w') = [r] /\ listing_id r = id x.
Proof.
  destruct (dashboard_first_read_persists w_fresh)
    as (x & r & w' & Hr & _ & _ & _ & _ & Hl & _ & _ & _ & _ & _ & Hrows & _);
    [reflexivity | discriminate |].
  exists x, r, w'. repeat split; assumption.
Defined.

Lemma dashboard_read_without_eligible_witness :
  exists w',
    DashboardAPIView_get false w_low =
      (Ok {| r_record_of_the_day := Some l_low; r_record_of_the_day_obj := None;
             r_breakdown := <["selection_method" := VStr "fallback_highest_score"]> ∅ |},
       w') /\
    db w' = db w_low /\ (score l_low <= 0.5)%Q.
Proof.
  destruct (dashboard_read_without_eligible w_low) as (w' & Hr & Hdb & _ & Hh);
    [reflexivity | reflexivity |].
  exists w'. split; [exact Hr|]. split; [exact Hdb|].
  apply (Hh l_low). reflexivity.
Defined.

Lemma force_refresh_deletes_without_replacing_witness :
  exists x b w',
    DashboardAPIView_get true w_selected =
      (Ok {| r_record_of_the_day := Some x; r_record_of_the_day_obj := None;
             r_breakdown := b |}, w') /\
    rows_on today (db w') = [] /\ (0.5 < score x)%Q.
Proof.
  destruct (force_refresh_deletes_without_replacing w_selected)
    as (l & b & w' & Hr & Hrows & _ & _ & Hp).
  destruct Hp as (x & -> & _ & Hs & _); [discriminate|].
  exists x, b, w'. repeat split; assumption.
Defined.

Lemma refresh_view_outcome_witness :
  (exists w' r,
     refresh_record_of_the_day_view w_selected = (Ok Refreshed, w') /\
     rows_on today (db w') = [r] /\ desirability_votes r = []) /\
  (exists w',
     refresh_record_of_the_day_view w_low = (Ok NoEligible, w') /\
     rows_on today (db w') = []).
Proof.
  split.
  - destruct (refresh_view_outcome w_selected) as (resp & w' & Hr & _ & _ & Hp & _).
    destruct Hp as (-> & r & x & Hrows & _ & _ & _ & Hv & _); [discriminate|].
    exists w', r. repeat split; assumption.
  - destruct (refresh_view_outcome w_low) as (resp & w' & Hr & _ & _ & _ & Hp).
    destruct Hp as (-> & Hrows); [reflexivity|].
    exists w'. split; assumption.
Defined.



Lemma calculate_score_defined_witness :
  (exists s k, calculate_score ln3 100 50 20 = Ok s /\ s = (inject_Z k / 100)%Q) /\
  calculate_score ln3 100 0 (-1) = Raise (ZeroDivisionError "float division by zero").
Proof.
  split.
  - apply (calculate_score_defined ln3 100 50 20); [lia | lia | ].
    intros H. vm_compute in H. discriminate H.
  - apply (calculate_score_defined ln3 100 0 (-1)); [lia | lia | reflexivity].
Defined.

Lemma calculate_score_price_monotone_witness :
  exists s1 s2,
    calculate_score ln3 100 50 10 = Ok s1 /\ calculate_score ln3 100 50 20 = Ok s2 /\
    (s2 <= s1)%Q.
Proof.
  eexists _, _. split; [reflexivity|]. split; [reflexivity|].
  apply (calculate_score_price_monotone ln3 100 50 10 20);
    [lia | lia | lra | lra | reflexivity | reflexivity].
Defined.

Lemma currency_exchange_rounds_witness :
  currency_exchange (10%Q, "XXX") rates = py_round2 10 /\
  (currency_exchange (10%Q, "EUR") rates <= currency_exchange (12%Q, "EUR") rates)%Q.
Proof.
  split.
  - apply (currency_exchange_rounds 10 10 "XXX" rates). reflexivity.
  - apply (currency_exchange_rounds 10 12 "EUR" rates); [vm_compute; discriminate | lra].
Defined.

Lemma rate_limit_tracker_invariant_witness :
  (1 <= current_count (requests [1; 2; 20]%Q tracker0))%Z.
Proof.
  apply (rate_limit_tracker_invariant 0 [1; 2; 20]%Q). discriminate.
Defined.

Lemma window_total_counts_completed_window_twice_witness :
  snd (add_request 20 (requests [1; 2]%Q (new_tracker 0))) = Some 4%Z.
Proof.
  destruct (window_total_counts_completed_window_twice 0 [1; 2]%Q 20)
    as (a & b & c & Hw & Ht & _); [vm_compute; discriminate|].
  injection Hw as <- <- <-. exact Ht.
Defined.

Lemma requests_inside_first_window_witness :
  current_count (requests [1; 2; 3]%Q (new_tracker 0)) = 3%Z /\
  sleep_time (requests [1; 2; 3]%Q (new_tracker 0)) = 0.0%Q.
Proof.
  rewrite (requests_inside_first_window 0 [1; 2; 3]%Q).
  - split; reflexivity.
  - intros t [<-|[<-|[<-|[]]]]; lra.
Defined.

Lemma update_user_inventory_entry_witness :
  exists data,
    update_user_inventory "2024-02-01" "buyer" [7; 8]%Z file0 = Some data /\
    data !! "seller" = load_inventory_json file0 !! "seller".
Proof.
  destruct (update_user_inventory_entry "2024-02-01" "buyer" [7; 8]%Z file0)
    as (data & entry & Hr & _ & _ & Ho).
  exists data. split; [exact Hr|]. apply Ho. discriminate.
Defined.

Lemma update_user_inventory_ids_witness :
  exists data entry,
    update_user_inventory "2024-02-01" "seller" [4; 5]%Z file0 = Some data /\
    data !! "seller" = Some entry /\
    (length (record_ids entry) <= 50)%nat /\ In 3%Z (record_ids entry) /\
    NoDup (record_ids entry).
Proof.
  destruct (update_user_inventory_ids "2024-02-01" "seller" [4; 5]%Z file0)
    as (data & entry & Hr & He & _ & Ho).
  destruct (Ho {| last_inventory := "2024-01-01"; record_ids := [3; 4]%Z |} eq_refl)
    as (Hlen & _ & _ & Hall & Hnd).
  exists data, entry. split; [exact Hr|]. split; [exact He|].
  split; [exact Hlen|]. split.
  - apply Hall; [simpl; lia|]. right. left. reflexivity.
  - apply Hnd.
    + apply NoDup_cons. split; [|apply NoDup_singleton].
      intros H. apply list_elem_of_In in H. destruct H as [H|[]]. discriminate H.
    + apply NoDup_cons. split; [|apply NoDup_singleton].
      intros H. apply list_elem_of_In in H. destruct H as [H|[]]. discriminate H.
Defined.


End More_concrete.
